(** * Offline image transfer tools: export (download_images.py) and
    import (import_images.py)

    A shallow embedding of the two batch runners of the repository and of
    the helpers they are built from.  Python text is a [string] whose
    characters stand for the bytes of its UTF-8 encoding, and so is what a
    process writes before it is decoded; paths are strings in pathlib's
    normal form; lists are Python lists.  Calls of [Logger]
    and [print] only write to the console, which is not part of the
    modelled state. *)

From Stdlib Require Import Ascii String.
From stdpp Require Import base option list strings gmap.

Open Scope string_scope.

(** ** Python text and path helpers *)
Module Py.

(** [s.replace(old, new)] for one-character [old] and [new]: every
    occurrence is replaced. *)
Fixpoint replace (old new : ascii) (s : string) : string :=
  match s with
  | EmptyString => EmptyString
  | String c s' =>
      String (if Ascii.eqb c old then new else c) (replace old new s')
  end.

(** [s.replace(old, new, 1)]: the leftmost occurrence only. *)
Fixpoint replace_first (old new : ascii) (s : string) : string :=
  match s with
  | EmptyString => EmptyString
  | String c s' =>
      if Ascii.eqb c old then String new s'
      else String c (replace_first old new s')
  end.

(** [c in s] for a one-character [c]. *)
Fixpoint contains (c : ascii) (s : string) : bool :=
  match s with
  | EmptyString => false
  | String d s' => Ascii.eqb d c || contains c s'
  end.

(** [s.split(sep)] for a one-character separator: never empty. *)
Fixpoint split (sep : ascii) (s : string) : list string :=
  match s with
  | EmptyString => [EmptyString]
  | String c s' =>
      if Ascii.eqb c sep then EmptyString :: split sep s'
      else match split sep s' with
           | [] => [String c EmptyString]
           | p :: ps => String c p :: ps
           end
  end.

(** [s.split(sep, 1)]: the text before the leftmost separator, and the
    text after it when there is one. *)
Fixpoint split_once (sep : ascii) (s : string) : string * option string :=
  match s with
  | EmptyString => (EmptyString, None)
  | String c s' =>
      if Ascii.eqb c sep then (EmptyString, Some s')
      else let '(a, b) := split_once sep s' in (String c a, b)
  end.

(** [s.startswith(p)]. *)
Fixpoint startswith (p s : string) : bool :=
  match p, s with
  | EmptyString, _ => true
  | String a p', String b s' => Ascii.eqb a b && startswith p' s'
  | String _ _, EmptyString => false
  end.

(** [s.endswith(p)]. *)
Definition endswith (p s : string) : bool :=
  startswith (String.rev p) (String.rev s).

(** [c.isspace()] for a character of ASCII: the bytes 9 to 13 and 28 to
    32. *)
Definition isspace (c : ascii) : bool :=
  let n := nat_of_ascii c in
  ((9 <=? n)%nat && (n <=? 13)%nat) || ((28 <=? n)%nat && (n <=? 32)%nat).

(** [c.isspace()] for a character outside ASCII, given by the bytes of its
    encoding: U+0085 and U+00A0 take two bytes ([C2 85], [C2 A0]); U+1680
    ([E1 9A 80]), U+2000 to U+200A ([E2 80 80] to [E2 80 8A]), U+2028,
    U+2029 and U+202F ([E2 80 A8], [E2 80 A9], [E2 80 AF]), U+205F
    ([E2 81 9F]) and U+3000 ([E3 80 80]) take three. *)
Definition isspace2 (a b : ascii) : bool :=
  let x := nat_of_ascii a in
  let y := nat_of_ascii b in
  (x =? 194)%nat && ((y =? 133)%nat || (y =? 160)%nat).

Definition isspace3 (a b c : ascii) : bool :=
  let x := nat_of_ascii a in
  let y := nat_of_ascii b in
  let z := nat_of_ascii c in
  ((x =? 225)%nat && (y =? 154)%nat && (z =? 128)%nat)
  || ((x =? 226)%nat && (y =? 128)%nat
      && (((128 <=? z)%nat && (z <=? 138)%nat)
          || (z =? 168)%nat || (z =? 169)%nat || (z =? 175)%nat))
  || ((x =? 226)%nat && (y =? 129)%nat && (z =? 159)%nat)
  || ((x =? 227)%nat && (y =? 128)%nat && (z =? 128)%nat).

(** The text without its leading white space.  With [backwards] the text
    is one that was reversed, so that the bytes of a character come last
    byte first. *)
Fixpoint lstrip_bytes (backwards : bool) (s : string) : string :=
  match s with
  | EmptyString => EmptyString
  | String a s1 =>
      if isspace a then lstrip_bytes backwards s1
      else
        match s1 with
        | EmptyString => s
        | String b s2 =>
            if (if backwards then isspace2 b a else isspace2 a b)
            then lstrip_bytes backwards s2
            else
              match s2 with
              | EmptyString => s
              | String c s3 =>
                  if (if backwards then isspace3 c b a else isspace3 a b c)
                  then lstrip_bytes backwards s3
                  else s
              end
        end
  end.

(** [s.lstrip()] and [s.rstrip()]. *)
Definition lstrip (s : string) : string := lstrip_bytes false s.

Definition rstrip (s : string) : string :=
  String.rev (lstrip_bytes true (String.rev s)).

(** [s.strip()]. *)
Definition strip (s : string) : string := rstrip (lstrip s).

(** Whether bytes are well-formed UTF-8, which is when [bytes.decode()]
    returns: one byte below 128; a lead byte [C2] to [DF] and one
    continuation byte ([80] to [BF]); a lead byte [E0] to [EF] and two
    (the first from [A0] after [E0] and up to [9F] after [ED]); a lead byte
    [F0] to [F4] and three (the first from [90] after [F0] and up to [8F]
    after [F4]). *)
Definition in_range (lo hi : nat) (c : ascii) : bool :=
  (lo <=? nat_of_ascii c)%nat && (nat_of_ascii c <=? hi)%nat.

Definition second_of_three (a b : ascii) : bool :=
  if (nat_of_ascii a =? 224)%nat then in_range 160 191 b
  else if (nat_of_ascii a =? 237)%nat then in_range 128 159 b
  else in_range 128 191 b.

Definition second_of_four (a b : ascii) : bool :=
  if (nat_of_ascii a =? 240)%nat then in_range 144 191 b
  else if (nat_of_ascii a =? 244)%nat then in_range 128 143 b
  else in_range 128 191 b.

Fixpoint utf8_valid (s : string) : bool :=
  match s with
  | EmptyString => true
  | String a s1 =>
      if in_range 0 127 a then utf8_valid s1
      else
        match s1 with
        | EmptyString => false
        | String b s2 =>
            if in_range 194 223 a then in_range 128 191 b && utf8_valid s2
            else
              match s2 with
              | EmptyString => false
              | String c s3 =>
                  if in_range 224 239 a then
                    second_of_three a b && in_range 128 191 c
                    && utf8_valid s3
                  else
                    match s3 with
                    | EmptyString => false
                    | String d s4 =>
                        in_range 240 244 a && second_of_four a b
                        && in_range 128 191 c && in_range 128 191 d
                        && utf8_valid s4
                    end
              end
        end
  end.

(** Truth value of a text: non-empty. *)
Definition truthy (s : string) : bool :=
  match s with EmptyString => false | _ => true end.

(** [str(Path(d) / n)] for a relative, single-component [n]. *)
Definition path_join (d n : string) : string :=
  if String.eqb d "." then n
  else if String.eqb d "/" then "/" ++ n
  else d ++ "/" ++ n.

(** [Path(p).name]: the final component. *)
Fixpoint path_name (p : string) : string :=
  match p with
  | EmptyString => EmptyString
  | String c p' =>
      if contains "/" p' then path_name p'
      else if Ascii.eqb c "/" then p' else p
  end.

(** Index of the rightmost [c] in [s], as [s.rfind(c)]. *)
Fixpoint rfind (c : ascii) (s : string) : option nat :=
  match s with
  | EmptyString => None
  | String d s' =>
      match rfind c s' with
      | Some i => Some (S i)
      | None => if Ascii.eqb d c then Some 0 else None
      end
  end.

(** [Path(p).stem]: the final component without its last suffix. *)
Definition path_stem (p : string) : string :=
  let name := path_name p in
  match rfind "." name with
  | Some i =>
      if (0 <? i)%nat && (i <? String.length name - 1)%nat
      then String.substring 0 i name else name
  | None => name
  end.

(** [str(Path(p).parent)]: ['.'] for a single relative name, the root
    for a name directly under it, and for both of them themselves. *)
Definition path_parent (p : string) : string :=
  match rfind "/" p with
  | None => "."
  | Some O => "/"
  | Some i => String.substring 0 i p
  end.

(** The rest of [s] after the prefix [p], when [s] starts with [p]. *)
Fixpoint strip_prefix (p s : string) : option string :=
  match p, s with
  | EmptyString, _ => Some s
  | String a p', String b s' =>
      if Ascii.eqb a b then strip_prefix p' s' else None
  | String _ _, EmptyString => None
  end.

(** [Path(p).is_absolute()]. *)
Definition is_absolute (p : string) : bool := startswith "/" p.

End Py.

(** ** Archive naming (download_images.py, [save_image] and
    [generate_manifest]) *)

(** [safe_name = image.replace(':', '-').replace('/', '_')] *)
Definition safe_name (image : string) : string :=
  Py.replace "/" "_" (Py.replace ":" "-" image).

(** [f"{safe_name}.tar"] *)
Definition archive_file_name (image : string) : string :=
  safe_name image ++ ".tar".

(** What [safe_name] does to one character. *)
Definition safe_char (c : ascii) : ascii :=
  if Ascii.eqb c "/" then "_"%char
  else if Ascii.eqb c ":" then "-"%char else c.

(** A component of an image reference that holds no ['/'] and no [':']. *)
Definition separator_free (s : string) : Prop :=
  Py.contains "/" s = false /\ Py.contains ":" s = false.

(** The naming rule in the words of the specification: only the first
    ['/'] and only the first [':'] are replaced. *)
Definition spec_archive_file_name (image : string) : string :=
  Py.replace_first "/" "_" (Py.replace_first ":" "-" image) ++ ".tar".

(** ** Exceptions, results and the state-and-exception monad *)

(** The exception classes the two programs tell apart in their [except]
    clauses, and the ones the modelled operations raise.  All of them are
    subclasses of [Exception]. *)
Inductive exn_kind : Type :=
  | CalledProcessError | FileNotFoundError | FileExistsError | OSError
  | KeyError | TypeError | ValueError | AttributeError | OtherError.

(** An exception object; [e_msg] is [str(e)]. *)
Record exn : Type := Exn { e_kind : exn_kind; e_msg : string }.

Definition is_kind (k : exn_kind) (e : exn) : bool :=
  match k, e_kind e with
  | CalledProcessError, CalledProcessError
  | FileNotFoundError, FileNotFoundError
  | FileExistsError, FileExistsError
  | OSError, OSError | KeyError, KeyError | TypeError, TypeError
  | ValueError, ValueError | AttributeError, AttributeError
  | OtherError, OtherError => true
  | _, _ => false
  end.

(** Outcome of a call: a returned value or a raised exception. *)
Inductive res (A : Type) : Type :=
  | Ok (a : A)
  | Raise (e : exn).
Arguments Ok {A} a.
Arguments Raise {A} e.

(** A computation over a mutable state [St] that may raise.  The state
    changes made before a raise persist, as in Python. *)
Definition M (St A : Type) : Type := St -> res A * St.

Definition ret {St A} (a : A) : M St A := fun s => (Ok a, s).

Definition raise {St A} (e : exn) : M St A := fun s => (Raise e, s).

Definition bind {St A B} (m : M St A) (k : A -> M St B) : M St B :=
  fun s => match m s with
           | (Ok a, s') => k a s'
           | (Raise e, s') => (Raise e, s')
           end.

(** [try: m  except <classes accepted by handles>: h e]. *)
Definition try_except {St A} (m : M St A) (handles : exn -> bool)
    (h : exn -> M St A) : M St A :=
  fun s => match m s with
           | (Raise e, s') => if handles e then h e s' else (Raise e, s')
           | r => r
           end.

(** [except Exception]: every modelled exception. *)
Definition any_exception (e : exn) : bool := true.

(** Run a computation on one component of a pair of states. *)
Definition on_snd {S1 S2 A} (m : M S2 A) : M (S1 * S2) A :=
  fun s => let '(r, s2) := m (snd s) in (r, (fst s, s2)).

(** [fmap]-like post-processing of a returned value. *)
Definition map_ret {St A B} (f : A -> B) (m : M St A) : M St B :=
  bind m (fun a => ret (f a)).

(** One computation per element, left to right, stopping at a raise. *)
Fixpoint for_each {St A B} (f : A -> M St B) (l : list A) : M St (list B) :=
  match l with
  | [] => ret []
  | x :: l' =>
      bind (f x) (fun y => bind (for_each f l') (fun ys => ret (y :: ys)))
  end.

Notation "'do' x <- m ; k" := (bind m (fun x => k))
  (at level 10, x name, m at level 100, k at level 200,
   format "'[v' 'do'  x  <-  m ; '/' k ']'").
Notation "'run' m ; k" := (bind m (fun _ => k))
  (at level 10, m at level 100, k at level 200,
   format "'[v' 'run'  m ; '/' k ']'").

(** ** The world outside the process *)

(** Parsed JSON text, as [json.load] returns it (numbers are integers). *)
#[warnings="-register-all"]
Inductive json : Type :=
  | JNull
  | JBool (b : bool)
  | JNum (n : Z)
  | JStr (s : string)
  | JArr (l : list json)
  | JObj (kv : list (string * json)).

(** What a path holds: a directory, opaque bytes (an image archive or a
    text cut short), JSON text, or a compose document: a YAML mapping whose
    ['services'] maps each service name to a mapping, given by the
    services in document order, each with the text under its ['image'] key
    when it has that key. *)
Inductive content : Type :=
  | Dir
  | Blob
  | Json (doc : json)
  | Compose (services : list (string * option string)).

Record file : Type := File { f_size : N; f_content : content }.

(** What the process did to the outside: external commands it ran and
    files it created, truncated or removed. *)
Inductive event : Type :=
  | Exec (argv : list string)
  | OpenWrite (path : string)
  | Unlink (path : string)
  | Mkdir (path : string).

Record World : Type := MkWorld {
  fs : gmap string file;
  trace : list event
}.

(** Result of [subprocess.run(argv, ...)]: the call itself raises (the
    binary is missing), or the process exits with a return code and its
    captured output. *)
Inductive proc : Type :=
  | SpawnError (e : exn)
  | Exited (rc : Z) (out err : string).

(** The collaborators the programs do not implement: the container
    runtime behind [subprocess.run]; the operating system deciding whether
    a path may be created or opened for writing ([write_error]), whether
    the text written to a file just opened gets there ([write_fault]: the
    error raised and the number of bytes that did), and which directory
    entries resolve to nothing ([broken_links]: symbolic links whose target
    is missing, which a scan lists although [exists()] is false for them
    and [stat()] raises); the clock; and the length of the text
    [json.dump] produces.  Each answer may depend on the whole world, so on
    everything done so far. *)
Record Runtime : Type := MkRuntime {
  run_process : list string -> World -> proc;
  write_error : string -> World -> option exn;
  strftime : World -> string;
  json_size : json -> N;
  write_fault : string -> World -> option (exn * N);
  broken_links : World -> list string
}.

Definition record_event (ev : event) (w : World) : World :=
  MkWorld (fs w) (trace w ++ [ev]).

Definition set_file (path : string) (f : file) (w : World) : World :=
  MkWorld (<[path := f]> (fs w)) (trace w).

Definition remove_file (path : string) (w : World) : World :=
  MkWorld (delete path (fs w)) (trace w).

(** [Path(path).exists()] *)
Definition path_exists (path : string) (w : World) : bool :=
  bool_decide (is_Some (fs w !! path)).

(** The [FileNotFoundError] raised for a path that is not there. *)
Definition no_such_file (path : string) : exn :=
  Exn FileNotFoundError
      ("[Errno 2] No such file or directory: '" ++ path ++ "'").

(** [Path(path).stat().st_size] *)
Definition stat_size (path : string) : M World N :=
  fun w => match fs w !! path with
           | Some f => (Ok (f_size f), w)
           | None => (Raise (no_such_file path), w)
           end.

Section Processes.
Context (rt : Runtime).

(** [subprocess.run(argv, capture_output=True, text=True)] *)
Definition subprocess_run (argv : list string)
    : M World (Z * string * string) :=
  fun w =>
    let w' := record_event (Exec argv) w in
    match run_process rt argv w with
    | SpawnError e => (Raise e, w')
    | Exited rc out err => (Ok (rc, out, err), w')
    end.

(** [subprocess.run(argv, ..., check=True)]: a non-zero return code
    raises [CalledProcessError] (its text names the command and the code,
    which no handler of the two programs reads). *)
Definition subprocess_run_check (argv : list string)
    : M World (Z * string * string) :=
  do r <- subprocess_run argv;
  if (r.1.1 =? 0)%Z then ret r
  else raise (Exn CalledProcessError "Command returned non-zero exit status").

(** [open(path, 'wb')] or [open(path, 'w')]: the file is created or
    truncated unless the operating system refuses. *)
Definition open_write (path : string) : M World unit :=
  fun w =>
    match write_error rt path w with
    | Some e => (Raise e, w)
    | None =>
        (Ok tt, record_event (OpenWrite path) (set_file path (File 0 Blob) w))
    end.

(** [Path(path).unlink()] *)
Definition unlink (path : string) : M World unit :=
  fun w =>
    match fs w !! path with
    | Some _ => (Ok tt, record_event (Unlink path) (remove_file path w))
    | None => (Raise (no_such_file path), w)
    end.

(** [os.mkdir(path)] where nothing is at [path] and its parent is a
    directory: the directory is made unless the operating system
    refuses. *)
Definition os_mkdir (path : string) : M World unit :=
  fun w =>
    match write_error rt path w with
    | Some e => (Raise e, w)
    | None =>
        (Ok tt, record_event (Mkdir path) (set_file path (File 0 Dir) w))
    end.

(** [Path(path).mkdir(parents=True, exist_ok=True)]: a directory that is
    there is left alone, anything else at [path] is a [FileExistsError];
    a missing parent is made first, in the same way, and a parent that is
    no directory is an error.  A single relative name is made in the
    current directory and a name under the root in the root, which are
    there without being listed.  [depth] bounds the number of missing
    ancestors. *)
Fixpoint make_dirs (depth : nat) (path : string) : M World unit :=
  fun w =>
    match fs w !! path with
    | Some (File _ Dir) => (Ok tt, w)
    | Some _ =>
        (Raise (Exn FileExistsError
                    ("[Errno 17] File exists: '" ++ path ++ "'")), w)
    | None =>
        let parent := Py.path_parent path in
        if String.eqb parent path then (Raise (no_such_file path), w)
        else if String.eqb parent "." || String.eqb parent "/"
        then os_mkdir path w
        else
          match fs w !! parent, depth with
          | Some (File _ Dir), _ => os_mkdir path w
          | Some _, _ =>
              (Raise (Exn OSError
                          ("[Errno 20] Not a directory: '" ++ path ++ "'")), w)
          | None, S depth' =>
              (run make_dirs depth' parent; os_mkdir path) w
          | None, O => (Raise (no_such_file path), w)
          end
    end.

Definition mkdir (path : string) : M World unit :=
  make_dirs (String.length path) path.

(** [b.decode()]: the text of bytes that are well-formed UTF-8, and a
    [UnicodeDecodeError], which is a [ValueError], for others (its text
    names the offending byte; the programs only log it). *)
Definition decode (b : string) : M World string :=
  if Py.utf8_valid b then ret b
  else raise (Exn ValueError "'utf-8' codec can't decode bytes").

End Processes.

(** [p.exists()] as a computation. *)
Definition exists_ (path : string) : M World bool :=
  fun w => (Ok (path_exists path w), w).

(** ** The worker pool: [ThreadPoolExecutor] and [as_completed]

    [executor.submit(task, item)] is called for every item before the
    harvest loop starts.  The pool starts queued tasks in submission
    order while fewer than [width] are running; a running task completes
    at some point, which is when its effects on the shared state are
    taken to happen; the main thread's [for future in as_completed(...)]
    loop then picks up completed futures one at a time and runs the loop
    body ([harvest]) on the outcome of [future.result()].  Which task
    completes next and when the main thread harvests is decided by the
    schedule. *)

Record Pool (St Item R : Type) : Type := MkPool {
  queue : list Item;                  (* submitted, not started *)
  running : list Item;                (* started, at most [width] *)
  finished : list (Item * res R);     (* completed, not yet harvested *)
  harvested : list (Item * res R);    (* seen by the harvest loop *)
  shared : St                         (* [self] and the world *)
}.
Arguments MkPool {St Item R}.
Arguments queue {St Item R}.
Arguments running {St Item R}.
Arguments finished {St Item R}.
Arguments harvested {St Item R}.
Arguments shared {St Item R}.

(** One move of the pool: start the next queued task, let the [k]-th
    running task complete, or harvest the [k]-th completed future. *)
Inductive action : Type :=
  | Start
  | Finish (k : nat)
  | Harvest (k : nat).

(** What a pool did to the shared state, in the order it did it: the task
    of an item ran to its end, or the harvest loop handled the outcome of
    a completed future. *)
Inductive move (Item R : Type) : Type :=
  | Ran (it : Item)
  | Collected (it : Item) (r : res R).
Arguments Ran {Item R} it.
Arguments Collected {Item R} it r.

Section Pool.
Context {St Item R : Type}.
Context (task : Item -> M St R).
Context (harvest : Item -> res R -> St -> St).
Context (width : nat).

(** The effect of an action, [None] when it is not enabled. *)
Definition step (a : action) (p : Pool St Item R) : option (Pool St Item R) :=
  match a with
  | Start =>
      match queue p with
      | it :: q =>
          if (length (running p) <? width)%nat
          then Some (MkPool q (running p ++ [it]) (finished p)
                            (harvested p) (shared p))
          else None
      | [] => None
      end
  | Finish k =>
      match running p !! k with
      | Some it =>
          let '(r, s') := task it (shared p) in
          Some (MkPool (queue p) (delete k (running p))
                       (finished p ++ [(it, r)]) (harvested p) s')
      | None => None
      end
  | Harvest k =>
      match finished p !! k with
      | Some (it, r) =>
          Some (MkPool (queue p) (running p) (delete k (finished p))
                       (harvested p ++ [(it, r)])
                       (harvest it r (shared p)))
      | None => None
      end
  end.

(** An action that is enabled whenever any is (for a pool of positive
    width). *)
Definition default_action (p : Pool St Item R) : action :=
  match finished p, running p with
  | _ :: _, _ => Harvest 0
  | [], _ :: _ => Finish 0
  | [], [] => Start
  end.

(** Follow the schedule's action when it is enabled, the default one
    otherwise; a pool with nothing left to do stays as it is. *)
Definition advance (a : action) (p : Pool St Item R) : Pool St Item R :=
  match step a p with
  | Some p' => p'
  | None => default p (step (default_action p) p)
  end.

Fixpoint drain (fuel : nat) (script : list action) (p : Pool St Item R)
    : Pool St Item R :=
  match fuel with
  | O => p
  | S fuel' =>
      match script with
      | a :: rest => drain fuel' rest (advance a p)
      | [] => drain fuel' [] (advance (default_action p) p)
      end
  end.

(** Nothing queued, running or waiting to be harvested: the [with] block
    and the harvest loop are over. *)
Definition idle (p : Pool St Item R) : Prop :=
  queue p = [] /\ running p = [] /\ finished p = [].

(** Work left: every item needs three moves. *)
Definition work_left (p : Pool St Item R) : nat :=
  3 * length (queue p) + 2 * length (running p) + length (finished p).

(** Submit all [items], then run the pool under [script] until the last
    future has been harvested. *)
Definition run_pool (items : list Item) (script : list action) (s : St)
    : Pool St Item R :=
  drain (3 * length items) script (MkPool items [] [] [] s).

(** The items of the batch, wherever they are in the pool. *)
Definition everywhere (p : Pool St Item R) : list Item :=
  queue p ++ running p ++ (finished p).*1 ++ (harvested p).*1.

(** Every outcome in the pool is what the task produced on the state it
    ran on. *)
Definition outcome_of_task (e : Item * res R) : Prop :=
  exists s, (task e.1 s).1 = e.2.

(** The shared state after the moves of [log], starting from [s]. *)
Fixpoint replay (log : list (move Item R)) (s : St) : St :=
  match log with
  | [] => s
  | Ran it :: log' => replay log' (task it s).2
  | Collected it r :: log' => replay log' (harvest it r s)
  end.

(** The outcomes of the tasks that ran in [log], each on the state the
    moves before it left, in the order they ran. *)
Fixpoint produced (log : list (move Item R)) (s : St)
    : list (Item * res R) :=
  match log with
  | [] => []
  | Ran it :: log' => (it, (task it s).1) :: produced log' (task it s).2
  | Collected it r :: log' => produced log' (harvest it r s)
  end.

(** The items whose task ran, and the outcomes the harvest loop
    handled, each in the order of [log]. *)
Definition ran (log : list (move Item R)) : list Item :=
  omap (fun m => match m with Ran it => Some it | Collected _ _ => None end)
       log.

Definition collected (log : list (move Item R)) : list (Item * res R) :=
  omap (fun m => match m with
                 | Collected it r => Some (it, r)
                 | Ran _ => None
                 end) log.

(** At every point of [log] the harvest loop has handled only outcomes
    that tasks had produced by then, none more often than it was
    produced. *)
Definition in_order (log : list (move Item R)) (s : St) : Prop :=
  forall before after,
    log = (before ++ after)%list -> collected before ⊆+ produced before s.

(** A pool on its way from [s0] has an account: a log of its moves that
    explains its shared state and its outcomes. *)
Definition account (s0 : St) (p : Pool St Item R) : Prop :=
  exists log,
    shared p = replay log s0
    /\ collected log = harvested p
    /\ produced log s0 ≡ₚ (finished p ++ harvested p)%list
    /\ in_order log s0.

End Pool.

(** Lookup in a table written as a list of key and value pairs. *)
Definition lookup_key {A} (k : string) (l : list (string * A)) : option A :=
  snd <$> List.find (fun kv => String.eqb (fst kv) k) l.

(** Truth value of an optional text ([None] and [''] are false). *)
Definition truthy_opt (o : option string) : bool :=
  match o with Some s => Py.truthy s | None => false end.

(** The exit status of the process: the argument of [sys.exit], or 1 when
    an exception reaches the top level. *)
Definition exit_status (r : res Z) : Z :=
  match r with Ok code => code | Raise _ => 1 end.

(** ** download_images.py *)
Module Download.


(** The fields of a [DockerImageDownloader] object. *)
Record DockerImageDownloader : Type := MkDownloader {
  output_dir : string;
  max_workers : Z;
  downloaded_images : list string;
  failed_images : list string
}.

Definition add_downloaded (image : string) (d : DockerImageDownloader) : DockerImageDownloader :=
  MkDownloader (output_dir d) (max_workers d)
               (downloaded_images d ++ [image]) (failed_images d).

Definition add_failed (image : string) (d : DockerImageDownloader) : DockerImageDownloader :=
  MkDownloader (output_dir d) (max_workers d)
               (downloaded_images d) (failed_images d ++ [image]).

(** [self.image_configs] *)
Definition image_configs : list (string * list (string * list string)) :=
  [ ("mysql",
     [ ("confluence_9.2.1", ["haxqer/confluence:9.2.1"; "mysql:8.0"]);
       ("confluence_8.5.23", ["haxqer/confluence:8.5.23"; "mysql:8.0"]) ]);
    ("postgresql",
     [ ("confluence_9.2.1", ["haxqer/confluence:9.2.1"; "postgres:15"]);
       ("confluence_8.5.23", ["haxqer/confluence:8.5.23"; "postgres:15"]) ]) ].

Definition get_predefined_images (db_type confluence_version : string)
    : list string :=
  match lookup_key db_type image_configs with
  | None => []
  | Some versions =>
      match lookup_key confluence_version versions with
      | None => []
      | Some images => images
      end
  end.

(** [self.output_dir / f"{safe_name}.tar"] *)
Definition tar_path (dir image : string) : string :=
  Py.path_join dir (archive_file_name image).

(** [self.output_dir / "images_manifest.json"] *)
Definition manifest_path (dir : string) : string :=
  Py.path_join dir "images_manifest.json".

(** *** Reading a manifest document *)

(** Its ['images'] list. *)
Definition manifest_images (doc : json) : list json :=
  match doc with
  | JObj kv =>
      match lookup_key "images" kv with
      | Some (JArr entries) => entries
      | _ => []
      end
  | _ => []
  end.

(** Its ['total_images'] count. *)
Definition manifest_total (doc : json) : option Z :=
  match doc with
  | JObj kv =>
      match lookup_key "total_images" kv with
      | Some (JNum n) => Some n
      | _ => None
      end
  | _ => None
  end.

(** The ['file'] field of an entry. *)
Definition entry_file (entry : json) : option string :=
  match entry with
  | JObj kv =>
      match lookup_key "file" kv with
      | Some (JStr name) => Some name
      | _ => None
      end
  | _ => None
  end.

(** The size of the file at [path], 0 when there is none. *)
Definition size_on_disk (path : string) (w : World) : N :=
  match fs w !! path with
  | Some f => f_size f
  | None => 0%N
  end.

(** The entry of [image] in a manifest written for directory [dir] when
    the disk is as in [w]. *)
Definition entry_for (dir : string) (w : World) (image : string) : json :=
  JObj [ ("name", JStr image);
         ("file", JStr (archive_file_name image));
         ("size_bytes", JNum (Z.of_N (size_on_disk (tar_path dir image) w))) ].

(** The document [generate_manifest] builds for the succeeded list
    [downloaded] at time stamp [generated_at]. *)
Definition manifest_for (generated_at dir : string) (w : World)
    (downloaded : list string) : json :=
  JObj [ ("generated_at", JStr generated_at);
         ("total_images", JNum (Z.of_nat (length downloaded)));
         ("images", JArr (entry_for dir w <$> downloaded)) ].

(** The requirement of the specification on a manifest entry: its
    archive exists in [dir] and is not empty. *)
Definition archive_confirmed (dir : string) (w : World) (entry : json)
    : Prop :=
  exists name f,
    entry_file entry = Some name
    /\ fs w !! Py.path_join dir name = Some f
    /\ f_size f <> 0%N.

Section Methods.
Context (rt : Runtime).

(** [DockerImageDownloader(output_dir, max_workers)] *)
Definition new (output_dir : string) (max_workers : Z) : M World DockerImageDownloader :=
  run mkdir rt output_dir;
  ret (MkDownloader output_dir max_workers [] []).

Definition check_docker : M World bool :=
  try_except (St := World) (A := bool)
    (run subprocess_run_check rt ["docker"; "--version"]; ret true)
    (fun e => is_kind CalledProcessError e || is_kind FileNotFoundError e)
    (fun _ => ret false).

(** The compose file is read and parsed inside [try]; whatever goes
    wrong there (a directory, bytes that are no YAML document with a
    mapping of services) gives the empty list. *)
Definition parse_compose_file (compose_file : string) : M World (list string) :=
  fun w =>
    match fs w !! compose_file with
    | Some (File _ (Compose services)) => (Ok (omap snd services), w)
    | _ => (Ok [], w)
    end.

Definition image_exists_locally (image : string) : M World bool :=
  try_except (St := World) (A := bool)
    (run subprocess_run_check rt ["docker"; "image"; "inspect"; image];
     ret true)
    (is_kind CalledProcessError)
    (fun _ => ret false).

Definition pull_image (image : string) : M World bool :=
  try_except (St := World) (A := bool)
    (do present <- image_exists_locally image;
     if present then ret true
     else
       do result <- subprocess_run rt ["docker"; "pull"; image];
       if (result.1.1 =? 0)%Z then ret true else ret false)
    any_exception
    (fun _ => ret false).

(** [subprocess.run(argv, stdout=f, stderr=subprocess.PIPE)] with [f]
    the file just opened at [path]: what the process writes to its
    standard output becomes the content of the file. *)
Definition subprocess_run_to_file (argv : list string) (path : string)
    : M World (Z * string) :=
  fun w =>
    let w' := record_event (Exec argv) w in
    match run_process rt argv w with
    | SpawnError e => (Raise e, w')
    | Exited rc out err =>
        (Ok (rc, err),
         set_file path (File (N.of_nat (String.length out)) Blob) w')
    end.

Definition save_image (dir image : string) : M World bool :=
  try_except (St := World) (A := bool)
    (let tar_file := tar_path dir image in
     do present <- exists_ tar_file;
     if present then ret true
     else
       run open_write rt tar_file;
       do result <- subprocess_run_to_file ["docker"; "save"; image] tar_file;
       if (result.1 =? 0)%Z then
         run stat_size tar_file;
         ret true
       else
         run decode result.2;
         do left_over <- exists_ tar_file;
         run (if left_over then unlink tar_file else ret tt);
         ret false)
    any_exception
    (fun _ => ret false).

(** One entry of the manifest. *)
Definition image_info (dir image : string) : M World json :=
  let tar_file := tar_path dir image in
  do present <- exists_ tar_file;
  do size <- (if present then stat_size tar_file else ret 0%N);
  ret (JObj [ ("name", JStr image);
               ("file", JStr (archive_file_name image));
               ("size_bytes", JNum (Z.of_N size)) ]).

(** [json.dump(doc, f, ...)] into the file just opened at [path], up to
    the end of the [with] block that closes it: the text is in the file,
    or the write failed and the file holds what got there. *)
Definition json_dump (doc : json) (path : string) : M World unit :=
  fun w =>
    match write_fault rt path w with
    | Some (e, written) => (Raise e, set_file path (File written Blob) w)
    | None => (Ok tt, set_file path (File (json_size rt doc) (Json doc)) w)
    end.

Definition generate_manifest (self : DockerImageDownloader) : M World unit :=
  let manifest_file := manifest_path (output_dir self) in
  do generated_at <- (fun w => (Ok (strftime rt w), w));
  do entries <- for_each (image_info (output_dir self)) (downloaded_images self);
  let manifest :=
    JObj [ ("generated_at", JStr generated_at);
           ("total_images",
            JNum (Z.of_nat (length (downloaded_images self))));
           ("images", JArr entries) ] in
  run open_write rt manifest_file;
  json_dump manifest manifest_file.

End Methods.

(** *** The batch runner

    [pull_image] and [save_image] are looked up on [self] when a task
    runs; the runner is stated over any two such methods, so that a fault
    escaping them is covered. *)
Section Runner.
Context (pull_image save_image : string -> M World bool).

Definition download_and_save_image (image : string)
    : M (DockerImageDownloader * World) (string * bool) :=
  do pulled <- on_snd (pull_image image);
  do saved <- (if pulled then on_snd (save_image image) else ret false);
  let success := pulled && saved in
  run (fun s => (Ok tt, ((if success then add_downloaded image (fst s)
                          else add_failed image (fst s)), snd s)));
  ret (image, success).

(** The body of the [for future in as_completed(...)] loop. *)
Definition harvest (image : string) (r : res (string * bool))
    (s : DockerImageDownloader * World) : DockerImageDownloader * World :=
  match r with
  | Ok _ => s
  | Raise _ => (add_failed image (fst s), snd s)
  end.

Definition download_images (images : list string) (script : list action)
    : M (DockerImageDownloader * World) bool :=
  fun s =>
    match images with
    | [] => (Ok false, s)
    | _ :: _ =>
        if (max_workers (fst s) <=? 0)%Z
        then (Raise (Exn ValueError "max_workers must be greater than 0"), s)
        else
          let p := run_pool download_and_save_image harvest
                     (Z.to_nat (max_workers (fst s))) images script s in
          let s' := shared p in
          (* show_download_summary only prints *)
          (Ok (length (failed_images (fst s')) =? 0)%nat, s')
    end.

End Runner.

(** The three ways a task can end: it returned success, it returned
    failure, or it raised. *)
Definition returned_success (e : string * res (string * bool)) : bool :=
  match e.2 with Ok (_, true) => true | _ => false end.

Definition returned_failure (e : string * res (string * bool)) : bool :=
  match e.2 with Ok (_, false) => true | _ => false end.

Definition raised (e : string * res (string * bool)) : bool :=
  match e.2 with Raise _ => true | _ => false end.

(** What the downloader's lists hold while the pool runs, in terms of
    the outcomes produced so far: tasks file their own result when they
    return, the harvest loop files the tasks that raised. *)
Definition download_ledger (d0 : DockerImageDownloader)
    (p : Pool (DockerImageDownloader * World) string (string * bool))
    : Prop :=
  downloaded_images (shared p).1
    ≡ₚ (downloaded_images d0
        ++ (filter (fun e => returned_success e) (finished p ++ harvested p)).*1)%list
  /\ failed_images (shared p).1
    ≡ₚ (failed_images d0
        ++ (filter (fun e => returned_failure e) (finished p ++ harvested p)).*1
        ++ (filter (fun e => raised e) (harvested p)).*1)%list.

(** *** The command line *)

Record Args : Type := MkArgs {
  compose : option string;
  images : option (list string);
  db : option string;
  version : option string;
  output : string;
  workers : Z;
  no_manifest : bool
}.

Section Main.
Context (rt : Runtime).

(** The work set selected by the arguments; [None] is the [sys.exit(1)]
    taken when the compose file does not exist. *)
Definition select_images (args : Args) : M World (option (list string)) :=
  if truthy_opt (compose args) then
    let compose_file := default "" (compose args) in
    do present <- exists_ compose_file;
    if negb present then ret None
    else map_ret Some (parse_compose_file compose_file)
  else
    match images args with
    | Some (i :: l) => ret (Some (i :: l))
    | _ =>
        match db args, version args with
        | Some d, Some v =>
            if Py.truthy d && Py.truthy v
            then ret (Some (get_predefined_images d v))
            else ret (Some [])
        | _, _ => ret (Some [])
        end
    end.

(** The check [main] makes on [--db] and [--version]: both or neither. *)
Definition args_consistent (args : Args) : bool :=
  negb ((truthy_opt (db args) || truthy_opt (version args))
        && negb (truthy_opt (db args) && truthy_opt (version args))).

(** [main] up to the start of the batch: an exit status, or the
    downloader and the work set.  [parser.error] exits with status 2. *)
Definition prepare (args : Args) : M World (Z + DockerImageDownloader * list string) :=
  if negb (args_consistent args)
  then ret (inl 2%Z)
  else
    do downloader <- new rt (output args) (workers args);
    do usable <- check_docker rt;
    if negb usable then ret (inl 1%Z)
    else
      do selected <- select_images args;
      match selected with
      | None | Some [] => ret (inl 1%Z)
      | Some found => ret (inr (downloader, found))
      end.

(** The batch as [main] runs it, on the real methods of the downloader. *)
Definition run_batch (downloader : DockerImageDownloader) (found : list string)
    (script : list action) : M World (bool * DockerImageDownloader) :=
  fun w =>
    match download_images (pull_image rt)
            (save_image rt (output_dir downloader))
            found script (downloader, w) with
    | (Ok success, (downloader', w')) => (Ok (success, downloader'), w')
    | (Raise e, (_, w')) => (Raise e, w')
    end.

(** What [main] does between the batch and [sys.exit]: the manifest is
    written unless suppressed or nothing was downloaded. *)
Definition after_batch (args : Args) (downloader : DockerImageDownloader)
    : M World unit :=
  if negb (no_manifest args)
     && negb (length (downloaded_images downloader) =? 0)%nat
  then generate_manifest rt downloader
  else ret tt.

(** [main] from the start of the batch on. *)
Definition finish (args : Args) (downloader : DockerImageDownloader)
    (found : list string) (script : list action) : M World Z :=
  do r <- run_batch downloader found script;
  run after_batch args r.2;
  ret (if r.1 then 0%Z else 1%Z).

Definition main (args : Args) (script : list action) : M World Z :=
  do ready <- prepare args;
  match ready with
  | inl code => ret code
  | inr (downloader, found) => finish args downloader found script
  end.

(** A clean run: the batch completed with an empty failed list, and the
    step after it returned. *)
Definition clean_run (args : Args) (script : list action) (w : World)
    : Prop :=
  exists downloader found w1 success downloader' w2 w3,
    prepare args w = (Ok (inr (downloader, found)), w1)
    /\ run_batch downloader found script w1
       = (Ok (success, downloader'), w2)
    /\ failed_images downloader' = []
    /\ after_batch args downloader' w2 = (Ok tt, w3).

End Main.

(** *** The summary

    [show_download_summary] prints.  What it reads from the disk for
    that is modelled, and the total it prints first is the value
    returned. *)
Definition show_download_summary (self : DockerImageDownloader)
    : M World nat :=
  let total :=
    (length (downloaded_images self) + length (failed_images self))%nat in
  run for_each
        (fun image =>
           let tar_file := tar_path (output_dir self) image in
           do present <- exists_ tar_file;
           if present then run stat_size tar_file; ret tt else ret tt)
        (downloaded_images self);
  ret total.

End Download.

(** ** import_images.py *)
Module Importing.

(** An element of [failed_imports]: the dict with keys ['file'] and
    ['error']. *)
Record FailedImport : Type := MkFailed { file_of : string; error_of : string }.

(** The fields of a [DockerImageImporter] object (the print lock only
    serialises console output). *)
Record DockerImageImporter : Type := MkImporter {
  images_dir : string;
  max_workers : Z;
  imported_images : list string;
  failed_imports : list FailedImport;
  skipped_images : list string
}.

(** [DockerImageImporter(images_dir, max_workers)] *)
Definition new (images_dir : string) (max_workers : Z) : DockerImageImporter :=
  MkImporter images_dir max_workers [] [] [].

Definition add_imported (image_name : string) (i : DockerImageImporter)
    : DockerImageImporter :=
  MkImporter (images_dir i) (max_workers i)
             (imported_images i ++ [image_name]) (failed_imports i)
             (skipped_images i).

Definition add_failed (f : FailedImport) (i : DockerImageImporter)
    : DockerImageImporter :=
  MkImporter (images_dir i) (max_workers i)
             (imported_images i) (failed_imports i ++ [f])
             (skipped_images i).

(** [self.images_dir / "images_manifest.json"] *)
Definition manifest_path (dir : string) : string :=
  Py.path_join dir "images_manifest.json".

(** *** Python operations on parsed JSON *)

(** [v.get(key, default)] *)
Definition py_get {St} (key : string) (dflt v : json) : M St json :=
  match v with
  | JObj kv => ret (default dflt (lookup_key key kv))
  | _ => raise (Exn AttributeError "object has no attribute 'get'")
  end.

(** [len(v)] *)
Definition py_len {St} (v : json) : M St nat :=
  match v with
  | JStr s => ret (String.length s)
  | JArr l => ret (length l)
  | JObj kv => ret (length kv)
  | _ => raise (Exn TypeError "object has no len()")
  end.

(** The elements [for img in v] goes through (for a text, its
    characters, here the bytes of the model). *)
Definition py_iter {St} (v : json) : M St (list json) :=
  match v with
  | JArr l => ret l
  | JStr s => ret ((fun c => JStr (String c EmptyString)) <$> list_ascii_of_string s)
  | JObj kv => ret ((fun e => JStr (fst e)) <$> kv)
  | _ => raise (Exn TypeError "object is not iterable")
  end.

(** [img['file']] *)
Definition py_file_of {St} (img : json) : M St json :=
  match img with
  | JObj kv =>
      match lookup_key "file" kv with
      | Some v => ret v
      | None => raise (Exn KeyError "'file'")
      end
  | _ => raise (Exn TypeError "indices must be integers")
  end.

(** A value that can be a member of a Python set. *)
Definition hashable (v : json) : bool :=
  match v with JArr _ | JObj _ => false | _ => true end.

Definition is_str (v : json) : bool :=
  match v with JStr _ => true | _ => false end.

(** [v in names] for a set of texts. *)
Definition among (names : list string) (v : json) : bool :=
  match v with
  | JStr s => existsb (String.eqb s) names
  | _ => false
  end.

(** [if v:] *)
Definition json_truthy (v : json) : bool :=
  match v with
  | JNull => false
  | JBool b => b
  | JNum n => negb (n =? 0)%Z
  | JStr s => Py.truthy s
  | JArr l => negb (length l =? 0)%nat
  | JObj kv => negb (length kv =? 0)%nat
  end.

(** [json.load] of the file at [path]. *)
Definition json_load (path : string) : M World json :=
  fun w =>
    match fs w !! path with
    | Some (File _ (Json doc)) => (Ok doc, w)
    | Some _ => (Raise (Exn ValueError "Expecting value"), w)
    | None => (Raise (no_such_file path), w)
    end.

(** The first line of [text] that starts with ['Loaded image:'], cut
    after its first colon and stripped. *)
Definition loaded_image_line {St} (text : string) : M St (option string) :=
  match List.find (Py.startswith "Loaded image:") (Py.split "010" text) with
  | Some line =>
      match snd (Py.split_once ":" line) with
      | Some rest => ret (Some (Py.strip rest))
      | None => raise (Exn OtherError "list index out of range")
      end
  | None => ret None
  end.

(** The name of [path] as an entry of directory [dir], when it is one. *)
Definition child_name (dir path : string) : option string :=
  if String.eqb dir "." then
    if Py.contains "/" path then None else Some path
  else
    match Py.strip_prefix (if String.eqb dir "/" then "/" else dir ++ "/") path with
    | Some name =>
        if Py.contains "/" name || negb (Py.truthy name) then None
        else Some name
    | None => None
    end.

(** The entries a scan of the file system meets: the paths that hold
    something, and the entries that resolve to nothing. *)
Definition listed (rt : Runtime) (w : World) : list string :=
  (fst <$> map_to_list (fs w))
  ++ List.filter (fun path => negb (path_exists path w))
       (remove_dups (broken_links rt w)).

(** [list(Path(dir).glob("*.tar"))]: the entries of the directory whose
    name ends in [.tar], whether or not they resolve. *)
Definition glob_tar (rt : Runtime) (dir : string) (w : World) : list string :=
  match fs w !! dir with
  | Some (File _ Dir) =>
      List.filter
        (fun path => match child_name dir path with
                     | Some name => Py.endswith ".tar" name
                     | None => false
                     end)
        (listed rt w)
  | _ => []
  end.

Section Methods.
Context (rt : Runtime).

Definition check_docker : M World bool :=
  try_except (St := World) (A := bool)
    (run subprocess_run_check rt ["docker"; "--version"];
     run subprocess_run_check rt ["docker"; "info"];
     ret true)
    (fun e => is_kind CalledProcessError e || is_kind FileNotFoundError e)
    (fun _ => ret false).

Definition find_image_files (self : DockerImageImporter) : M World (list string) :=
  do present <- exists_ (images_dir self);
  if negb present then ret []
  else fun w => (Ok (glob_tar rt (images_dir self) w), w).

Definition load_manifest (self : DockerImageImporter) : M World (option json) :=
  let manifest_file := manifest_path (images_dir self) in
  do present <- exists_ manifest_file;
  if negb present then ret None
  else
    try_except (St := World) (A := option json)
      (do manifest <- json_load manifest_file;
       do listed <- py_get "images" (JArr []) manifest;
       run py_len listed;
       ret (Some manifest))
      any_exception
      (fun _ => ret None).

Definition get_image_name_from_tar (tar_file : string)
    : M World (option string) :=
  try_except (St := World) (A := option string)
    (let filename := Py.path_stem tar_file in
     let guess :=
       if Py.contains "_" filename && Py.contains "-" filename then
         match Py.split_once "_" filename with
         | (namespace, Some repo_tag) =>
             Some (namespace ++ "/" ++ Py.replace_first "-" ":" repo_tag)
         | (_, None) => None
         end
       else None in
     match guess with
     | Some name => ret (Some name)
     | None =>
         do result <- subprocess_run rt
                        ["docker"; "load"; "--input"; tar_file; "--quiet"];
         if (result.1.1 =? 0)%Z && Py.truthy result.2
         then loaded_image_line result.2
         else ret None
     end)
    any_exception
    (fun _ => ret None).

Definition image_exists_locally (image_name : string) : M World bool :=
  try_except (St := World) (A := bool)
    (run subprocess_run_check rt ["docker"; "image"; "inspect"; image_name];
     ret true)
    (is_kind CalledProcessError)
    (fun _ => ret false).

Definition import_single_image (tar_file : string) (force : bool)
    : M World (string * bool * string) :=
  try_except (St := World) (A := string * bool * string)
    (do present <- exists_ tar_file;
     if negb present then
       ret (tar_file, false, "文件不存在: " ++ tar_file)
     else
       do file_size <- stat_size tar_file;
       if (file_size =? 0)%N then
         ret (tar_file, false, "文件为空: " ++ tar_file)
       else
         do result <- subprocess_run rt ["docker"; "load"; "--input"; tar_file];
         if (result.1.1 =? 0)%Z then
           do parsed <- (if Py.truthy result.2
                         then loaded_image_line result.2 else ret None);
           ret (default "unknown" parsed, true, "")
         else
           ret (tar_file, false, "导入失败: " ++ result.2))
    any_exception
    (fun e => ret (tar_file, false, "导入异常: " ++ e_msg e)).

Definition list_imported_images : M World unit :=
  try_except (St := World) (A := unit)
    (run subprocess_run_check rt
       ["docker"; "images"; "--format";
        "table {{.Repository}}:{{.Tag}}" ++ String "009" "{{.Size}}"
          ++ String "009" "{{.CreatedAt}}"];
     ret tt)
    (is_kind CalledProcessError)
    (fun _ => ret tt).

Definition cleanup_dangling_images : M World unit :=
  try_except (St := World) (A := unit)
    (do result <- subprocess_run_check rt
                    ["docker"; "images"; "-f"; "dangling=true"; "-q"];
     let dangling_images :=
       List.filter Py.truthy (Py.split "010" (Py.strip result.1.2)) in
     match dangling_images with
     | [] => ret tt
     | _ :: _ =>
         run subprocess_run rt (["docker"; "rmi"] ++ dangling_images);
         ret tt
     end)
    any_exception
    (fun _ => ret tt).

End Methods.

(** *** The batch runner

    [import_single_image] is looked up on [self] when a task runs; the
    runner is stated over any such method, so that a fault escaping it is
    covered. *)
Section Runner.
Context (import_single_image : string -> bool -> M World (string * bool * string)).

(** The body of the [for future in as_completed(...)] loop. *)
Definition harvest (tar_file : string) (r : res (string * bool * string))
    (s : DockerImageImporter * World) : DockerImageImporter * World :=
  match r with
  | Ok (image_name, success, error_msg) =>
      if success then (add_imported image_name (fst s), snd s)
      else (add_failed (MkFailed tar_file error_msg) (fst s), snd s)
  | Raise e => (add_failed (MkFailed tar_file (e_msg e)) (fst s), snd s)
  end.

Definition import_images (tar_files : list string) (force : bool)
    (script : list action) : M (DockerImageImporter * World) bool :=
  fun s =>
    match tar_files with
    | [] => (Ok false, s)
    | _ :: _ =>
        if (max_workers (fst s) <=? 0)%Z
        then (Raise (Exn ValueError "max_workers must be greater than 0"), s)
        else
          let p := run_pool
                     (fun tar_file => on_snd (import_single_image tar_file force))
                     harvest
                     (Z.to_nat (max_workers (fst s))) tar_files script s in
          let s' := shared p in
          (* show_import_summary only prints *)
          (Ok (length (failed_imports (fst s')) =? 0)%nat, s')
    end.

End Runner.

(** How the harvest loop files an outcome: the name appended to
    [imported_images], or the entry appended to [failed_imports]. *)
Definition success_name (e : string * res (string * bool * string))
    : option string :=
  match e.2 with
  | Ok (image_name, true, _) => Some image_name
  | _ => None
  end.

Definition failure_entry (e : string * res (string * bool * string))
    : option FailedImport :=
  match e.2 with
  | Ok (_, true, _) => None
  | Ok (_, false, error_msg) => Some (MkFailed e.1 error_msg)
  | Raise x => Some (MkFailed e.1 (e_msg x))
  end.

(** What the importer's lists hold while the pool runs, in terms of the
    outcomes harvested so far. *)
Definition import_ledger (i0 : DockerImageImporter)
    (p : Pool (DockerImageImporter * World) string (string * bool * string))
    : Prop :=
  imported_images (shared p).1
    = (imported_images i0 ++ omap success_name (harvested p))%list
  /\ failed_imports (shared p).1
    = (failed_imports i0 ++ omap failure_entry (harvested p))%list
  /\ skipped_images (shared p).1 = skipped_images i0.

(** *** The command line *)

Record Args : Type := MkArgs {
  dir : string;
  files : option (list string);
  workers : Z;
  force : bool;
  cleanup : bool;
  list_after : bool;        (* [--list] *)
  no_verify : bool
}.

(** The same arguments with [--force] given or not. *)
Definition set_force (b : bool) (args : Args) : Args :=
  MkArgs (dir args) (files args) (workers args) b (cleanup args)
         (list_after args) (no_verify args).

Section Main.
Context (rt : Runtime).

(** The files named on the command line that exist, relative names taken
    inside the images directory. *)
Definition select_files (self : DockerImageImporter) (named : list string)
    : M World (list string) :=
  fun w =>
    (Ok (List.filter (fun tar_file => path_exists tar_file w)
           ((fun file_path =>
               if Py.is_absolute file_path then file_path
               else Py.path_join (images_dir self) file_path) <$> named)),
     w).

(** The advisory comparison of the manifest with the files found. *)
Definition verify_manifest (manifest : json) (tar_files : list string)
    : M World unit :=
  do listed <- py_get "images" (JArr []) manifest;
  do entries <- py_iter listed;
  do manifest_files <-
    for_each (fun img => do f <- py_file_of img;
                         if hashable f then ret f
                         else raise (Exn TypeError "unhashable type"))
             entries;
  let found_files := Py.path_name <$> tar_files in
  let missing_files :=
    List.filter (fun f => negb (among found_files f)) manifest_files in
  if forallb is_str missing_files then ret tt
  else raise (Exn TypeError "sequence item: expected str instance").

(** The work set: the files named by [--files], or else the archives
    of the images directory. *)
Definition select_work (args : Args) (importer : DockerImageImporter)
    : M World (list string) :=
  match files args with
  | Some (f :: l) => select_files importer (f :: l)
  | _ => find_image_files rt importer
  end.

(** [main] up to the start of the batch: an exit status, or the importer
    and the work set. *)
Definition prepare (args : Args)
    : M World (Z + DockerImageImporter * list string) :=
  let importer := new (dir args) (workers args) in
  do usable <- check_docker rt;
  if negb usable then ret (inl 1%Z)
  else
    do tar_files <- select_work args importer;
    match tar_files with
    | [] => ret (inl 1%Z)
    | _ :: _ =>
        run (if negb (no_verify args) then
               do manifest <- load_manifest importer;
               match manifest with
               | Some m =>
                   if json_truthy m then verify_manifest m tar_files
                   else ret tt
               | None => ret tt
               end
             else ret tt);
        run for_each stat_size tar_files;
        ret (inr (importer, tar_files))
    end.

(** The batch as [main] runs it, on the real method of the importer. *)
Definition run_batch (importer : DockerImageImporter)
    (tar_files : list string) (force : bool) (script : list action)
    : M World (bool * DockerImageImporter) :=
  fun w =>
    match import_images (import_single_image rt) tar_files force script
            (importer, w) with
    | (Ok success, (importer', w')) => (Ok (success, importer'), w')
    | (Raise e, (_, w')) => (Raise e, w')
    end.

(** What [main] does between the batch and [sys.exit]. *)
Definition after_batch (args : Args) : M World unit :=
  run (if cleanup args then cleanup_dangling_images rt else ret tt);
  if list_after args then list_imported_images rt else ret tt.

(** [main] from the start of the batch on. *)
Definition finish (args : Args) (importer : DockerImageImporter)
    (tar_files : list string) (script : list action) : M World Z :=
  do r <- run_batch importer tar_files (force args) script;
  run after_batch args;
  ret (if r.1 then 0%Z else 1%Z).

Definition main (args : Args) (script : list action) : M World Z :=
  do ready <- prepare args;
  match ready with
  | inl code => ret code
  | inr (importer, tar_files) => finish args importer tar_files script
  end.

(** A clean run: the batch completed with an empty failed list, and the
    steps after it returned. *)
Definition clean_run (args : Args) (script : list action) (w : World)
    : Prop :=
  exists importer tar_files w1 success importer' w2 w3,
    prepare args w = (Ok (inr (importer, tar_files)), w1)
    /\ run_batch importer tar_files (force args) script w1
       = (Ok (success, importer'), w2)
    /\ failed_imports importer' = []
    /\ after_batch args w2 = (Ok tt, w3).

End Main.

(** *** The summary and the advisory comparison, piece by piece *)

(** [total] of [show_import_summary], the count it prints first; the
    rest of the method prints the three lists. *)
Definition show_import_summary (self : DockerImageImporter) : nat :=
  length (imported_images self) + length (failed_imports self)
  + length (skipped_images self).

(** A value [len] accepts. *)
Definition sized (v : json) : bool :=
  match v with JStr _ | JArr _ | JObj _ => true | _ => false end.

(** An entry [img] for which [img['file']] has a value. *)
Definition names_file (img : json) : bool :=
  match img with
  | JObj kv => bool_decide (is_Some (lookup_key "file" kv))
  | _ => false
  end.

(** [{img['file'] for img in manifest.get('images', [])}] *)
Definition manifest_files (manifest : json) : M World (list json) :=
  do listed <- py_get "images" (JArr []) manifest;
  do entries <- py_iter listed;
  for_each (fun img => do f <- py_file_of img;
                       if hashable f then ret f
                       else raise (Exn TypeError "unhashable type"))
           entries.

(** [{f.name for f in tar_files}] *)
Definition found_files (tar_files : list string) : list string :=
  Py.path_name <$> tar_files.

(** [manifest_files - found_files] *)
Definition missing_files (listed : list json) (found : list string)
    : list json :=
  List.filter (fun f => negb (among found f)) listed.

End Importing.

(** ** Vocabulary of the frame properties *)

(** An event that is a command of the container runtime. *)
Definition docker_command (ev : event) : bool :=
  match ev with
  | Exec ("docker" :: _) => true
  | _ => false
  end.

(** [w'] is [w] after some commands of the container runtime and nothing
    else: the files are as they were. *)
Definition only_docker_since (w w' : World) : Prop :=
  fs w' = fs w
  /\ exists evs,
       trace w' = (trace w ++ evs)%list
       /\ Forall (fun ev => docker_command ev = true) evs.

(** A computation that only runs commands of the container runtime. *)
Definition quiet {A} (m : M World A) : Prop :=
  forall w, only_docker_since w (m w).2.

(** Bytes that are plain ASCII, hence decode as text whatever the
    encoding in use. *)
Definition ascii_only (s : string) : bool :=
  forallb (fun c => (nat_of_ascii c <? 128)%nat) (list_ascii_of_string s).

(** [w'] holds every file of [w] as it was, and differs from [w] at
    most at [paths]. *)
Definition grown_at (paths : list string) (w w' : World) : Prop :=
  (forall path f, fs w !! path = Some f -> fs w' !! path = Some f)
  /\ (forall path, path ∉ paths -> fs w' !! path = fs w !! path).

(** The parent of [path] is a directory: the current directory or the
    root, which are there without being listed, or a directory of [w]. *)
Definition parent_ready (path : string) (w : World) : Prop :=
  Py.path_parent path <> path
  /\ (Py.path_parent path = "." \/ Py.path_parent path = "/"
      \/ exists size, fs w !! Py.path_parent path = Some (File size Dir)).

(** [w'] holds every file of [w] as it was, and whatever it holds
    besides is a new directory at [path] or at an ancestor of it. *)
Definition grown_towards (path : string) (w w' : World) : Prop :=
  (forall q f, fs w !! q = Some f -> fs w' !! q = Some f)
  /\ (forall q,
        fs w !! q = None -> is_Some (fs w' !! q) ->
        fs w' !! q = Some (File 0 Dir)
        /\ exists n, Nat.iter n Py.path_parent path = q).

(** ** Concrete hosts used in the examples *)
Module Demo.

Definition newline : string := String "010" EmptyString.

(** The encodings of a no-break space (U+00A0) and of an ideographic
    space (U+3000). *)
Definition no_break_space : string := String "194" (String "160" "").

Definition ideographic_space : string :=
  String "227" (String "128" (String "128" "")).

(** A host where the runtime works, every image asked about is present
    locally, and [docker load] reports the loaded image on its standard
    output. *)
Definition local_process (argv : list string) (w : World) : proc :=
  match argv with
  | ["docker"; "--version"] => Exited 0 "Docker version 24.0.7" ""
  | ["docker"; "info"] => Exited 0 "" ""
  | ["docker"; "image"; "inspect"; _] => Exited 0 "[]" ""
  | ["docker"; "load"; "--input"; _] =>
      Exited 0 ("Loaded image: haxqer/confluence:9.2.1" ++ newline) ""
  | _ => Exited 1 "" "unsupported"
  end.

Definition local_runtime : Runtime :=
  MkRuntime local_process (fun _ _ => None)
            (fun _ => "2024-05-01 12:00:00") (fun _ => 256%N)
            (fun _ _ => None) (fun _ => []).

(** The same host with the file system mounted read-only. *)
Definition read_only_runtime : Runtime :=
  MkRuntime local_process
            (fun _ _ => Some (Exn OSError "[Errno 30] Read-only file system"))
            (fun _ => "2024-05-01 12:00:00") (fun _ => 256%N)
            (fun _ _ => None) (fun _ => []).

(** A host whose runtime reports the loaded image on its standard error
    instead. *)
Definition stderr_runtime : Runtime :=
  MkRuntime
    (fun argv w =>
       match argv with
       | ["docker"; "load"; "--input"; _] =>
           Exited 0 "" ("Loaded image: mysql:8.0" ++ newline)
       | _ => local_process argv w
       end)
    (fun _ _ => None) (fun _ => "2024-05-01 12:00:00") (fun _ => 256%N)
            (fun _ _ => None) (fun _ => []).

(** A host without local images on which [docker pull] works and
    [docker save] cannot be started. *)
Definition no_save_runtime : Runtime :=
  MkRuntime
    (fun argv w =>
       match argv with
       | ["docker"; "image"; "inspect"; _] => Exited 1 "[]" "No such image"
       | ["docker"; "pull"; _] => Exited 0 "" ""
       | ["docker"; "save"; _] =>
           SpawnError (Exn OSError "[Errno 12] Cannot allocate memory")
       | _ => local_process argv w
       end)
    (fun _ _ => None) (fun _ => "2024-05-01 12:00:00") (fun _ => 256%N)
            (fun _ _ => None) (fun _ => []).

(** An output directory with nothing in it. *)
Definition empty_world : World :=
  MkWorld (<["offline_images" := File 4096 Dir]> ∅) [].

(** An output directory that already holds both archives of an earlier
    export. *)
Definition archived_world : World :=
  MkWorld
    (<["offline_images" := File 4096 Dir]>
     (<["offline_images/haxqer_confluence-9.2.1.tar" := File 734003200 Blob]>
      (<["offline_images/mysql-8.0.tar" := File 587202560 Blob]> ∅)))
    [].

(** An output directory where an export whose [docker save] could not
    be started left an empty archive behind. *)
Definition interrupted_world : World :=
  MkWorld
    (<["offline_images" := File 4096 Dir]>
     (<["offline_images/mysql-8.0.tar" := File 0 Blob]> ∅))
    [].

Definition two_images : list string := ["haxqer/confluence:9.2.1"; "mysql:8.0"].

(** An images directory with one archive and a manifest that lists an
    archive that is not there. *)
Definition stale_manifest_world : World :=
  MkWorld
    (<["offline_images" := File 4096 Dir]>
     (<["offline_images/mysql-8.0.tar" := File 587202560 Blob]>
      (<["offline_images/images_manifest.json" :=
           File 256 (Json (JObj [ ("total_images", JNum 1);
                                  ("images",
                                   JArr [ JObj [ ("name", JStr "postgres:15");
                                                 ("file", JStr "postgres-15.tar");
                                                 ("size_bytes", JNum 1) ] ]) ]))]>
       ∅)))
    [].

(** The same directory with a manifest whose entry has no ['file']. *)
Definition broken_manifest_world : World :=
  MkWorld
    (<["offline_images" := File 4096 Dir]>
     (<["offline_images/mysql-8.0.tar" := File 587202560 Blob]>
      (<["offline_images/images_manifest.json" :=
           File 64 (Json (JObj [ ("images",
                                  JArr [ JObj [ ("name", JStr "mysql:8.0") ] ]) ]))]>
       ∅)))
    [].

(** A host without local images on which pulling and saving work; what
    [docker save] streams is [archive_stream]. *)
Definition archive_stream : string := "docker-archive-of-the-image".

Definition registry_runtime : Runtime :=
  MkRuntime
    (fun argv w =>
       match argv with
       | ["docker"; "image"; "inspect"; _] => Exited 1 "[]" "No such image"
       | ["docker"; "pull"; _] => Exited 0 "" ""
       | ["docker"; "save"; _] => Exited 0 archive_stream ""
       | _ => local_process argv w
       end)
    (fun _ _ => None) (fun _ => "2024-05-01 12:00:00") (fun _ => 256%N)
            (fun _ _ => None) (fun _ => []).

(** The same host with a disk too full for [docker save]. *)
Definition full_disk_runtime : Runtime :=
  MkRuntime
    (fun argv w =>
       match argv with
       | ["docker"; "image"; "inspect"; _] => Exited 1 "[]" "No such image"
       | ["docker"; "pull"; _] => Exited 0 "" ""
       | ["docker"; "save"; _] => Exited 1 "" "no space left on device"
       | _ => local_process argv w
       end)
    (fun _ _ => None) (fun _ => "2024-05-01 12:00:00") (fun _ => 256%N)
            (fun _ _ => None) (fun _ => []).

(** A host on which images load and the listing of the local images
    cannot be started. *)
Definition no_listing_runtime : Runtime :=
  MkRuntime
    (fun argv w =>
       match argv with
       | "docker" :: "images" :: _ =>
           SpawnError (Exn OSError "[Errno 12] Cannot allocate memory")
       | _ => local_process argv w
       end)
    (fun _ _ => None) (fun _ => "2024-05-01 12:00:00") (fun _ => 256%N)
            (fun _ _ => None) (fun _ => []).

(** The host of the first example with a directory entry that resolves
    to nothing: a link to an archive that was removed. *)
Definition dangling_runtime : Runtime :=
  MkRuntime local_process (fun _ _ => None)
            (fun _ => "2024-05-01 12:00:00") (fun _ => 256%N)
            (fun _ _ => None) (fun _ => ["offline_images/old.tar"]).

(** A host whose listing of the dangling images names two of them, with
    white space around the output that is not all ASCII. *)
Definition padded_listing_runtime : Runtime :=
  MkRuntime
    (fun argv w =>
       match argv with
       | ["docker"; "images"; "-f"; "dangling=true"; "-q"] =>
           Exited 0 (no_break_space ++ "4bc3ae6bd2f1" ++ newline
                       ++ "9d0e1f2a3b4c" ++ newline ++ ideographic_space) ""
       | "docker" :: "rmi" :: _ => Exited 0 "" ""
       | _ => local_process argv w
       end)
    (fun _ _ => None) (fun _ => "2024-05-01 12:00:00") (fun _ => 256%N)
            (fun _ _ => None) (fun _ => []).

(** An output directory that holds the manifest of an earlier export and
    no archive. *)
Definition old_manifest_world : World :=
  MkWorld
    (<["offline_images" := File 4096 Dir]>
     (<["offline_images/images_manifest.json" :=
          File 64 (Json (JObj [ ("total_images", JNum 0);
                                ("images", JArr []) ]))]> ∅))
    [].

(** The objects [main] builds from the default arguments. *)
Definition downloader : Download.DockerImageDownloader :=
  Download.MkDownloader "offline_images" 3 [] [].

Definition importer : Importing.DockerImageImporter :=
  Importing.new "offline_images" 2.

(** What an export of the two images leaves on that host, starting from
    the empty output directory: after the batch, and after the manifest
    has been written. *)
Definition exported_downloader : Download.DockerImageDownloader :=
  Download.MkDownloader "offline_images" 3 two_images [].

Definition exported_world : World :=
  (Download.run_batch registry_runtime downloader two_images [] empty_world).2.

Definition manifest_world : World :=
  (Download.generate_manifest registry_runtime exported_downloader
     exported_world).2.

(** An output directory next to a compose file with three services, one
    of them built locally. *)
Definition compose_world : World :=
  MkWorld
    (<["offline_images" := File 4096 Dir]>
     (<["docker-compose.yml" :=
          File 512 (Compose [ ("confluence", Some "haxqer/confluence:9.2.1");
                              ("db", Some "mysql:8.0");
                              ("proxy", None) ])]> ∅))
    [].


(** Task methods that meet an unexpected fault on one item and are the
    real methods on every other. *)
Definition flaky_pull (image : string) : M World bool :=
  if String.eqb image "mysql:8.0"
  then raise (Exn OtherError "maximum recursion depth exceeded")
  else Download.pull_image local_runtime image.

Definition flaky_import (tar_file : string) (force : bool)
    : M World (string * bool * string) :=
  if String.eqb tar_file "offline_images/mysql-8.0.tar"
  then raise (Exn OtherError "maximum recursion depth exceeded")
  else Importing.import_single_image stderr_runtime tar_file force.

Definition three_images : list string :=
  ["haxqer/confluence:9.2.1"; "mysql:8.0"; "postgres:15"].

Definition three_archives : list string :=
  [ "offline_images/haxqer_confluence-9.2.1.tar";
    "offline_images/mysql-8.0.tar";
    "offline_images/postgres-15.tar" ].

(** A host on which the archive holds an image without a tag: [docker
    load] reports the identifier of the image it loaded and no name. *)
Definition untagged_runtime : Runtime :=
  MkRuntime
    (fun argv w =>
       match argv with
       | ["docker"; "load"; "--input"; _] =>
           Exited 0 ("Loaded image ID: sha256:4bc3ae6bd2f1" ++ newline) ""
       | _ => local_process argv w
       end)
    (fun _ _ => None) (fun _ => "2024-05-01 12:00:00") (fun _ => 256%N)
            (fun _ _ => None) (fun _ => []).

End Demo.

(** * Properties *)

Example archive_file_name_confluence :
  archive_file_name "haxqer/confluence:9.2.1" = "haxqer_confluence-9.2.1.tar".
Proof. reflexivity. Qed.

Example path_stem_tar :
  Py.path_stem "offline_images/haxqer_confluence-9.2.1.tar"
  = "haxqer_confluence-9.2.1".
Proof. reflexivity. Qed.

Example path_stem_hidden : Py.path_stem "dir/.tar" = ".tar".
Proof. reflexivity. Qed.

Example strip_loaded : Py.strip " mysql:8.0  " = "mysql:8.0".
Proof. reflexivity. Qed.

Example strip_beyond_ascii :
  Py.strip (Demo.ideographic_space ++ " a b" ++ Demo.no_break_space
              ++ String "009" Demo.no_break_space) = "a b"
  /\ Py.strip ("é" ++ Demo.no_break_space) = "é"
  /\ Py.strip (String "160" "a") = String "160" "a".
Proof. repeat split; vm_compute; reflexivity. Qed.

Example utf8_valid_examples :
  Py.utf8_valid "文件不存在: é" = true
  /\ Py.utf8_valid (String "255" "") = false
  /\ Py.utf8_valid (String "192" (String "128" "")) = false
  /\ Py.utf8_valid (String "237" (String "160" (String "128" ""))) = false
  /\ Py.utf8_valid (String "226" (String "130" "")) = false.
Proof. repeat split; vm_compute; reflexivity. Qed.

Example path_parent_examples :
  Py.path_parent "build/images" = "build"
  /\ Py.path_parent "offline_images" = "."
  /\ Py.path_parent "/srv/images" = "/srv"
  /\ Py.path_parent "/srv" = "/"
  /\ Py.path_parent "/" = "/"
  /\ Py.path_parent "." = ".".
Proof. repeat split; reflexivity. Qed.

Example split_lines : Py.split "010" "a
b" = ["a"; "b"].
Proof. reflexivity. Qed.

(** ** The worker pool drains and loses nothing *)
Section PoolFacts.
Context {St Item R : Type}.
Context (task : Item -> M St R).
Context (harvest : Item -> res R -> St -> St).
Context (width : nat).

#[local] Abbreviation pstep := (step task harvest width).
#[local] Abbreviation padvance := (advance task harvest width).
#[local] Abbreviation pdrain := (drain task harvest width).
#[local] Abbreviation prun := (run_pool task harvest width).

Lemma length_delete_lookup {A} (l : list A) (k : nat) (x : A) :
  l !! k = Some x -> length l = S (length (delete k l)).
Proof.
  intros Hk. rewrite length_delete by eauto.
  apply lookup_lt_Some in Hk. lia.
Qed.

(** Every enabled action does one unit of the remaining work. *)
Lemma step_work_left a p p' :
  pstep a p = Some p' -> work_left p = S (work_left p').
Proof.
  unfold step, work_left. destruct a as [|k|k]; intros H.
  - destruct (queue p) as [|it q] eqn:Hq; [discriminate|].
    destruct (length (running p) <? width)%nat; [|discriminate].
    inversion H; subst; clear H. cbn. rewrite length_app. cbn. lia.
  - destruct (running p !! k) as [it|] eqn:Hk; [|discriminate].
    destruct (task it (shared p)) as [r s'].
    inversion H; subst; clear H. cbn.
    rewrite (length_delete_lookup _ _ _ Hk), length_app. cbn. lia.
  - destruct (finished p !! k) as [[it r]|] eqn:Hk; [|discriminate].
    inversion H; subst; clear H. cbn.
    rewrite (length_delete_lookup _ _ _ Hk). lia.
Qed.

Lemma work_left_idle (p : Pool St Item R) : work_left p = 0 <-> idle p.
Proof.
  unfold work_left, idle. split.
  - intros H. repeat split; apply length_zero_iff_nil; lia.
  - intros (-> & -> & ->). reflexivity.
Qed.

(** In a pool of positive width the default action is enabled as long as
    there is work. *)
Lemma default_action_enabled (p : Pool St Item R) :
  0 < width -> work_left p <> 0 -> is_Some (pstep (default_action p) p).
Proof.
  intros Hw Hwork. unfold default_action, step, work_left in *.
  destruct (finished p) as [|[it r] fin].
  - destruct (running p) as [|it rs].
    + destruct (queue p) as [|it q].
      * cbn in Hwork. lia.
      * cbn. destruct width; [lia|eauto].
    + cbn. destruct (task it (shared p)). eauto.
  - cbn. eauto.
Qed.

Lemma advance_work_left a p :
  0 < width -> work_left (padvance a p) = pred (work_left p).
Proof.
  intros Hw. unfold advance.
  destruct (pstep a p) as [p'|] eqn:Ha.
  - apply step_work_left in Ha. lia.
  - destruct (decide (work_left p = 0)) as [Hz|Hnz].
    + destruct (pstep (default_action p) p) as [p'|] eqn:Hd;
        cbn -[work_left].
      * apply step_work_left in Hd. lia.
      * lia.
    + destruct (default_action_enabled p Hw Hnz) as [p' Hd].
      rewrite Hd. cbn -[work_left]. apply step_work_left in Hd. lia.
Qed.

Lemma drain_work_left fuel script p :
  0 < width -> work_left (pdrain fuel script p) = work_left p - fuel.
Proof.
  intros Hw. revert script p.
  induction fuel as [|fuel IH]; intros script p.
  - cbn -[work_left]. lia.
  - destruct script as [|a rest]; cbn -[work_left];
      rewrite IH, advance_work_left by done; lia.
Qed.

(** Three moves per item are enough: the pool ends idle. *)
Lemma run_pool_idle items script s :
  0 < width -> idle (prun items script s).
Proof.
  intros Hw. apply work_left_idle. unfold run_pool.
  rewrite drain_work_left by done. unfold work_left. cbn [queue running finished length]. lia.
Qed.

(** A property kept by every enabled action holds when the pool has
    drained. *)
Lemma advance_invariant (P : Pool St Item R -> Prop) a p :
  (forall a p p', pstep a p = Some p' -> P p -> P p') ->
  P p -> P (padvance a p).
Proof.
  intros Hstep HP. unfold advance.
  destruct (pstep a p) as [p'|] eqn:Ha; [eauto|].
  destruct (pstep (default_action p) p) as [p'|] eqn:Hd; cbn; eauto.
Qed.

Lemma drain_invariant (P : Pool St Item R -> Prop) fuel script p :
  (forall a p p', pstep a p = Some p' -> P p -> P p') ->
  P p -> P (pdrain fuel script p).
Proof.
  intros Hstep. revert script p.
  induction fuel as [|fuel IH]; intros script p HP; cbn; [done|].
  destruct script as [|a rest]; apply IH; by apply advance_invariant.
Qed.

Lemma delete_lookup_perm {A} (l : list A) (k : nat) (x : A) :
  l !! k = Some x -> l ≡ₚ x :: delete k l.
Proof. intros H. by apply delete_Permutation. Qed.

Lemma step_everywhere a p p' :
  pstep a p = Some p' -> everywhere p' ≡ₚ everywhere p.
Proof.
  unfold step, everywhere. destruct a as [|k|k]; intros H.
  - destruct (queue p) as [|it q] eqn:Hq; [discriminate|].
    destruct (length (running p) <? width)%nat; [|discriminate].
    inversion H; subst; clear H. cbn. solve_Permutation.
  - destruct (running p !! k) as [it|] eqn:Hk; [|discriminate].
    destruct (task it (shared p)) as [r s'].
    inversion H; subst; clear H. cbn.
    rewrite (delete_lookup_perm _ _ _ Hk) at 2.
    rewrite fmap_app. cbn. solve_Permutation.
  - destruct (finished p !! k) as [[it r]|] eqn:Hk; [|discriminate].
    inversion H; subst; clear H. cbn.
    rewrite (delete_lookup_perm _ _ _ Hk) at 2.
    rewrite !fmap_app. cbn. solve_Permutation.
Qed.

(** Every item is harvested exactly once, whatever the schedule. *)
Lemma run_pool_harvested items script s :
  0 < width -> (harvested (prun items script s)).*1 ≡ₚ items.
Proof.
  intros Hw.
  assert (Hinv : everywhere (prun items script s) ≡ₚ items).
  { unfold run_pool.
    apply (drain_invariant (fun p => everywhere p ≡ₚ items)).
    - intros a p p' Ha HP. by rewrite (step_everywhere a p p' Ha).
    - unfold everywhere. cbn. by rewrite app_nil_r. }
  destruct (run_pool_idle items script s Hw) as (Hq & Hr & Hf).
  unfold everywhere in Hinv. by rewrite Hq, Hr, Hf in Hinv.
Qed.

Lemma run_pool_outcomes items script s :
  Forall (outcome_of_task task) (harvested (prun items script s)).
Proof.
  assert (Hinv : Forall (outcome_of_task task)
                   (finished (prun items script s)
                    ++ harvested (prun items script s))).
  { unfold run_pool.
    apply (drain_invariant
             (fun p => Forall (outcome_of_task task) (finished p ++ harvested p))).
    - intros a p p' Ha HP. unfold step in Ha.
      destruct a as [|k|k].
      + destruct (queue p); [discriminate|].
        destruct (length (running p) <? width)%nat; [|discriminate].
        by inversion Ha; subst.
      + destruct (running p !! k) as [it|] eqn:Hk; [|discriminate].
        destruct (task it (shared p)) as [r s'] eqn:Ht.
        inversion Ha; subst; clear Ha. cbn.
        rewrite Forall_app in HP. destruct HP as [HP1 HP2].
        rewrite !Forall_app, Forall_singleton. repeat split; try done.
        exists (shared p). cbn. by rewrite Ht.
      + destruct (finished p !! k) as [[it r]|] eqn:Hk; [|discriminate].
        inversion Ha; subst; clear Ha. cbn.
        rewrite (delete_lookup_perm _ _ _ Hk) in HP.
        rewrite app_assoc.
        rewrite Forall_app, Forall_singleton.
        cbn in HP. apply Forall_cons in HP as [HP1 HP2].
        rewrite Forall_app in HP2. rewrite Forall_app. tauto.
    - cbn. constructor. }
  rewrite Forall_app in Hinv. tauto.
Qed.

#[local] Abbreviation preplay := (replay task harvest).
#[local] Abbreviation pproduced := (produced task harvest).
#[local] Abbreviation pin_order := (in_order task harvest).

#[local] Open Scope list_scope.

Lemma replay_app (log1 log2 : list (move Item R)) s :
  preplay (log1 ++ log2) s = preplay log2 (preplay log1 s).
Proof.
  revert s. induction log1 as [|[it|it r] log1 IH]; intros s; cbn; auto.
Qed.

Lemma produced_app (log1 log2 : list (move Item R)) s :
  pproduced (log1 ++ log2) s
  = (pproduced log1 s ++ pproduced log2 (preplay log1 s))%list.
Proof.
  revert s. induction log1 as [|[it|it r] log1 IH]; intros s; cbn; auto.
  by rewrite IH.
Qed.

(** Every task that ran produced one outcome, for its own item. *)
Lemma produced_items (log : list (move Item R)) s :
  (pproduced log s).*1 = ran log.
Proof.
  revert s. induction log as [|[it|it r] log IH]; intros s; cbn; auto.
  by rewrite IH.
Qed.

Lemma collected_ran (log : list (move Item R)) it :
  collected (log ++ [Ran it]) = collected log.
Proof. unfold collected. rewrite omap_app. cbn. by rewrite app_nil_r. Qed.

Lemma collected_snoc (log : list (move Item R)) it r :
  collected (log ++ [Collected it r]) = collected log ++ [(it, r)].
Proof. unfold collected. by rewrite omap_app. Qed.

Lemma snoc_split {A} (before after log : list A) (x : A) :
  (log ++ [x] = before ++ after)%list ->
  (after = [] /\ before = (log ++ [x])%list)
  \/ exists after', after = (after' ++ [x])%list /\ log = (before ++ after')%list.
Proof.
  destruct after as [|y after _] using rev_ind.
  - rewrite app_nil_r. auto.
  - rewrite app_assoc. intros [-> ->]%app_inj_tail. right. eauto.
Qed.

Lemma step_account s0 a p p' :
  pstep a p = Some p' ->
  account task harvest s0 p -> account task harvest s0 p'.
Proof.
  unfold step. intros H (log & Hs & Hc & Hp & Ho).
  destruct a as [|k|k].
  - destruct (queue p); [discriminate|].
    destruct (length (running p) <? width)%nat; [|discriminate].
    inversion H; subst; clear H. by exists log.
  - destruct (running p !! k) as [it|] eqn:Hk; [|discriminate].
    destruct (task it (shared p)) as [r s'] eqn:Ht.
    inversion H; subst; clear H. cbn [shared finished harvested].
    assert (Hnew : pproduced (log ++ [Ran it]) s0
                   = (pproduced log s0 ++ [(it, r)])%list).
    { rewrite produced_app, <- Hs. cbn. by rewrite Ht. }
    exists (log ++ [Ran it]). split; [|split; [|split]].
    + rewrite replay_app, <- Hs. cbn. by rewrite Ht.
    + by rewrite collected_ran.
    + rewrite Hnew, Hp. solve_Permutation.
    + intros before after [[-> ->]|(after' & -> & ->)]%snoc_split.
      * rewrite Hnew, collected_ran.
        etrans; [apply (Ho log []); by rewrite app_nil_r|].
        by apply submseteq_inserts_r.
      * by apply (Ho before after').
  - destruct (finished p !! k) as [[it r]|] eqn:Hk; [|discriminate].
    inversion H; subst; clear H. cbn [shared finished harvested].
    assert (Hnew : pproduced (log ++ [Collected it r]) s0 = pproduced log s0).
    { rewrite produced_app. cbn. by rewrite app_nil_r. }
    assert (Hcol : collected (log ++ [Collected it r])
                   = (harvested p ++ [(it, r)])%list).
    { by rewrite collected_snoc, Hc. }
    exists (log ++ [Collected it r]). split; [|split; [|split]].
    + rewrite replay_app, <- Hs. done.
    + done.
    + rewrite Hnew, Hp. rewrite (delete_lookup_perm _ _ _ Hk) at 1.
      solve_Permutation.
    + intros before after [[-> ->]|(after' & -> & ->)]%snoc_split.
      * rewrite Hnew, Hcol, Hp. rewrite (delete_lookup_perm _ _ _ Hk).
        transitivity ((harvested p ++ [(it, r)]) ++ delete k (finished p)).
        -- by apply submseteq_inserts_r.
        -- apply Permutation_submseteq. solve_Permutation.
      * by apply (Ho before after').
Qed.

(** Whatever the schedule, the pool ran the task of every item once, each
    on the shared state the moves before it had left, and the harvest loop
    handled every outcome once, after it was produced. *)
Lemma run_pool_account items script s :
  0 < width ->
  exists log,
    shared (prun items script s) = preplay log s
    /\ ran log ≡ₚ items
    /\ collected log = harvested (prun items script s)
    /\ collected log ≡ₚ pproduced log s
    /\ pin_order log s.
Proof.
  intros Hw.
  assert (Hacc : account task harvest s (prun items script s)).
  { unfold run_pool. apply drain_invariant; [apply step_account|].
    exists []. repeat split; try done.
    intros before after Hnil. symmetry in Hnil.
    apply app_eq_nil in Hnil as [-> _]. done. }
  destruct Hacc as (log & Hs & Hc & Hp & Ho).
  destruct (run_pool_idle items script s Hw) as (_ & _ & Hf).
  rewrite Hf in Hp. cbn [app] in Hp.
  exists log. split; [done|]. split.
  { rewrite <- produced_items with (s := s), Hp.
    by apply run_pool_harvested. }
  split; [done|]. split; [by rewrite Hc, Hp|done].
Qed.

End PoolFacts.

(** ** Archive naming *)

Lemma append_cons (c : ascii) (a b : string) :
  String c a ++ b = String c (a ++ b).
Proof. reflexivity. Qed.

Lemma append_empty (b : string) : "" ++ b = b.
Proof. reflexivity. Qed.

Lemma append_assoc (a b c : string) : (a ++ b) ++ c = a ++ (b ++ c).
Proof.
  induction a as [|x a IH]; [done|]. by rewrite !append_cons, IH.
Qed.

Create Rewrite HintDb append.
#[local] Hint Rewrite append_cons append_empty append_assoc : append.

Lemma replace_append old new (a b : string) :
  Py.replace old new (a ++ b) = Py.replace old new a ++ Py.replace old new b.
Proof.
  induction a as [|c a IH]; [done|].
  rewrite append_cons. simpl. by rewrite append_cons, IH.
Qed.

Lemma replace_absent old new (s : string) :
  Py.contains old s = false -> Py.replace old new s = s.
Proof.
  induction s as [|c s IH]; simpl; [done|].
  intros [Hc Hs]%orb_false_elim. by rewrite Hc, IH.
Qed.

Lemma replace_first_absent old new (a b : string) :
  Py.contains old a = false ->
  Py.replace_first old new (a ++ b) = a ++ Py.replace_first old new b.
Proof.
  induction a as [|c a IH]; [done|]. simpl Py.contains.
  intros [Hc Hs]%orb_false_elim.
  rewrite !append_cons. simpl. by rewrite Hc, IH.
Qed.

Lemma list_ascii_of_append (a b : string) :
  list_ascii_of_string (a ++ b)
  = (list_ascii_of_string a ++ list_ascii_of_string b)%list.
Proof.
  induction a as [|x a IH]; [done|]. rewrite append_cons. simpl.
  by rewrite IH.
Qed.

(** [safe_name] maps the reference character by character: every ['/']
    and every [':'] is replaced. *)
Lemma safe_name_chars (image : string) :
  list_ascii_of_string (safe_name image)
  = safe_char <$> list_ascii_of_string image.
Proof.
  unfold safe_name. induction image as [|c image IH]; simpl; [done|].
  rewrite IH. f_equal. unfold safe_char.
  destruct (Ascii.eqb_spec c ":") as [->|Hc]; [done|].
  by destruct (c =? "/")%char.
Qed.

(** C5, as the code has it: for a reference [namespace/repo:tag] whose
    three components hold no further ['/'] or [':'], the archive file name
    is [namespace_repo-tag.tar], which is also what replacing only the
    first ['/'] and the first [':'] gives; in general every ['/'] becomes
    ['_'] and every [':'] becomes ['-'], not only the first ones. *)
Theorem archive_file_name_of_components (namespace repo tag : string) :
  separator_free namespace -> separator_free repo -> separator_free tag ->
  archive_file_name (namespace ++ "/" ++ repo ++ ":" ++ tag)
    = namespace ++ "_" ++ repo ++ "-" ++ tag ++ ".tar"
  /\ spec_archive_file_name (namespace ++ "/" ++ repo ++ ":" ++ tag)
    = namespace ++ "_" ++ repo ++ "-" ++ tag ++ ".tar"
  /\ forall image,
       list_ascii_of_string (archive_file_name image)
       = ((safe_char <$> list_ascii_of_string image)
            ++ list_ascii_of_string ".tar")%list.
Proof.
  intros [Hn1 Hn2] [Hr1 Hr2] [Ht1 Ht2]. split; [|split].
  - unfold archive_file_name, safe_name.
    rewrite !replace_append.
    rewrite (replace_absent ":" _ namespace), (replace_absent ":" _ repo),
      (replace_absent ":" _ tag) by done.
    rewrite (replace_absent "/" _ namespace), (replace_absent "/" _ repo),
      (replace_absent "/" _ tag) by done.
    simpl. by autorewrite with append.
  - unfold spec_archive_file_name.
    rewrite (replace_first_absent ":" _ namespace) by done.
    autorewrite with append. simpl Py.replace_first.
    rewrite (replace_first_absent ":" _ repo) by done. simpl Py.replace_first.
    rewrite (replace_first_absent "/" _ namespace) by done.
    simpl Py.replace_first. by autorewrite with append.
  - intros image. unfold archive_file_name.
    by rewrite list_ascii_of_append, safe_name_chars.
Qed.

Lemma archive_file_name_of_components_witness :
  archive_file_name ("haxqer" ++ "/" ++ "confluence" ++ ":" ++ "9.2.1")
  = "haxqer" ++ "_" ++ "confluence" ++ "-" ++ "9.2.1" ++ ".tar".
Proof.
  apply (archive_file_name_of_components "haxqer" "confluence" "9.2.1");
    split; reflexivity.
Defined.

(** C5 as stated fails on a reference with a nested repository path:
    the code replaces the second ['/'] too. *)
Lemma archive_file_name_not_first_only :
  archive_file_name ("org" ++ "/" ++ "team/app" ++ ":" ++ "1.0")
    = "org_team_app-1.0.tar"
  /\ spec_archive_file_name ("org" ++ "/" ++ "team/app" ++ ":" ++ "1.0")
    = "org_team/app-1.0.tar"
  /\ archive_file_name ("org" ++ "/" ++ "team/app" ++ ":" ++ "1.0")
     <> spec_archive_file_name ("org" ++ "/" ++ "team/app" ++ ":" ++ "1.0").
Proof. repeat split; try reflexivity. discriminate. Qed.

(** ** The import runner *)
Section ImportRunner.
Import Importing.
Context (import_single_image : string -> bool -> M World (string * bool * string)).
Context (force : bool) (width : nat).

#[local] Abbreviation import_task :=
  (fun tar_file : string =>
     on_snd (S1 := DockerImageImporter) (import_single_image tar_file force)).

Lemma import_step_ledger i0 a p p' :
  step import_task harvest width a p = Some p' ->
  import_ledger i0 p -> import_ledger i0 p'.
Proof.
  unfold step, import_ledger. destruct a as [|k|k]; intros H.
  - destruct (queue p); [discriminate|].
    destruct (length (running p) <? width)%nat; [|discriminate].
    by inversion H; subst.
  - destruct (running p !! k) as [it|]; [|discriminate].
    unfold on_snd in H.
    destruct (import_single_image it force (shared p).2) as [r w'].
    by inversion H; subst.
  - destruct (finished p !! k) as [[it r]|]; [|discriminate].
    inversion H; subst; clear H. cbn.
    rewrite !omap_app. intros (Hi & Hf & Hs).
    destruct r as [[[name [|]] msg]|e]; cbn;
      rewrite ?Hi, ?Hf, ?Hs, ?app_nil_r, <- ?app_assoc; done.
Qed.

Lemma import_pool_ledger tar_files script i0 w :
  import_ledger i0
    (run_pool import_task harvest width tar_files script (i0, w)).
Proof.
  unfold run_pool. apply drain_invariant.
  - apply import_step_ledger.
  - unfold import_ledger. cbn. by rewrite !app_nil_r.
Qed.

(** Each outcome is filed in exactly one of the two lists. *)
Lemma filed_once (results : list (string * res (string * bool * string))) :
  length (omap success_name results) + length (omap failure_entry results)
  = length results.
Proof.
  induction results as [|[it r] l IH]; [done|].
  destruct r as [[[name [|]] msg]|e]; cbn; lia.
Qed.

End ImportRunner.

(** ** The export runner *)
Section DownloadRunner.
Import Download.
Context (pull_image save_image : string -> M World bool).
Context (width : nat).

#[local] Abbreviation download_task :=
  (download_and_save_image pull_image save_image).

(** A task files its own result, once, or raises before filing any. *)
Lemma download_task_files image d w :
  match download_task image (d, w) with
  | (Ok (name, true), (d', _)) => name = image /\ d' = add_downloaded image d
  | (Ok (name, false), (d', _)) => name = image /\ d' = add_failed image d
  | (Raise _, (d', _)) => d' = d
  end.
Proof.
  unfold download_and_save_image, bind, on_snd, ret. cbn.
  destruct (pull_image image w) as [[[|]|e] w1]; cbn; [|done..].
  destruct (save_image image w1) as [[[|]|e] w2]; cbn; done.
Qed.

Lemma download_step_ledger d0 a p p' :
  step download_task harvest width a p = Some p' ->
  download_ledger d0 p -> download_ledger d0 p'.
Proof.
  unfold step, download_ledger. destruct a as [|k|k]; intros H.
  - destruct (queue p); [discriminate|].
    destruct (length (running p) <? width)%nat; [|discriminate].
    by inversion H; subst.
  - destruct (running p !! k) as [it|]; [|discriminate].
    pose proof (download_task_files it (shared p).1 (shared p).2) as Ht.
    destruct (shared p) as [d w]. cbn in Ht.
    destruct (download_task it (d, w)) as [r [d' w']].
    inversion H; subst; clear H.
    cbn [shared finished harvested fst snd]. intros [Hd Hf].
    rewrite <- !app_assoc, !filter_app, !fmap_app in *.
    destruct r as [[name [|]]|e].
    + destruct Ht as [-> ->]. cbn. rewrite Hd, Hf. split; solve_Permutation.
    + destruct Ht as [-> ->]. cbn. rewrite Hd, Hf. split; solve_Permutation.
    + subst d'. cbn. rewrite Hd, Hf. split; solve_Permutation.
  - destruct (finished p !! k) as [[it r]|] eqn:Hk; [|discriminate].
    inversion H; subst; clear H.
    cbn [shared finished harvested fst snd]. intros [Hd Hf].
    assert (Hperm : delete k (finished p) ++ harvested p ++ [(it, r)]
                    ≡ₚ finished p ++ harvested p).
    { rewrite (delete_Permutation _ _ _ Hk) at 2. solve_Permutation. }
    rewrite Hperm. rewrite (filter_app _ (harvested p)), fmap_app.
    destruct r as [[name [|]]|e]; cbn;
      rewrite Hd, Hf; split; solve_Permutation.
Qed.

Lemma download_pool_ledger images script d0 w :
  download_ledger d0
    (run_pool download_task harvest width images script (d0, w)).
Proof.
  unfold run_pool. apply drain_invariant.
  - apply download_step_ledger.
  - unfold download_ledger. cbn. by rewrite !app_nil_r.
Qed.

(** Every outcome is of exactly one of the three kinds. *)
Lemma three_kinds (results : list (string * res (string * bool))) :
  (filter (fun e => returned_success e) results
   ++ filter (fun e => returned_failure e) results
   ++ filter (fun e => raised e) results)%list ≡ₚ results.
Proof.
  induction results as [|[it r] l IH]; [done|].
  rewrite !filter_cons.
  destruct r as [[name [|]]|e]; cbn;
    (etrans; [|apply perm_skip, IH]); solve_Permutation.
Qed.

End DownloadRunner.

(** ** What a batch leaves behind *)

(** The export runner never lets a task's exception out, harvests every
    item once, and its two lists hold the items according to their own
    outcomes. *)
Lemma download_images_ledger pull_image save_image
    (images : list string) script d w :
  (1 <= Download.max_workers d)%Z ->
  exists d' w' results,
    Download.download_images pull_image save_image images script (d, w)
      = (Ok (negb (length images =? 0)%nat
             && (length (Download.failed_images d') =? 0)%nat), (d', w'))
    /\ results.*1 ≡ₚ images
    /\ Forall (outcome_of_task
                 (Download.download_and_save_image pull_image save_image))
              results
    /\ Download.downloaded_images d'
       ≡ₚ (Download.downloaded_images d
           ++ (filter (fun e => Download.returned_success e) results).*1)%list
    /\ Download.failed_images d'
       ≡ₚ (Download.failed_images d
           ++ (filter (fun e => Download.returned_failure e) results).*1
           ++ (filter (fun e => Download.raised e) results).*1)%list.
Proof.
  intros Hw. unfold Download.download_images.
  destruct images as [|image images].
  { exists d, w, []. cbn. rewrite !app_nil_r. repeat split; done. }
  cbn [fst snd]. destruct (Z.leb_spec (Download.max_workers d) 0); [lia|].
  set (p := run_pool _ _ _ _ _ _).
  assert (Hwidth : 0 < Z.to_nat (Download.max_workers d)) by lia.
  exists (shared p).1, (shared p).2, (harvested p).
  assert (Hfin : finished p = []) by (by apply run_pool_idle).
  pose proof (download_pool_ledger pull_image save_image
                (Z.to_nat (Download.max_workers d))
                (image :: images) script d w) as [Hd Hf].
  fold p in Hfin, Hd, Hf. rewrite Hfin in Hd, Hf. cbn [app] in Hd, Hf.
  split; [by destruct (shared p)|]. split; [by apply run_pool_harvested|].
  split; [apply run_pool_outcomes|]. done.
Qed.

(** The import runner never lets a task's exception out, harvests every
    item once, and files each outcome in the list its kind belongs to. *)
Lemma import_images_ledger import_single_image
    (tar_files : list string) force script i w :
  (1 <= Importing.max_workers i)%Z ->
  exists i' w' results,
    Importing.import_images import_single_image tar_files force script (i, w)
      = (Ok (negb (length tar_files =? 0)%nat
             && (length (Importing.failed_imports i') =? 0)%nat), (i', w'))
    /\ results.*1 ≡ₚ tar_files
    /\ Forall (outcome_of_task
                 (fun tar_file =>
                    on_snd (S1 := Importing.DockerImageImporter)
                           (import_single_image tar_file force)))
              results
    /\ Importing.imported_images i'
       = (Importing.imported_images i
          ++ omap Importing.success_name results)%list
    /\ Importing.failed_imports i'
       = (Importing.failed_imports i
          ++ omap Importing.failure_entry results)%list
    /\ Importing.skipped_images i' = Importing.skipped_images i.
Proof.
  intros Hw. unfold Importing.import_images.
  destruct tar_files as [|tar_file tar_files].
  { exists i, w, []. cbn. rewrite !app_nil_r. repeat split; done. }
  cbn [fst snd]. destruct (Z.leb_spec (Importing.max_workers i) 0); [lia|].
  set (p := run_pool _ _ _ _ _ _).
  assert (Hwidth : 0 < Z.to_nat (Importing.max_workers i)) by lia.
  exists (shared p).1, (shared p).2, (harvested p).
  split; [by destruct (shared p)|]. split; [by apply run_pool_harvested|].
  split; [apply run_pool_outcomes|].
  apply (import_pool_ledger import_single_image force
           (Z.to_nat (Importing.max_workers i))
           (tar_file :: tar_files) script i w).
Qed.

Lemma fst_three_kinds (results : list (string * res (string * bool))) :
  ((filter (fun e => Download.returned_success e) results).*1
   ++ (filter (fun e => Download.returned_failure e) results).*1
   ++ (filter (fun e => Download.raised e) results).*1)%list
  ≡ₚ results.*1.
Proof. by rewrite <- !fmap_app, three_kinds. Qed.

(** The two runners with the account of their pool: the final state is
    what the moves of a log leave, the task of every item ran once, and
    every outcome was harvested once, after it was produced, and filed by
    its kind. *)
Lemma download_images_account pull_image save_image
    (images : list string) script d w :
  (1 <= Download.max_workers d)%Z ->
  exists d' w' log,
    Download.download_images pull_image save_image images script (d, w)
      = (Ok (negb (length images =? 0)%nat
             && (length (Download.failed_images d') =? 0)%nat), (d', w'))
    /\ (d', w')
       = replay (Download.download_and_save_image pull_image save_image)
           Download.harvest log (d, w)
    /\ ran log ≡ₚ images
    /\ collected log
       ≡ₚ produced (Download.download_and_save_image pull_image save_image)
            Download.harvest log (d, w)
    /\ in_order (Download.download_and_save_image pull_image save_image)
         Download.harvest log (d, w)
    /\ Download.downloaded_images d'
       ≡ₚ (Download.downloaded_images d
           ++ (filter (fun e => Download.returned_success e)
                 (collected log)).*1)%list
    /\ Download.failed_images d'
       ≡ₚ (Download.failed_images d
           ++ (filter (fun e => Download.returned_failure e)
                 (collected log)).*1
           ++ (filter (fun e => Download.raised e) (collected log)).*1)%list.
Proof.
  intros Hw. unfold Download.download_images.
  destruct images as [|image images].
  { exists d, w, []. cbn. rewrite !app_nil_r. repeat split; try done.
    intros before after Hnil. symmetry in Hnil.
    by apply app_eq_nil in Hnil as [-> _]. }
  cbn [fst snd]. destruct (Z.leb_spec (Download.max_workers d) 0); [lia|].
  set (p := run_pool _ _ _ _ _ _).
  assert (Hwidth : 0 < Z.to_nat (Download.max_workers d)) by lia.
  destruct (run_pool_account
              (Download.download_and_save_image pull_image save_image)
              Download.harvest (Z.to_nat (Download.max_workers d))
              (image :: images) script (d, w) Hwidth)
    as (log & Hs & Hran & Hc & Hprod & Ho).
  fold p in Hs, Hc.
  assert (Hfin : finished p = []) by (by apply run_pool_idle).
  pose proof (download_pool_ledger pull_image save_image
                (Z.to_nat (Download.max_workers d))
                (image :: images) script d w) as [Hd Hf].
  fold p in Hfin, Hd, Hf. rewrite Hfin in Hd, Hf. cbn [app] in Hd, Hf.
  rewrite <- Hc in Hd, Hf.
  exists (shared p).1, (shared p).2, log.
  split; [by destruct (shared p)|].
  split; [rewrite <- Hs; by destruct (shared p)|]. done.
Qed.

Lemma import_images_account import_single_image
    (tar_files : list string) force script i w :
  (1 <= Importing.max_workers i)%Z ->
  exists i' w' log,
    Importing.import_images import_single_image tar_files force script (i, w)
      = (Ok (negb (length tar_files =? 0)%nat
             && (length (Importing.failed_imports i') =? 0)%nat), (i', w'))
    /\ (i', w')
       = replay (fun tar_file =>
                   on_snd (S1 := Importing.DockerImageImporter)
                          (import_single_image tar_file force))
           Importing.harvest log (i, w)
    /\ ran log ≡ₚ tar_files
    /\ collected log
       ≡ₚ produced (fun tar_file =>
                      on_snd (S1 := Importing.DockerImageImporter)
                             (import_single_image tar_file force))
            Importing.harvest log (i, w)
    /\ in_order (fun tar_file =>
                   on_snd (S1 := Importing.DockerImageImporter)
                          (import_single_image tar_file force))
         Importing.harvest log (i, w)
    /\ Importing.imported_images i'
       = (Importing.imported_images i
          ++ omap Importing.success_name (collected log))%list
    /\ Importing.failed_imports i'
       = (Importing.failed_imports i
          ++ omap Importing.failure_entry (collected log))%list
    /\ Importing.skipped_images i' = Importing.skipped_images i.
Proof.
  intros Hw. unfold Importing.import_images.
  destruct tar_files as [|tar_file tar_files].
  { exists i, w, []. cbn. rewrite !app_nil_r. repeat split; try done.
    intros before after Hnil. symmetry in Hnil.
    by apply app_eq_nil in Hnil as [-> _]. }
  cbn [fst snd]. destruct (Z.leb_spec (Importing.max_workers i) 0); [lia|].
  set (p := run_pool _ _ _ _ _ _).
  assert (Hwidth : 0 < Z.to_nat (Importing.max_workers i)) by lia.
  destruct (run_pool_account
              (fun tar_file =>
                 on_snd (S1 := Importing.DockerImageImporter)
                        (import_single_image tar_file force))
              Importing.harvest (Z.to_nat (Importing.max_workers i))
              (tar_file :: tar_files) script (i, w) Hwidth)
    as (log & Hs & Hran & Hc & Hprod & Ho).
  fold p in Hs, Hc.
  pose proof (import_pool_ledger import_single_image force
                (Z.to_nat (Importing.max_workers i))
                (tar_file :: tar_files) script i w) as (Hi & Hf & Hk).
  fold p in Hi, Hf, Hk. rewrite <- Hc in Hi, Hf.
  exists (shared p).1, (shared p).2, log.
  split; [by destruct (shared p)|].
  split; [rewrite <- Hs; by destruct (shared p)|]. done.
Qed.

(** C2: a batch of N items run on a pool of width W, 1 <= W <= N,
    produces exactly N task results and files every item in exactly one
    collection of the summary, under every schedule of the pool.  The
    state the batch leaves is the one a log of moves leaves: the task of
    every item of the batch ran once, on the state the moves before it
    had left, which gave the N results; the harvest loop handled each of
    them once, after it was produced.  Export: the succeeded list gains
    the items whose task returned success, the failed list the others, so
    that together they gain the items of the batch, each once.  Import:
    every result is filed either as a name in the imported list or as an
    entry of the failed list, and the skipped list is left alone. *)
Theorem batch_results_partition
    (pull_image save_image : string -> M World bool)
    (import_single_image : string -> bool -> M World (string * bool * string)) :
  (forall images script d w,
     (1 <= Download.max_workers d)%Z ->
     (Download.max_workers d <= Z.of_nat (length images))%Z ->
     exists b d' w' log,
       Download.download_images pull_image save_image images script (d, w)
         = (Ok b, (d', w'))
       /\ (d', w')
          = replay (Download.download_and_save_image pull_image save_image)
              Download.harvest log (d, w)
       /\ ran log ≡ₚ images
       /\ length (produced
                    (Download.download_and_save_image pull_image save_image)
                    Download.harvest log (d, w)) = length images
       /\ collected log
          ≡ₚ produced (Download.download_and_save_image pull_image save_image)
               Download.harvest log (d, w)
       /\ in_order (Download.download_and_save_image pull_image save_image)
            Download.harvest log (d, w)
       /\ Download.downloaded_images d'
          ≡ₚ (Download.downloaded_images d
              ++ (filter (fun e => Download.returned_success e)
                    (collected log)).*1)%list
       /\ Download.failed_images d'
          ≡ₚ (Download.failed_images d
              ++ (filter (fun e => Download.returned_failure e)
                    (collected log)).*1
              ++ (filter (fun e => Download.raised e) (collected log)).*1)%list
       /\ (Download.downloaded_images d' ++ Download.failed_images d')%list
          ≡ₚ (Download.downloaded_images d ++ Download.failed_images d
              ++ images)%list)
  /\ (forall tar_files force script i w,
     (1 <= Importing.max_workers i)%Z ->
     (Importing.max_workers i <= Z.of_nat (length tar_files))%Z ->
     exists b i' w' log,
       Importing.import_images import_single_image tar_files force script
         (i, w) = (Ok b, (i', w'))
       /\ (i', w')
          = replay (fun tar_file =>
                      on_snd (S1 := Importing.DockerImageImporter)
                             (import_single_image tar_file force))
              Importing.harvest log (i, w)
       /\ ran log ≡ₚ tar_files
       /\ length (produced
                    (fun tar_file =>
                       on_snd (S1 := Importing.DockerImageImporter)
                              (import_single_image tar_file force))
                    Importing.harvest log (i, w)) = length tar_files
       /\ collected log
          ≡ₚ produced (fun tar_file =>
                         on_snd (S1 := Importing.DockerImageImporter)
                                (import_single_image tar_file force))
               Importing.harvest log (i, w)
       /\ in_order (fun tar_file =>
                      on_snd (S1 := Importing.DockerImageImporter)
                             (import_single_image tar_file force))
            Importing.harvest log (i, w)
       /\ Importing.imported_images i'
          = (Importing.imported_images i
             ++ omap Importing.success_name (collected log))%list
       /\ Importing.failed_imports i'
          = (Importing.failed_imports i
             ++ omap Importing.failure_entry (collected log))%list
       /\ Importing.skipped_images i' = Importing.skipped_images i
       /\ length (omap Importing.success_name (collected log))
          + length (omap Importing.failure_entry (collected log))
          = length tar_files).
Proof.
  split.
  - intros images script d w Hw _.
    destruct (download_images_account pull_image save_image images script d w Hw)
      as (d' & w' & log & Hrun & Hstate & Hran & Hcol & Hord & Hd & Hf).
    exists (negb (length images =? 0)%nat
            && (length (Download.failed_images d') =? 0)%nat), d', w', log.
    assert (Hitems : (collected log).*1 ≡ₚ images).
    { by rewrite Hcol, produced_items. }
    split; [done|]. split; [done|]. split; [done|]. split.
    { by rewrite <- (length_fmap fst), produced_items, Hran. }
    split; [done|]. split; [done|]. split; [done|]. split; [done|].
    rewrite Hd, Hf, <- Hitems, <- (fst_three_kinds (collected log)).
    solve_Permutation.
  - intros tar_files force script i w Hw _.
    destruct (import_images_account import_single_image tar_files force
                script i w Hw)
      as (i' & w' & log & Hrun & Hstate & Hran & Hcol & Hord & Hi & Hf & Hs).
    exists (negb (length tar_files =? 0)%nat
            && (length (Importing.failed_imports i') =? 0)%nat),
      i', w', log.
    assert (Hlen : length (produced
                    (fun tar_file =>
                       on_snd (S1 := Importing.DockerImageImporter)
                              (import_single_image tar_file force))
                    Importing.harvest log (i, w)) = length tar_files).
    { by rewrite <- (length_fmap fst), produced_items, Hran. }
    repeat (split; [done|]).
    by rewrite filed_once, Hcol.
Qed.

Lemma batch_results_partition_witness :
  exists b d' w' log,
    Download.download_images
      (Download.pull_image Demo.local_runtime)
      (Download.save_image Demo.local_runtime "offline_images")
      Demo.two_images
      [Start; Start; Finish 1; Finish 0; Harvest 0; Harvest 0]
      (Download.MkDownloader "offline_images" 2 [] [], Demo.archived_world)
      = (Ok b, (d', w'))
    /\ (d', w')
       = replay (Download.download_and_save_image
                   (Download.pull_image Demo.local_runtime)
                   (Download.save_image Demo.local_runtime "offline_images"))
           Download.harvest log
           (Download.MkDownloader "offline_images" 2 [] [],
            Demo.archived_world)
    /\ ran log ≡ₚ Demo.two_images
    /\ length (produced
                 (Download.download_and_save_image
                    (Download.pull_image Demo.local_runtime)
                    (Download.save_image Demo.local_runtime "offline_images"))
                 Download.harvest log
                 (Download.MkDownloader "offline_images" 2 [] [],
                  Demo.archived_world)) = length Demo.two_images
    /\ collected log
       ≡ₚ produced (Download.download_and_save_image
                      (Download.pull_image Demo.local_runtime)
                      (Download.save_image Demo.local_runtime "offline_images"))
            Download.harvest log
            (Download.MkDownloader "offline_images" 2 [] [],
             Demo.archived_world)
    /\ in_order (Download.download_and_save_image
                   (Download.pull_image Demo.local_runtime)
                   (Download.save_image Demo.local_runtime "offline_images"))
         Download.harvest log
         (Download.MkDownloader "offline_images" 2 [] [], Demo.archived_world)
    /\ Download.downloaded_images d'
       ≡ₚ ([] ++ (filter (fun e => Download.returned_success e)
                    (collected log)).*1)%list
    /\ Download.failed_images d'
       ≡ₚ ([] ++ (filter (fun e => Download.returned_failure e)
                    (collected log)).*1
           ++ (filter (fun e => Download.raised e) (collected log)).*1)%list
    /\ (Download.downloaded_images d' ++ Download.failed_images d')%list
       ≡ₚ ([] ++ [] ++ Demo.two_images)%list.
Proof.
  apply (proj1 (batch_results_partition
                  (Download.pull_image Demo.local_runtime)
                  (Download.save_image Demo.local_runtime "offline_images")
                  (Importing.import_single_image Demo.local_runtime)));
    cbn; lia.
Defined.

(** The log of that run: the second image completes first, then the
    first, and the two outcomes are harvested in that order. *)
Example log_of_two_images_out_of_order :
  let task :=
    Download.download_and_save_image
      (Download.pull_image Demo.local_runtime)
      (Download.save_image Demo.local_runtime "offline_images") in
  let start :=
    (Download.MkDownloader "offline_images" 2 [] [], Demo.archived_world) in
  let log :=
    [ Ran "mysql:8.0"; Ran "haxqer/confluence:9.2.1";
      Collected "mysql:8.0" (Ok ("mysql:8.0", true));
      Collected "haxqer/confluence:9.2.1"
        (Ok ("haxqer/confluence:9.2.1", true)) ] in
  (Download.download_images
     (Download.pull_image Demo.local_runtime)
     (Download.save_image Demo.local_runtime "offline_images")
     Demo.two_images
     [Start; Start; Finish 1; Finish 0; Harvest 0; Harvest 0] start).2
  = replay task Download.harvest log start
  /\ produced task Download.harvest log start = collected log.
Proof. split; vm_compute; reflexivity. Qed.

(** The schedule of the witness lets the second image complete first:
    both end in the succeeded list, in completion order. *)
Example download_two_images_out_of_order :
  (Download.download_images
     (Download.pull_image Demo.local_runtime)
     (Download.save_image Demo.local_runtime "offline_images")
     Demo.two_images
     [Start; Start; Finish 1; Finish 0; Harvest 0; Harvest 0]
     (Download.MkDownloader "offline_images" 2 [] [], Demo.archived_world)).1
  = Ok true
  /\ Download.downloaded_images
       (Download.download_images
          (Download.pull_image Demo.local_runtime)
          (Download.save_image Demo.local_runtime "offline_images")
          Demo.two_images
          [Start; Start; Finish 1; Finish 0; Harvest 0; Harvest 0]
          (Download.MkDownloader "offline_images" 2 [] [],
           Demo.archived_world)).2.1
     = ["mysql:8.0"; "haxqer/confluence:9.2.1"].
Proof. split; vm_compute; reflexivity. Qed.



(** The two batches of the witness, run: the task of the second item
    raises, the first item succeeds and the third fails on its own (its
    archive cannot be saved, respectively is not there); the faulting item
    is filed as failed and the two others as their task returned. *)
Example faulting_task_does_not_stop_the_export :
  Download.download_images Demo.flaky_pull
    (Download.save_image Demo.local_runtime "offline_images")
    Demo.three_images []
    (Download.MkDownloader "offline_images" 2 [] [], Demo.archived_world)
  = (Ok false,
     (Download.MkDownloader "offline_images" 2
        ["haxqer/confluence:9.2.1"] ["mysql:8.0"; "postgres:15"],
      MkWorld (fs Demo.archived_world)
        [ Exec ["docker"; "image"; "inspect"; "haxqer/confluence:9.2.1"];
          Exec ["docker"; "image"; "inspect"; "postgres:15"];
          OpenWrite "offline_images/postgres-15.tar";
          Exec ["docker"; "save"; "postgres:15"];
          Unlink "offline_images/postgres-15.tar" ])).
Proof. vm_compute. reflexivity. Qed.

Example faulting_task_does_not_stop_the_import :
  Importing.import_images Demo.flaky_import Demo.three_archives false []
    (Importing.new "offline_images" 2, Demo.archived_world)
  = (Ok false,
     (Importing.MkImporter "offline_images" 2 ["mysql:8.0"]
        [ Importing.MkFailed "offline_images/mysql-8.0.tar"
            "maximum recursion depth exceeded";
          Importing.MkFailed "offline_images/postgres-15.tar"
            ("文件不存在: " ++ "offline_images/postgres-15.tar") ] [],
      MkWorld (fs Demo.archived_world)
        [ Exec ["docker"; "load"; "--input";
                "offline_images/haxqer_confluence-9.2.1.tar"] ])).
Proof. vm_compute. reflexivity. Qed.


(** C10: in an import run the skipped list is empty when the batch ends,
    whatever the tasks do and however they are scheduled. *)
Theorem import_never_skips
    (import_single_image : string -> bool -> M World (string * bool * string))
    (tar_files : list string) (force : bool) (script : list action)
    (images_dir : string) (max_workers : Z) (w : World) :
  Importing.skipped_images
    (Importing.import_images import_single_image tar_files force script
       (Importing.new images_dir max_workers, w)).2.1 = [].
Proof.
  unfold Importing.import_images.
  destruct tar_files as [|tar_file tar_files]; [done|].
  cbn [fst snd Importing.new Importing.max_workers].
  destruct (max_workers <=? 0)%Z; [done|].
  cbn [snd].
  apply (import_pool_ledger import_single_image force (Z.to_nat max_workers)
           (tar_file :: tar_files) script
           (Importing.new images_dir max_workers) w).
Qed.

(** The importer [main] hands to the runner is a fresh one. *)
Lemma prepare_fresh_importer rt args w i tar_files w' :
  Importing.prepare rt args w = (Ok (inr (i, tar_files)), w') ->
  i = Importing.new (Importing.dir args) (Importing.workers args).
Proof.
  unfold Importing.prepare, bind, ret. intros H.
  repeat case_match; by simplify_eq.
Qed.

(** C9: the force flag changes nothing: not the task's result, not the
    batch, not the run. *)
Theorem force_flag_changes_nothing (rt : Runtime) :
  (forall tar_file w,
     Importing.import_single_image rt tar_file true w
     = Importing.import_single_image rt tar_file false w)
  /\ (forall tar_files script s,
        Importing.import_images (Importing.import_single_image rt)
          tar_files true script s
        = Importing.import_images (Importing.import_single_image rt)
            tar_files false script s)
  /\ (forall args script w,
        Importing.main rt (Importing.set_force true args) script w
        = Importing.main rt (Importing.set_force false args) script w).
Proof.
  assert (Htask : forall tar_file force,
            Importing.import_single_image rt tar_file force
            = Importing.import_single_image rt tar_file false).
  { intros tar_file force. reflexivity. }
  split; [intros tar_file w; by rewrite (Htask tar_file true)|]. split.
  - intros tar_files script s. unfold Importing.import_images.
    destruct tar_files as [|tar_file tar_files]; reflexivity.
  - intros args script w. unfold Importing.main, Importing.finish.
    reflexivity.
Qed.

(** ** The export task on an image that is already there *)

Lemma path_exists_lookup path w f :
  fs w !! path = Some f -> path_exists path w = true.
Proof.
  intros H. unfold path_exists. apply bool_decide_eq_true. by rewrite H.
Qed.

Lemma path_exists_none path w :
  fs w !! path = None -> path_exists path w = false.
Proof.
  intros H. unfold path_exists. apply bool_decide_eq_false. rewrite H.
  by intros [? ?].
Qed.

Lemma pull_image_present rt image w out err :
  run_process rt ["docker"; "image"; "inspect"; image] w = Exited 0 out err ->
  Download.pull_image rt image w
  = (Ok true, record_event (Exec ["docker"; "image"; "inspect"; image]) w).
Proof.
  intros H.
  unfold Download.pull_image, Download.image_exists_locally, try_except,
    subprocess_run_check, subprocess_run, bind, ret.
  by rewrite H.
Qed.

Lemma save_image_present rt dir image w f :
  fs w !! Download.tar_path dir image = Some f ->
  Download.save_image rt dir image w = (Ok true, w).
Proof.
  intros H.
  unfold Download.save_image, try_except, exists_, bind, ret.
  by rewrite (path_exists_lookup _ _ _ H).
Qed.

(** C3: when the image is present locally and its archive exists and is
    not empty, the export task succeeds after the one existence query: no
    [docker pull], no [docker save], no file opened for writing, the disk
    as it was, and the image is filed as succeeded. *)
Theorem export_of_archived_image_is_a_no_op
    (rt : Runtime) (d : Download.DockerImageDownloader) (image : string)
    (w : World) (f : file) (out err : string) :
  run_process rt ["docker"; "image"; "inspect"; image] w = Exited 0 out err ->
  fs w !! Download.tar_path (Download.output_dir d) image = Some f ->
  f_size f <> 0%N ->
  exists w',
    Download.download_and_save_image
      (Download.pull_image rt)
      (Download.save_image rt (Download.output_dir d)) image (d, w)
    = (Ok (image, true), (Download.add_downloaded image d, w'))
    /\ Download.pull_image rt image w = (Ok true, w')
    /\ Download.save_image rt (Download.output_dir d) image w' = (Ok true, w')
    /\ fs w' = fs w
    /\ trace w' = (trace w ++ [Exec ["docker"; "image"; "inspect"; image]])%list.
Proof.
  intros Hinspect Hfile _.
  exists (record_event (Exec ["docker"; "image"; "inspect"; image]) w).
  assert (Hsave : Download.save_image rt (Download.output_dir d) image
                    (record_event (Exec ["docker"; "image"; "inspect"; image]) w)
                  = (Ok true,
                     record_event (Exec ["docker"; "image"; "inspect"; image]) w)).
  { by apply (save_image_present _ _ _ _ f). }
  split; [|by rewrite (pull_image_present _ _ _ _ _ Hinspect)].
  unfold Download.download_and_save_image, bind, on_snd, ret. cbn [fst snd].
  rewrite (pull_image_present _ _ _ _ _ Hinspect). cbn [fst snd].
  by rewrite Hsave.
Qed.

Lemma export_of_archived_image_is_a_no_op_witness :
  exists w',
    Download.download_and_save_image
      (Download.pull_image Demo.local_runtime)
      (Download.save_image Demo.local_runtime "offline_images") "mysql:8.0"
      (Download.MkDownloader "offline_images" 3 [] [], Demo.archived_world)
    = (Ok ("mysql:8.0", true),
       (Download.add_downloaded "mysql:8.0"
          (Download.MkDownloader "offline_images" 3 [] []), w'))
    /\ Download.pull_image Demo.local_runtime "mysql:8.0" Demo.archived_world
       = (Ok true, w')
    /\ Download.save_image Demo.local_runtime "offline_images" "mysql:8.0" w'
       = (Ok true, w')
    /\ fs w' = fs Demo.archived_world
    /\ trace w'
       = (trace Demo.archived_world
          ++ [Exec ["docker"; "image"; "inspect"; "mysql:8.0"]])%list.
Proof.
  apply (export_of_archived_image_is_a_no_op Demo.local_runtime
           (Download.MkDownloader "offline_images" 3 [] []) "mysql:8.0"
           Demo.archived_world (File 587202560 Blob) "[]" "").
  - reflexivity.
  - vm_compute. reflexivity.
  - discriminate.
Defined.

(** ** The name an import reports *)

Lemma find_first {A} (P : A -> bool) (pre : list A) (x : A) (post : list A) :
  Forall (fun y => P y = false) pre -> P x = true ->
  List.find P (pre ++ x :: post) = Some x.
Proof.
  induction 1 as [|y pre Hy _ IH]; intros Hx; cbn.
  - by rewrite Hx.
  - rewrite Hy. by apply IH.
Qed.

Lemma find_none {A} (P : A -> bool) (l : list A) :
  Forall (fun y => P y = false) l -> List.find P l = None.
Proof. induction 1 as [|y l Hy _ IH]; cbn; [done|]. by rewrite Hy. Qed.

Lemma split_once_loaded (x : string) :
  Py.split_once ":" ("Loaded image:" ++ x) = ("Loaded image", Some x).
Proof. reflexivity. Qed.

Lemma startswith_loaded (x : string) :
  Py.startswith "Loaded image:" ("Loaded image:" ++ x) = true.
Proof. reflexivity. Qed.

Lemma startswith_inv (p s : string) :
  Py.startswith p s = true -> exists x, s = (p ++ x)%string.
Proof.
  revert s. induction p as [|a p IH]; intros s; [by exists s|].
  destruct s as [|b s]; [done|]. simpl.
  intros [Hab Hps]%andb_prop. apply Ascii.eqb_eq in Hab as ->.
  destruct (IH s Hps) as [x ->]. by exists x.
Qed.

Lemma startswith_loaded_inv (line : string) :
  Py.startswith "Loaded image:" line = true ->
  exists x, line = ("Loaded image:" ++ x)%string.
Proof. apply startswith_inv. Qed.

(** The name parsed from the text of the runtime: the first line that
    starts with ['Loaded image:'] decides, and without such a line there
    is no name. *)
Lemma loaded_image_line_first {St} (text : string) (s : St) pre x post :
  Py.split "010" text = (pre ++ ("Loaded image:" ++ x)%string :: post)%list ->
  Forall (fun l => Py.startswith "Loaded image:" l = false) pre ->
  Importing.loaded_image_line text s = (Ok (Some (Py.strip x)), s).
Proof.
  intros Hsplit Hpre. unfold Importing.loaded_image_line.
  rewrite Hsplit, (find_first _ _ _ _ Hpre (startswith_loaded x)).
  by rewrite split_once_loaded.
Qed.

Lemma loaded_image_line_none {St} (text : string) (s : St) :
  Forall (fun l => Py.startswith "Loaded image:" l = false)
         (Py.split "010" text) ->
  Importing.loaded_image_line text s = (Ok None, s).
Proof.
  intros Hnone. unfold Importing.loaded_image_line.
  by rewrite (find_none _ _ Hnone).
Qed.

(** The index into the split line never fails. *)
Lemma loaded_image_line_returns {St} (text : string) (s : St) :
  exists parsed, Importing.loaded_image_line text s = (Ok parsed, s).
Proof.
  unfold Importing.loaded_image_line.
  destruct (List.find _ _) as [line|] eqn:Hfind; [|by exists None].
  apply find_some in Hfind as [_ [x ->]%startswith_loaded_inv].
  rewrite split_once_loaded. by eexists.
Qed.

(** C6, as the code has it: after a successful [docker load] the
    reported name is the text after the first colon of the first
    ['Loaded image:'] line of the runtime output the task parses ([err]
    below), stripped of white space.  When that output has no such line the
    name is the placeholder ['unknown']; the file name of the archive plays
    no part. *)
Theorem import_reports_loaded_name_or_unknown
    (rt : Runtime) (tar_file : string) (force : bool) (w : World)
    (f : file) (out err : string) :
  fs w !! tar_file = Some f ->
  f_size f <> 0%N ->
  run_process rt ["docker"; "load"; "--input"; tar_file] w = Exited 0 out err ->
  exists name,
    Importing.import_single_image rt tar_file force w
    = (Ok (name, true, ""),
       record_event (Exec ["docker"; "load"; "--input"; tar_file]) w)
    /\ (forall pre x post,
          Py.split "010" err
          = (pre ++ ("Loaded image:" ++ x)%string :: post)%list ->
          Forall (fun l => Py.startswith "Loaded image:" l = false) pre ->
          name = Py.strip x)
    /\ (Forall (fun l => Py.startswith "Loaded image:" l = false)
               (Py.split "010" err) ->
        name = "unknown").
Proof.
  intros Hfile Hsize Hload.
  set (w1 := record_event (Exec ["docker"; "load"; "--input"; tar_file]) w).
  assert (Hparse : exists parsed,
            (if Py.truthy err then Importing.loaded_image_line err
             else ret None) w1 = (Ok parsed, w1)).
  { destruct (Py.truthy err); [apply loaded_image_line_returns|by exists None]. }
  destruct Hparse as [parsed Hparse].
  exists (default "unknown" parsed). split; [|split].
  - unfold Importing.import_single_image, try_except, exists_, stat_size,
      subprocess_run, bind.
    rewrite (path_exists_lookup _ _ _ Hfile). cbn [negb]. cbv beta.
    rewrite Hfile. cbv beta iota.
    destruct (N.eqb_spec (f_size f) 0) as [|_]; [done|]. cbv beta.
    rewrite Hload. cbv beta iota. cbn [fst snd Z.eqb]. fold w1.
    by rewrite Hparse.
  - intros pre x post Hsplit Hpre.
    destruct err as [|c err].
    { destruct pre as [|? [|? ?]]; discriminate. }
    cbn [Py.truthy] in Hparse.
    rewrite (loaded_image_line_first _ _ _ _ _ Hsplit Hpre) in Hparse.
    by inversion Hparse.
  - intros Hnone. destruct (Py.truthy err).
    + rewrite (loaded_image_line_none _ _ Hnone) in Hparse.
      by inversion Hparse.
    + by inversion Hparse.
Qed.

Lemma import_reports_loaded_name_or_unknown_witness :
  exists name,
    Importing.import_single_image Demo.stderr_runtime
      "offline_images/mysql-8.0.tar" false Demo.archived_world
    = (Ok (name, true, ""),
       record_event
         (Exec ["docker"; "load"; "--input"; "offline_images/mysql-8.0.tar"])
         Demo.archived_world)
    /\ (forall pre x post,
          Py.split "010" ("Loaded image: mysql:8.0" ++ Demo.newline)
          = (pre ++ ("Loaded image:" ++ x)%string :: post)%list ->
          Forall (fun l => Py.startswith "Loaded image:" l = false) pre ->
          name = Py.strip x)
    /\ (Forall (fun l => Py.startswith "Loaded image:" l = false)
               (Py.split "010" ("Loaded image: mysql:8.0" ++ Demo.newline)) ->
        name = "unknown").
Proof.
  apply (import_reports_loaded_name_or_unknown Demo.stderr_runtime
           "offline_images/mysql-8.0.tar" false Demo.archived_world
           (File 587202560 Blob) "").
  - vm_compute. reflexivity.
  - discriminate.
  - reflexivity.
Defined.

(** On that host the import reports the name the runtime printed. *)
Example import_reads_name_from_stderr :
  (Importing.import_single_image Demo.stderr_runtime
     "offline_images/mysql-8.0.tar" false Demo.archived_world).1
  = Ok ("mysql:8.0", true, "").
Proof. vm_compute. reflexivity. Qed.

(** A runtime that writes the line to its standard error is read. *)
Example loaded_image_line_example :
  Importing.loaded_image_line (St := World)
    ("Loaded image: mysql:8.0" ++ Demo.newline) Demo.archived_world
  = (Ok (Some "mysql:8.0"), Demo.archived_world).
Proof. reflexivity. Qed.

(** C6 as stated fails: the archive holds an image without a tag, the
    runtime reports an identifier and no ['Loaded image:'] line on either
    stream, and the result names the image ['unknown'], although the file
    name of the archive would give [haxqer/confluence:9.2.1]. *)
Lemma import_does_not_guess_from_file_name :
  run_process Demo.untagged_runtime
    ["docker"; "load"; "--input";
     "offline_images/haxqer_confluence-9.2.1.tar"] Demo.archived_world
  = Exited 0 ("Loaded image ID: sha256:4bc3ae6bd2f1" ++ Demo.newline) ""
  /\ (Importing.loaded_image_line (St := World)
        ("Loaded image ID: sha256:4bc3ae6bd2f1" ++ Demo.newline)
        Demo.archived_world).1 = Ok None
  /\ (Importing.import_single_image Demo.untagged_runtime
        "offline_images/haxqer_confluence-9.2.1.tar" false
        Demo.archived_world).1
     = Ok ("unknown", true, "")
  /\ (Importing.get_image_name_from_tar Demo.untagged_runtime
        "offline_images/haxqer_confluence-9.2.1.tar" Demo.archived_world).1
     = Ok (Some "haxqer/confluence:9.2.1").
Proof. repeat split; vm_compute; reflexivity. Qed.

(** White space around the name is stripped, also outside ASCII. *)
Example loaded_name_is_stripped :
  Importing.loaded_image_line (St := World)
    ("Loaded image:" ++ Demo.no_break_space ++ "mysql:8.0"
       ++ Demo.ideographic_space ++ " " ++ Demo.newline)
    Demo.archived_world
  = (Ok (Some "mysql:8.0"), Demo.archived_world).
Proof. vm_compute. reflexivity. Qed.

(** ** The manifest *)

Lemma image_info_entry dir image w :
  Download.image_info dir image w = (Ok (Download.entry_for dir w image), w).
Proof.
  unfold Download.image_info, Download.entry_for, Download.size_on_disk,
    exists_, stat_size, bind, ret.
  destruct (fs w !! Download.tar_path dir image) as [f|] eqn:Hf.
  - rewrite (path_exists_lookup _ _ _ Hf). cbv beta iota. by rewrite Hf.
  - by rewrite (path_exists_none _ _ Hf).
Qed.

Lemma for_each_image_info dir images w :
  for_each (Download.image_info dir) images w
  = (Ok (Download.entry_for dir w <$> images), w).
Proof.
  induction images as [|image images IH]; [done|].
  cbn [for_each]. unfold bind at 1. rewrite image_info_entry.
  unfold bind at 1. by rewrite IH.
Qed.

(** [generate_manifest] in one step: the file is refused by the
    operating system, or it is opened and the write fails, or the document
    is written over whatever was at the manifest's path. *)
Lemma generate_manifest_unfold rt d w :
  Download.generate_manifest rt d w
  = let path := Download.manifest_path (Download.output_dir d) in
    match write_error rt path w with
    | Some e => (Raise e, w)
    | None =>
        let doc := Download.manifest_for (strftime rt w) (Download.output_dir d)
                     w (Download.downloaded_images d) in
        let opened :=
          record_event (OpenWrite path) (set_file path (File 0 Blob) w) in
        match write_fault rt path opened with
        | Some (e, written) =>
            (Raise e, set_file path (File written Blob) opened)
        | None =>
            (Ok tt, set_file path (File (json_size rt doc) (Json doc)) opened)
        end
    end.
Proof.
  unfold Download.generate_manifest, Download.json_dump, open_write.
  unfold bind at 1. cbv beta iota zeta.
  unfold bind at 1. rewrite for_each_image_info.
  unfold bind at 1.
  destruct (write_error rt _ w); [done|].
  by destruct (write_fault rt _ _) as [[e written]|].
Qed.

(** C4, as the code has it: a manifest that is written lists every
    image of the succeeded list, in order, each with the size its archive
    has on disk at that moment and 0 when the archive is missing; nothing
    but the manifest file changes.  The archives are not required to
    exist or to be non-empty. *)
Theorem manifest_lists_sizes_on_disk
    (rt : Runtime) (d : Download.DockerImageDownloader) (w w' : World) :
  Download.generate_manifest rt d w = (Ok tt, w') ->
  exists size doc,
    fs w' !! Download.manifest_path (Download.output_dir d)
      = Some (File size (Json doc))
    /\ Download.manifest_images doc
       = Download.entry_for (Download.output_dir d) w
           <$> Download.downloaded_images d
    /\ (forall path,
          path <> Download.manifest_path (Download.output_dir d) ->
          fs w' !! path = fs w !! path).
Proof.
  rewrite generate_manifest_unfold. cbv zeta.
  destruct (write_error rt _ w) as [e|]; [discriminate|].
  destruct (write_fault rt _ _) as [[e written]|]; [discriminate|].
  intros [= <-]. eexists _, _. cbn [fs set_file record_event].
  split; [apply lookup_insert_eq|]. split; [done|].
  intros path Hpath. by rewrite !lookup_insert_ne.
Qed.

Lemma manifest_lists_sizes_on_disk_witness :
  exists size doc,
    fs (Download.generate_manifest Demo.local_runtime
          (Download.MkDownloader "offline_images" 3 ["mysql:8.0"] [])
          Demo.interrupted_world).2
      !! Download.manifest_path "offline_images"
      = Some (File size (Json doc))
    /\ Download.manifest_images doc
       = Download.entry_for "offline_images" Demo.interrupted_world
           <$> ["mysql:8.0"]
    /\ (forall path,
          path <> Download.manifest_path "offline_images" ->
          fs (Download.generate_manifest Demo.local_runtime
                (Download.MkDownloader "offline_images" 3 ["mysql:8.0"] [])
                Demo.interrupted_world).2 !! path
          = fs Demo.interrupted_world !! path).
Proof.
  apply (manifest_lists_sizes_on_disk Demo.local_runtime
           (Download.MkDownloader "offline_images" 3 ["mysql:8.0"] [])
           Demo.interrupted_world).
  vm_compute. reflexivity.
Defined.

(** C4 as stated fails: an export over a directory that holds an empty
    archive ends with exit status 0 and a manifest whose entry refers to
    that empty file. *)
Lemma manifest_lists_empty_archive :
  (Download.main Demo.local_runtime
     (Download.MkArgs None (Some ["mysql:8.0"]) None None "offline_images" 3
        false)
     [] Demo.interrupted_world).1 = Ok 0%Z
  /\ exists size doc entry name f,
       fs (Download.main Demo.local_runtime
             (Download.MkArgs None (Some ["mysql:8.0"]) None None
                "offline_images" 3 false)
             [] Demo.interrupted_world).2
         !! Download.manifest_path "offline_images"
         = Some (File size (Json doc))
       /\ Download.manifest_images doc = [entry]
       /\ Download.entry_file entry = Some name
       /\ fs (Download.main Demo.local_runtime
                (Download.MkArgs None (Some ["mysql:8.0"]) None None
                   "offline_images" 3 false)
                [] Demo.interrupted_world).2
            !! Py.path_join "offline_images" name = Some f
       /\ f_size f = 0%N
       /\ ~ Download.archive_confirmed "offline_images"
             (Download.main Demo.local_runtime
                (Download.MkArgs None (Some ["mysql:8.0"]) None None
                   "offline_images" 3 false)
                [] Demo.interrupted_world).2
             entry.
Proof.
  split; [vm_compute; reflexivity|].
  eexists _, _, _, _, _.
  do 5 (split; [vm_compute; reflexivity|]).
  intros (name & f & Hname & Hfile & Hsize).
  vm_compute in Hname. injection Hname as <-.
  vm_compute in Hfile. injection Hfile as <-.
  by apply Hsize.
Qed.

(** A manifest whose ['images'] field is a list is read as it is. *)
Lemma load_manifest_reads i w size kv entries :
  fs w !! Importing.manifest_path (Importing.images_dir i)
    = Some (File size (Json (JObj kv))) ->
  lookup_key "images" kv = Some (JArr entries) ->
  Importing.load_manifest i w = (Ok (Some (JObj kv)), w).
Proof.
  intros Hfile Himages.
  unfold Importing.load_manifest, exists_. unfold bind at 1.
  rewrite (path_exists_lookup _ _ _ Hfile). cbn [negb].
  unfold try_except, Importing.json_load. unfold bind at 1.
  rewrite Hfile. unfold Importing.py_get, bind, ret.
  by rewrite Himages.
Qed.

(** C8: what [generate_manifest] writes, [load_manifest] reads back
    from the same directory: the same document, whose entries carry the
    name, archive file name and size of every image of the succeeded
    list, and whose count is the length of that list; for the empty list
    the count is 0 and there are no entries.  ([json.dump] followed by
    [json.load] is taken to return the document it was given.) *)
Theorem manifest_round_trip
    (rt : Runtime) (d : Download.DockerImageDownloader)
    (i : Importing.DockerImageImporter) (w w' : World) :
  Importing.images_dir i = Download.output_dir d ->
  Download.generate_manifest rt d w = (Ok tt, w') ->
  exists size doc,
    fs w' !! Download.manifest_path (Download.output_dir d)
      = Some (File size (Json doc))
    /\ Importing.load_manifest i w' = (Ok (Some doc), w')
    /\ Download.manifest_images doc
       = Download.entry_for (Download.output_dir d) w
           <$> Download.downloaded_images d
    /\ Download.manifest_total doc
       = Some (Z.of_nat (length (Download.downloaded_images d)))
    /\ (Download.downloaded_images d = [] ->
        Download.manifest_total doc = Some 0%Z
        /\ Download.manifest_images doc = []).
Proof.
  intros Hdir. rewrite generate_manifest_unfold. cbv zeta.
  destruct (write_error rt _ w) as [e|]; [discriminate|].
  destruct (write_fault rt _ _) as [[e written]|]; [discriminate|].
  intros [= <-]. eexists _, _. cbn [fs set_file record_event].
  split; [apply lookup_insert_eq|]. split; [|split; [done|split; [done|]]].
  - eapply load_manifest_reads; [|reflexivity].
    unfold Importing.manifest_path. rewrite Hdir. apply lookup_insert_eq.
  - intros Hnone. unfold Download.manifest_for. by rewrite Hnone.
Qed.

Lemma manifest_round_trip_witness :
  exists size doc,
    fs (Download.generate_manifest Demo.local_runtime
          (Download.MkDownloader "offline_images" 3 Demo.two_images [])
          Demo.archived_world).2
      !! Download.manifest_path "offline_images"
      = Some (File size (Json doc))
    /\ Importing.load_manifest (Importing.new "offline_images" 2)
         (Download.generate_manifest Demo.local_runtime
            (Download.MkDownloader "offline_images" 3 Demo.two_images [])
            Demo.archived_world).2
       = (Ok (Some doc),
          (Download.generate_manifest Demo.local_runtime
             (Download.MkDownloader "offline_images" 3 Demo.two_images [])
             Demo.archived_world).2)
    /\ Download.manifest_images doc
       = Download.entry_for "offline_images" Demo.archived_world
           <$> Demo.two_images
    /\ Download.manifest_total doc = Some 2%Z
    /\ (Demo.two_images = [] ->
        Download.manifest_total doc = Some 0%Z
        /\ Download.manifest_images doc = []).
Proof.
  apply (manifest_round_trip Demo.local_runtime
           (Download.MkDownloader "offline_images" 3 Demo.two_images [])
           (Importing.new "offline_images" 2) Demo.archived_world).
  - reflexivity.
  - vm_compute. reflexivity.
Defined.

(** The entries read back for the two archives of the demonstration
    host, and the manifest of an empty succeeded list. *)
Example manifest_entries_read_back :
  Download.manifest_images
    (Download.manifest_for "2024-05-01 12:00:00" "offline_images"
       Demo.archived_world Demo.two_images)
  = [ JObj [ ("name", JStr "haxqer/confluence:9.2.1");
             ("file", JStr "haxqer_confluence-9.2.1.tar");
             ("size_bytes", JNum 734003200) ];
      JObj [ ("name", JStr "mysql:8.0");
             ("file", JStr "mysql-8.0.tar");
             ("size_bytes", JNum 587202560) ] ].
Proof. vm_compute. reflexivity. Qed.

Example manifest_of_nothing :
  (Importing.load_manifest (Importing.new "offline_images" 2)
     (Download.generate_manifest Demo.local_runtime
        (Download.MkDownloader "offline_images" 3 [] [])
        Demo.archived_world).2).1
  = Ok (Some (JObj [ ("generated_at", JStr "2024-05-01 12:00:00");
                     ("total_images", JNum 0);
                     ("images", JArr []) ])).
Proof. vm_compute. reflexivity. Qed.

(** ** The exit status *)

Lemma download_main_cases rt args script w :
  Download.main rt args script w
  = match Download.prepare rt args w with
    | (Ok (inl code), w1) => (Ok code, w1)
    | (Ok (inr (d, found)), w1) => Download.finish rt args d found script w1
    | (Raise e, w1) => (Raise e, w1)
    end.
Proof.
  unfold Download.main, bind.
  by destruct (Download.prepare rt args w) as [[[c|[d found]]|e] w1].
Qed.

Lemma download_finish_cases rt args d found script w1 :
  Download.finish rt args d found script w1
  = match Download.run_batch rt d found script w1 with
    | (Ok (b, d'), w2) =>
        match Download.after_batch rt args d' w2 with
        | (Ok _, w3) => (Ok (if b then 0 else 1)%Z, w3)
        | (Raise e, w3) => (Raise e, w3)
        end
    | (Raise e, w2) => (Raise e, w2)
    end.
Proof.
  unfold Download.finish, bind, ret.
  destruct (Download.run_batch rt d found script w1) as [[[b d']|e] w2];
    [|done].
  cbn [fst snd]. by destruct (Download.after_batch rt args d' w2) as [[[]|e] w3].
Qed.

Lemma download_prepare_exit rt args w code w1 :
  Download.prepare rt args w = (Ok (inl code), w1) ->
  (code = 1%Z /\ Download.args_consistent args = true)
  \/ (code = 2%Z /\ Download.args_consistent args = false).
Proof.
  unfold Download.prepare, bind, ret. intros H.
  destruct (Download.args_consistent args); cbn [negb] in H;
    repeat case_match; simplify_eq; auto.
Qed.

Lemma download_prepare_ready rt args w d found w1 :
  Download.prepare rt args w = (Ok (inr (d, found)), w1) ->
  found <> [] /\ Download.args_consistent args = true.
Proof.
  unfold Download.prepare, bind, ret. intros H.
  destruct (Download.args_consistent args); cbn [negb] in H;
    repeat case_match; simplify_eq; auto.
Qed.

Lemma download_run_batch_flag rt d found script w1 b d' w2 :
  found <> [] ->
  Download.run_batch rt d found script w1 = (Ok (b, d'), w2) ->
  b = (length (Download.failed_images d') =? 0)%nat.
Proof.
  unfold Download.run_batch, Download.download_images. intros Hfound H.
  destruct found as [|image found]; [done|]. cbn [fst snd] in H.
  destruct (Download.max_workers d <=? 0)%Z; [discriminate|].
  destruct (shared _) as [d'' w'']. by simplify_eq.
Qed.

Lemma length_eqb_nil {A} (l : list A) : (length l =? 0)%nat = true <-> l = [].
Proof. destruct l; cbn; split; congruence. Qed.

(** Writing the manifest is the only thing that can fail after an export
    batch: the file is refused, or the write into it fails. *)
Lemma download_after_batch_returns rt args d' w2 :
  let path := Download.manifest_path (Download.output_dir d') in
  Download.no_manifest args = true
  \/ (write_error rt path w2 = None
      /\ write_fault rt path
           (record_event (OpenWrite path) (set_file path (File 0 Blob) w2))
         = None) ->
  exists w3, Download.after_batch rt args d' w2 = (Ok tt, w3).
Proof.
  cbv zeta. unfold Download.after_batch. intros [Hno|[Hwrite Hfault]].
  - rewrite Hno. cbn. by eexists.
  - destruct (_ && _); [|by eexists].
    rewrite generate_manifest_unfold. cbv zeta. rewrite Hwrite, Hfault.
    by eexists.
Qed.

Lemma import_main_cases rt args script w :
  Importing.main rt args script w
  = match Importing.prepare rt args w with
    | (Ok (inl code), w1) => (Ok code, w1)
    | (Ok (inr (i, tar_files)), w1) =>
        Importing.finish rt args i tar_files script w1
    | (Raise e, w1) => (Raise e, w1)
    end.
Proof.
  unfold Importing.main, bind.
  by destruct (Importing.prepare rt args w) as [[[c|[i tar_files]]|e] w1].
Qed.

Lemma import_finish_cases rt args i tar_files script w1 :
  Importing.finish rt args i tar_files script w1
  = match Importing.run_batch rt i tar_files (Importing.force args) script w1 with
    | (Ok (b, i'), w2) =>
        match Importing.after_batch rt args w2 with
        | (Ok _, w3) => (Ok (if b then 0 else 1)%Z, w3)
        | (Raise e, w3) => (Raise e, w3)
        end
    | (Raise e, w2) => (Raise e, w2)
    end.
Proof.
  unfold Importing.finish, bind, ret.
  destruct (Importing.run_batch rt i tar_files (Importing.force args) script w1)
    as [[[b i']|e] w2]; [|done].
  cbn [fst snd]. by destruct (Importing.after_batch rt args w2) as [[[]|e] w3].
Qed.

Lemma import_prepare_exit rt args w code w1 :
  Importing.prepare rt args w = (Ok (inl code), w1) -> code = 1%Z.
Proof.
  unfold Importing.prepare, bind, ret. intros H.
  repeat case_match; by simplify_eq.
Qed.

Lemma import_prepare_ready rt args w i tar_files w1 :
  Importing.prepare rt args w = (Ok (inr (i, tar_files)), w1) ->
  tar_files <> [].
Proof.
  unfold Importing.prepare, bind, ret. intros H.
  repeat case_match; by simplify_eq.
Qed.

Lemma import_run_batch_flag rt i tar_files force script w1 b i' w2 :
  tar_files <> [] ->
  Importing.run_batch rt i tar_files force script w1 = (Ok (b, i'), w2) ->
  b = (length (Importing.failed_imports i') =? 0)%nat.
Proof.
  unfold Importing.run_batch, Importing.import_images. intros Hfiles H.
  destruct tar_files as [|tar_file tar_files]; [done|]. cbn [fst snd] in H.
  destruct (Importing.max_workers i <=? 0)%Z; [discriminate|].
  destruct (shared _) as [i'' w'']. by simplify_eq.
Qed.

(** Cleaning up never raises. *)
Lemma cleanup_dangling_images_returns rt w :
  exists w', Importing.cleanup_dangling_images rt w = (Ok tt, w').
Proof.
  unfold Importing.cleanup_dangling_images, try_except.
  destruct (bind _ _ w) as [[[]|e] w']; by eexists.
Qed.

(** Without [--list] nothing can fail after an import batch. *)
Lemma import_after_batch_returns rt args w2 :
  Importing.list_after args = false ->
  exists w3, Importing.after_batch rt args w2 = (Ok tt, w3).
Proof.
  intros Hlist. unfold Importing.after_batch, bind. rewrite Hlist.
  destruct (Importing.cleanup args).
  - destruct (cleanup_dangling_images_returns rt w2) as [w3 ->]. by eexists.
  - by eexists.
Qed.

(** The export run ends with 0 exactly when it is clean, and with 1 or
    2 otherwise. *)
Lemma download_exit_status rt args script w :
  (exit_status (Download.main rt args script w).1 = 0%Z
   \/ exit_status (Download.main rt args script w).1 = 1%Z
   \/ (exit_status (Download.main rt args script w).1 = 2%Z
       /\ Download.args_consistent args = false))
  /\ (exit_status (Download.main rt args script w).1 = 0%Z
      <-> Download.clean_run rt args script w).
Proof.
  unfold Download.clean_run. rewrite download_main_cases.
  destruct (Download.prepare rt args w) as [[[c|[d found]]|e] w1] eqn:Hp;
    cbn [fst exit_status].
  - split.
    + apply download_prepare_exit in Hp as [[-> _]|[-> ?]]; auto.
    + split; [|by intros (? & ? & ? & ? & ? & ? & ? & [=] & _)].
      intros ->. by apply download_prepare_exit in Hp as [[[=] _]|[[=] _]].
  - rewrite download_finish_cases.
    destruct (download_prepare_ready _ _ _ _ _ _ Hp) as [Hfound _].
    destruct (Download.run_batch rt d found script w1)
      as [[[b d']|e] w2] eqn:Hb.
    + pose proof (download_run_batch_flag _ _ _ _ _ _ _ _ Hfound Hb) as Hflag.
      destruct (Download.after_batch rt args d' w2) as [[[]|e] w3] eqn:Ha;
        cbn [fst exit_status].
      * split; [destruct b; auto|]. split.
        -- destruct b; [|done]. intros _.
           exists d, found, w1, true, d', w2, w3.
           repeat split; try done. by apply length_eqb_nil.
        -- intros (? & ? & ? & ? & ? & ? & ? & [= <- <- <-] & Hb' & Hf & _).
           rewrite Hb in Hb'. simplify_eq.
           apply length_eqb_nil in Hf. by rewrite Hf.
      * split; [auto|]. split; [done|].
        intros (? & ? & ? & ? & ? & ? & ? & [= <- <- <-] & Hb' & _ & Ha').
        rewrite Hb in Hb'; simplify_eq; congruence.
    + cbn [fst exit_status]. split; [auto|]. split; [done|].
      intros (? & ? & ? & ? & ? & ? & ? & [= <- <- <-] & Hb' & _).
      rewrite Hb in Hb'. simplify_eq.
  - split; [auto|]. split; [done|].
    by intros (? & ? & ? & ? & ? & ? & ? & [=] & _).
Qed.

(** The export run ends with 1 when the runtime is unusable, when the
    work set is empty, and when an item failed. *)
Lemma download_exit_status_1 rt args script w :
  (forall d w0 w1,
     Download.args_consistent args = true ->
     Download.new rt (Download.output args) (Download.workers args) w
       = (Ok d, w0) ->
     Download.check_docker rt w0 = (Ok false, w1) ->
     Download.main rt args script w = (Ok 1%Z, w1))
  /\ (forall d w0 w1 selected w2,
        Download.args_consistent args = true ->
        Download.new rt (Download.output args) (Download.workers args) w
          = (Ok d, w0) ->
        Download.check_docker rt w0 = (Ok true, w1) ->
        Download.select_images args w1 = (Ok selected, w2) ->
        default [] selected = [] ->
        Download.main rt args script w = (Ok 1%Z, w2))
  /\ (forall d found w1 b d' w2,
        Download.prepare rt args w = (Ok (inr (d, found)), w1) ->
        Download.run_batch rt d found script w1 = (Ok (b, d'), w2) ->
        Download.failed_images d' <> [] ->
        exit_status (Download.main rt args script w).1 = 1%Z).
Proof.
  split; [|split].
  - intros d w0 w1 Hargs Hnew Hcheck.
    unfold Download.main, Download.prepare. rewrite Hargs. cbn [negb].
    unfold bind at 1 2. rewrite Hnew. unfold bind at 1. by rewrite Hcheck.
  - intros d w0 w1 selected w2 Hargs Hnew Hcheck Hsel Hempty.
    unfold Download.main, Download.prepare. rewrite Hargs. cbn [negb].
    unfold bind at 1 2. rewrite Hnew. unfold bind at 1. rewrite Hcheck.
    cbn [negb]. unfold bind at 1. rewrite Hsel.
    by destruct selected as [[|? ?]|].
  - intros d found w1 b d' w2 Hp Hb Hfailed.
    rewrite download_main_cases, Hp, download_finish_cases, Hb.
    destruct (download_prepare_ready _ _ _ _ _ _ Hp) as [Hfound _].
    rewrite (download_run_batch_flag _ _ _ _ _ _ _ _ Hfound Hb).
    destruct (Download.after_batch rt args d' w2) as [[[]|e] w3]; [|done].
    by destruct (Download.failed_images d').
Qed.

Lemma import_exit_status rt args script w :
  (exit_status (Importing.main rt args script w).1 = 0%Z
   \/ exit_status (Importing.main rt args script w).1 = 1%Z)
  /\ (exit_status (Importing.main rt args script w).1 = 0%Z
      <-> Importing.clean_run rt args script w).
Proof.
  unfold Importing.clean_run. rewrite import_main_cases.
  destruct (Importing.prepare rt args w)
    as [[[c|[i tar_files]]|e] w1] eqn:Hp; cbn [fst exit_status].
  - pose proof (import_prepare_exit _ _ _ _ _ Hp) as ->.
    split; [auto|]. split; [done|].
    by intros (? & ? & ? & ? & ? & ? & ? & [=] & _).
  - rewrite import_finish_cases.
    pose proof (import_prepare_ready _ _ _ _ _ _ Hp) as Hfiles.
    destruct (Importing.run_batch rt i tar_files _ script w1)
      as [[[b i']|e] w2] eqn:Hb.
    + pose proof (import_run_batch_flag _ _ _ _ _ _ _ _ _ Hfiles Hb) as Hflag.
      destruct (Importing.after_batch rt args w2) as [[[]|e] w3] eqn:Ha;
        cbn [fst exit_status].
      * split; [destruct b; auto|]. split.
        -- destruct b; [|done]. intros _.
           exists i, tar_files, w1, true, i', w2, w3.
           repeat split; try done. by apply length_eqb_nil.
        -- intros (? & ? & ? & ? & ? & ? & ? & [= <- <- <-] & Hb' & Hf & _).
           rewrite Hb in Hb'. simplify_eq.
           apply length_eqb_nil in Hf. by rewrite Hf.
      * split; [auto|]. split; [done|].
        intros (? & ? & ? & ? & ? & ? & ? & [= <- <- <-] & Hb' & _ & Ha').
        rewrite Hb in Hb'; simplify_eq; congruence.
    + cbn [fst exit_status]. split; [auto|]. split; [done|].
      intros (? & ? & ? & ? & ? & ? & ? & [= <- <- <-] & Hb' & _).
      rewrite Hb in Hb'. simplify_eq.
  - split; [auto|]. split; [done|].
    by intros (? & ? & ? & ? & ? & ? & ? & [=] & _).
Qed.

Lemma import_exit_status_1 rt args script w :
  (forall w1,
     Importing.check_docker rt w = (Ok false, w1) ->
     Importing.main rt args script w = (Ok 1%Z, w1))
  /\ (forall w1 w2,
        Importing.check_docker rt w = (Ok true, w1) ->
        Importing.select_work rt args
          (Importing.new (Importing.dir args) (Importing.workers args)) w1
          = (Ok [], w2) ->
        Importing.main rt args script w = (Ok 1%Z, w2))
  /\ (forall i tar_files w1 b i' w2,
        Importing.prepare rt args w = (Ok (inr (i, tar_files)), w1) ->
        Importing.run_batch rt i tar_files (Importing.force args) script w1
          = (Ok (b, i'), w2) ->
        Importing.failed_imports i' <> [] ->
        exit_status (Importing.main rt args script w).1 = 1%Z).
Proof.
  split; [|split].
  - intros w1 Hcheck. unfold Importing.main, Importing.prepare.
    unfold bind at 1 2. by rewrite Hcheck.
  - intros w1 w2 Hcheck Hwork. unfold Importing.main, Importing.prepare.
    unfold bind at 1 2. rewrite Hcheck. cbn [negb].
    unfold bind at 1. by rewrite Hwork.
  - intros i tar_files w1 b i' w2 Hp Hb Hfailed.
    rewrite import_main_cases, Hp, import_finish_cases, Hb.
    pose proof (import_prepare_ready _ _ _ _ _ _ Hp) as Hfiles.
    rewrite (import_run_batch_flag _ _ _ _ _ _ _ _ _ Hfiles Hb).
    destruct (Importing.after_batch rt args w2) as [[[]|e] w3]; [|done].
    by destruct (Importing.failed_imports i').
Qed.

Lemma py_file_of_entry {St} (entry : json) (name : string) (s : St) :
  Download.entry_file entry = Some name ->
  Importing.py_file_of entry s = (Ok (JStr name), s).
Proof.
  unfold Download.entry_file, Importing.py_file_of.
  destruct entry as [| | | |?|kv]; try done.
  destruct (lookup_key "file" kv) as [[| | |?| |]|]; try done.
  by intros [= ->].
Qed.

Lemma forallb_is_str_filter (P : json -> bool) (names : list string) :
  forallb Importing.is_str (List.filter P (JStr <$> names)) = true.
Proof.
  induction names as [|name names IH]; [done|]. cbn.
  destruct (P (JStr name)); cbn; by rewrite ?IH.
Qed.

(** Verification of a manifest whose entries all name their file returns,
    whatever it finds missing or extra. *)
Lemma verify_manifest_well_formed kv entries tar_files w :
  lookup_key "images" kv = Some (JArr entries) ->
  Forall (fun entry => is_Some (Download.entry_file entry)) entries ->
  Importing.verify_manifest (JObj kv) tar_files w = (Ok tt, w).
Proof.
  intros Himages Hentries.
  unfold Importing.verify_manifest, Importing.py_get. rewrite Himages.
  unfold bind at 1. cbn [default from_option ret id].
  unfold Importing.py_iter. unfold bind at 1. cbn [ret].
  assert (Hfiles : exists names,
            for_each (fun img => do f <- Importing.py_file_of img;
                                 if Importing.hashable f then ret f
                                 else raise (Exn TypeError "unhashable type"))
                     entries w
            = (Ok (JStr <$> names), w)).
  { clear Himages.
    induction Hentries as [|entry entries [name Hname] _ IH].
    - by exists [].
    - destruct IH as [names IH].
      exists (name :: names). cbn [for_each]. unfold bind at 1 2.
      rewrite (py_file_of_entry _ _ _ Hname). cbn [Importing.hashable ret].
      unfold bind at 1. by rewrite IH. }
  destruct Hfiles as [names Hfiles]. unfold bind at 1. rewrite Hfiles.
  by rewrite forallb_is_str_filter.
Qed.

(** The exit status of a run.  The process exits with status 0 exactly
    when the run is clean: the batch completed with an empty failed list
    and nothing raised in the steps between the batch and [sys.exit]
    (writing the manifest on export, the optional listing on import).
    Every other run ends with status 1: unusable runtime, empty work set,
    a failed item, an uncaught exception; the export's argument check alone
    exits with 2.  The skipped list plays no part, and neither does what the
    verification of a manifest finds missing or extra, as long as every
    entry names its file by a text. *)
Theorem exit_status_contract (rt : Runtime) :
  (forall args script w,
     (exit_status (Download.main rt args script w).1 = 0%Z
      \/ exit_status (Download.main rt args script w).1 = 1%Z
      \/ (exit_status (Download.main rt args script w).1 = 2%Z
          /\ Download.args_consistent args = false))
     /\ (exit_status (Download.main rt args script w).1 = 0%Z
         <-> Download.clean_run rt args script w)
     /\ (forall d w0 w1,
           Download.args_consistent args = true ->
           Download.new rt (Download.output args) (Download.workers args) w
             = (Ok d, w0) ->
           Download.check_docker rt w0 = (Ok false, w1) ->
           Download.main rt args script w = (Ok 1%Z, w1))
     /\ (forall d w0 w1 selected w2,
           Download.args_consistent args = true ->
           Download.new rt (Download.output args) (Download.workers args) w
             = (Ok d, w0) ->
           Download.check_docker rt w0 = (Ok true, w1) ->
           Download.select_images args w1 = (Ok selected, w2) ->
           default [] selected = [] ->
           Download.main rt args script w = (Ok 1%Z, w2))
     /\ (forall d found w1 b d' w2,
           Download.prepare rt args w = (Ok (inr (d, found)), w1) ->
           Download.run_batch rt d found script w1 = (Ok (b, d'), w2) ->
           Download.failed_images d' <> [] ->
           exit_status (Download.main rt args script w).1 = 1%Z))
  /\ (forall args script w,
     (exit_status (Importing.main rt args script w).1 = 0%Z
      \/ exit_status (Importing.main rt args script w).1 = 1%Z)
     /\ (exit_status (Importing.main rt args script w).1 = 0%Z
         <-> Importing.clean_run rt args script w)
     /\ (forall w1,
           Importing.check_docker rt w = (Ok false, w1) ->
           Importing.main rt args script w = (Ok 1%Z, w1))
     /\ (forall w1 w2,
           Importing.check_docker rt w = (Ok true, w1) ->
           Importing.select_work rt args
             (Importing.new (Importing.dir args) (Importing.workers args)) w1
             = (Ok [], w2) ->
           Importing.main rt args script w = (Ok 1%Z, w2))
     /\ (forall i tar_files w1 b i' w2,
           Importing.prepare rt args w = (Ok (inr (i, tar_files)), w1) ->
           Importing.run_batch rt i tar_files (Importing.force args)
             script w1 = (Ok (b, i'), w2) ->
           Importing.failed_imports i' <> [] ->
           exit_status (Importing.main rt args script w).1 = 1%Z)
     /\ (Importing.list_after args = false ->
         forall w2, exists w3, Importing.after_batch rt args w2 = (Ok tt, w3))
     /\ (forall kv entries tar_files w1,
           lookup_key "images" kv = Some (JArr entries) ->
           Forall (fun entry => is_Some (Download.entry_file entry)) entries ->
           Importing.verify_manifest (JObj kv) tar_files w1 = (Ok tt, w1))).
Proof.
  split; intros args script w.
  - destruct (download_exit_status rt args script w) as [Hcodes Hclean].
    destruct (download_exit_status_1 rt args script w)
      as (Hruntime & Hempty & Hfailed).
    repeat (split; [done|]). done.
  - destruct (import_exit_status rt args script w) as [Hcodes Hclean].
    destruct (import_exit_status_1 rt args script w)
      as (Hruntime & Hempty & Hfailed).
    repeat (split; [done|]). split.
    + intros Hlist w2. by apply import_after_batch_returns.
    + apply verify_manifest_well_formed.
Qed.

(** C1: a batch that completed without a failed item is to end with
    status 0 whatever becomes of the manifest.  On a host whose file system
    is read-only, an export of two images that are present and archived
    completes its batch with an empty failed list; the manifest cannot be
    opened, [main] does not catch the error, and the process ends with
    status 1. *)
Lemma clean_export_ends_with_1_without_manifest :
  exit_status
    (Download.main Demo.read_only_runtime
       (Download.MkArgs None (Some Demo.two_images) None None
          "offline_images" 3 false)
       [] Demo.archived_world).1 = 1%Z
  /\ exists d found w1 b d' w2,
       Download.prepare Demo.read_only_runtime
         (Download.MkArgs None (Some Demo.two_images) None None
            "offline_images" 3 false)
         Demo.archived_world = (Ok (inr (d, found)), w1)
       /\ Download.run_batch Demo.read_only_runtime d found [] w1
          = (Ok (b, d'), w2)
       /\ b = true
       /\ Download.failed_images d' = []
       /\ Download.downloaded_images d' = Demo.two_images
       /\ (Download.after_batch Demo.read_only_runtime
             (Download.MkArgs None (Some Demo.two_images) None None
                "offline_images" 3 false) d' w2).1
          = Raise (Exn OSError "[Errno 30] Read-only file system").
Proof.
  split; [vm_compute; reflexivity|].
  eexists _, _, _, _, _, _.
  split; [vm_compute; reflexivity|].
  split; [vm_compute; reflexivity|].
  repeat split; vm_compute; reflexivity.
Qed.

(** The same export on a host where the manifest can be written ends
    with status 0. *)
Example clean_export_ends_with_0 :
  exit_status
    (Download.main Demo.local_runtime
       (Download.MkArgs None (Some Demo.two_images) None None
          "offline_images" 3 false)
       [] Demo.archived_world).1 = 0%Z.
Proof. vm_compute. reflexivity. Qed.

(** The two examples of the specification: the predefined MySQL set on a
    host that has both images and both archives, and an import from a
    directory without archives. *)
Example export_of_predefined_set :
  Download.get_predefined_images "mysql" "confluence_9.2.1" = Demo.two_images
  /\ (Download.main Demo.local_runtime
        (Download.MkArgs (Some "") None (Some "mysql")
           (Some "confluence_9.2.1") "offline_images" 3 false)
        [] Demo.archived_world).1 = Ok 0%Z
  /\ trace
       (Download.main Demo.local_runtime
          (Download.MkArgs (Some "") None (Some "mysql")
             (Some "confluence_9.2.1") "offline_images" 3 false)
          [] Demo.archived_world).2
     = [ Exec ["docker"; "--version"];
         Exec ["docker"; "image"; "inspect"; "haxqer/confluence:9.2.1"];
         Exec ["docker"; "image"; "inspect"; "mysql:8.0"];
         OpenWrite "offline_images/images_manifest.json" ].
Proof. repeat split; vm_compute; reflexivity. Qed.

Example import_of_empty_directory :
  (Importing.main Demo.local_runtime
     (Importing.MkArgs "empty" None 2 false false false false) []
     (MkWorld (<["empty" := File 4096 Dir]> ∅) [])).1 = Ok 1%Z
  /\ trace
       (Importing.main Demo.local_runtime
          (Importing.MkArgs "empty" None 2 false false false false) []
          (MkWorld (<["empty" := File 4096 Dir]> ∅) [])).2
     = [Exec ["docker"; "--version"]; Exec ["docker"; "info"]].
Proof. split; vm_compute; reflexivity. Qed.

(** A manifest that lists a missing archive does not change the exit
    status; one whose entry has no ['file'] stops the import before any
    archive is loaded. *)
Example import_with_stale_manifest :
  (Importing.main Demo.local_runtime
     (Importing.MkArgs "offline_images" None 2 false false false false) []
     Demo.stale_manifest_world).1 = Ok 0%Z.
Proof. vm_compute. reflexivity. Qed.

Example import_with_broken_manifest :
  (Importing.main Demo.local_runtime
     (Importing.MkArgs "offline_images" None 2 false false false false) []
     Demo.broken_manifest_world)
  = (Raise (Exn KeyError "'file'"),
     MkWorld (fs Demo.broken_manifest_world)
       [Exec ["docker"; "--version"]; Exec ["docker"; "info"]]).
Proof. vm_compute. reflexivity. Qed.

(** How an empty archive comes about: the file is opened, the runtime
    cannot be started, and the handler returns without removing it. *)
Example failed_save_leaves_empty_archive :
  (Download.main Demo.no_save_runtime
     (Download.MkArgs None (Some ["mysql:8.0"]) None None "offline_images" 3
        false)
     [] Demo.empty_world).1 = Ok 1%Z
  /\ fs (Download.main Demo.no_save_runtime
           (Download.MkArgs None (Some ["mysql:8.0"]) None None
              "offline_images" 3 false)
           [] Demo.empty_world).2
     = fs Demo.interrupted_world.
Proof. split; vm_compute; reflexivity. Qed.

(** A pool of width 0 is refused before any task is submitted. *)
Example pool_of_width_zero_is_refused :
  Download.download_images
    (Download.pull_image Demo.local_runtime)
    (Download.save_image Demo.local_runtime "offline_images")
    Demo.two_images []
    (Download.MkDownloader "offline_images" 0 [] [], Demo.archived_world)
  = (Raise (Exn ValueError "max_workers must be greater than 0"),
     (Download.MkDownloader "offline_images" 0 [] [], Demo.archived_world)).
Proof. reflexivity. Qed.


(** * Further properties of the two programs *)

(** ** Archive names and paths *)

Lemma length_append (a b : string) :
  String.length (a ++ b) = String.length a + String.length b.
Proof. induction a as [|c a IH]; [done|]. rewrite append_cons. cbn. by rewrite IH. Qed.

Lemma append_inv_head (d a b : string) : d ++ a = d ++ b -> a = b.
Proof.
  induction d as [|c d IH]; [done|]. rewrite !append_cons. intros [= H]. auto.
Qed.

Lemma contains_append c (a b : string) :
  Py.contains c (a ++ b) = Py.contains c a || Py.contains c b.
Proof.
  induction a as [|x a IH]; [done|]. rewrite append_cons. simpl.
  by rewrite IH, orb_assoc.
Qed.

Lemma safe_name_flat (image : string) :
  Py.contains "/" (safe_name image) = false
  /\ Py.contains ":" (safe_name image) = false.
Proof.
  unfold safe_name. induction image as [|c image [IH1 IH2]]; [done|].
  simpl. rewrite IH1, IH2.
  destruct (Ascii.eqb_spec c ":") as [->|Hc]; [done|].
  destruct (Ascii.eqb_spec c "/") as [->|Hs]; [done|].
  split; rewrite orb_false_r; by apply Ascii.eqb_neq.
Qed.

Lemma archive_file_name_flat (image : string) :
  Py.contains "/" (archive_file_name image) = false
  /\ Py.contains ":" (archive_file_name image) = false.
Proof.
  unfold archive_file_name. rewrite !contains_append.
  destruct (safe_name_flat image) as [-> ->]. done.
Qed.

Lemma path_name_flat (n : string) :
  Py.contains "/" n = false -> Py.path_name n = n.
Proof.
  destruct n as [|c n]; [done|]. simpl.
  intros [Hc Hn]%orb_false_elim. by rewrite Hn, Hc.
Qed.

Lemma path_name_after_slash (d n : string) :
  Py.contains "/" n = false -> Py.path_name (d ++ "/" ++ n) = n.
Proof.
  intros Hn. induction d as [|c d IH].
  - rewrite append_empty, append_cons, append_empty. simpl. by rewrite Hn.
  - rewrite append_cons. simpl Py.path_name.
    rewrite contains_append. simpl Py.contains at 2.
    by rewrite orb_true_r.
Qed.

Lemma path_name_path_join (d n : string) :
  Py.contains "/" n = false -> Py.path_name (Py.path_join d n) = n.
Proof.
  intros Hn. unfold Py.path_join.
  destruct (String.eqb d "."); [by apply path_name_flat|].
  destruct (String.eqb d "/").
  - by apply (path_name_after_slash "").
  - by apply path_name_after_slash.
Qed.

Lemma path_join_inj (d a b : string) :
  Py.path_join d a = Py.path_join d b -> a = b.
Proof.
  unfold Py.path_join.
  destruct (String.eqb d "."); [done|].
  destruct (String.eqb d "/").
  - by intros [= H].
  - intros H%append_inv_head. by injection H.
Qed.

Lemma strip_prefix_append (p s : string) : Py.strip_prefix p (p ++ s) = Some s.
Proof.
  induction p as [|c p IH]; [done|]. rewrite append_cons. simpl.
  by rewrite Ascii.eqb_refl.
Qed.

Lemma truthy_append_r (a b : string) : Py.truthy b = true -> Py.truthy (a ++ b) = true.
Proof. destruct a; [done|]. by rewrite append_cons. Qed.

Lemma child_name_path_join (d n : string) :
  Py.contains "/" n = false -> Py.truthy n = true ->
  Importing.child_name d (Py.path_join d n) = Some n.
Proof.
  intros Hn Ht. unfold Importing.child_name, Py.path_join.
  destruct (String.eqb d "."); [by rewrite Hn|].
  destruct (String.eqb d "/").
  - rewrite strip_prefix_append. by rewrite Hn, Ht.
  - rewrite <- append_assoc, strip_prefix_append. by rewrite Hn, Ht.
Qed.

Lemma startswith_append (p s : string) : Py.startswith p (p ++ s) = true.
Proof.
  induction p as [|c p IH]; [done|]. rewrite append_cons. simpl.
  by rewrite Ascii.eqb_refl.
Qed.

Lemma rev_app_append (a b acc : string) :
  String.rev_app (a ++ b) acc = String.rev_app b (String.rev_app a acc).
Proof.
  revert acc. induction a as [|c a IH]; intros acc; [done|].
  rewrite append_cons. cbn [String.rev_app]. apply IH.
Qed.

Lemma rev_app_acc (p acc : string) :
  String.rev_app p acc = String.rev_app p "" ++ acc.
Proof.
  revert acc. induction p as [|c p IH]; intros acc; [done|].
  cbn [String.rev_app]. rewrite (IH (String c acc)), (IH (String c "")).
  by rewrite append_assoc, append_cons, append_empty.
Qed.

Lemma endswith_append (p s : string) : Py.endswith p (s ++ p) = true.
Proof.
  unfold Py.endswith, String.rev.
  rewrite rev_app_append, (rev_app_acc p (String.rev_app s "")).
  apply startswith_append.
Qed.

Lemma path_name_tar_path (dir image : string) :
  Py.path_name (Download.tar_path dir image) = archive_file_name image.
Proof.
  apply path_name_path_join. by destruct (archive_file_name_flat image).
Qed.

Lemma child_name_tar_path (dir image : string) :
  Importing.child_name dir (Download.tar_path dir image)
  = Some (archive_file_name image).
Proof.
  apply child_name_path_join.
  - by destruct (archive_file_name_flat image).
  - unfold archive_file_name. by apply truthy_append_r.
Qed.

(** X1: the archive of an image lies directly in the output directory,
    however many ['/'] the reference holds: its file name holds no ['/'],
    it is the [name] of the archive's path (what the manifest records as
    ['file'] and what the import compares), the directory scan of the
    import takes it for a child of the directory, and it ends in [.tar]. *)
Theorem archive_is_a_direct_child (dir image : string) :
  Py.contains "/" (archive_file_name image) = false
  /\ Py.path_name (Download.tar_path dir image) = archive_file_name image
  /\ Importing.child_name dir (Download.tar_path dir image)
     = Some (archive_file_name image)
  /\ Py.endswith ".tar" (Py.path_name (Download.tar_path dir image)) = true.
Proof.
  destruct (archive_file_name_flat image) as [Hflat _].
  split; [done|]. split; [apply path_name_tar_path|].
  split; [apply child_name_tar_path|].
  rewrite path_name_tar_path. apply endswith_append.
Qed.

Lemma append_inv_tail (a b c : string) : a ++ c = b ++ c -> a = b.
Proof.
  intros H. apply (f_equal list_ascii_of_string) in H.
  rewrite !list_ascii_of_append in H. apply app_inv_tail in H.
  apply (f_equal string_of_list_ascii) in H.
  by rewrite !string_of_list_ascii_of_string in H.
Qed.

(** X2: two references have the same archive path exactly when their safe
    names agree; [save_image] then takes the archive of the one for the
    archive of the other and returns [True] without saving anything. *)
Theorem archive_is_identified_by_the_safe_name
    (rt : Runtime) (dir a b : string) (w : World) :
  (Download.tar_path dir a = Download.tar_path dir b
   <-> safe_name a = safe_name b)
  /\ (safe_name a = safe_name b ->
      is_Some (fs w !! Download.tar_path dir a) ->
      Download.save_image rt dir b w = (Ok true, w)).
Proof.
  assert (Hpath : safe_name a = safe_name b ->
                  Download.tar_path dir a = Download.tar_path dir b).
  { unfold Download.tar_path, archive_file_name. by intros ->. }
  split; [split; [|done]|].
  - unfold Download.tar_path, archive_file_name.
    by intros H%path_join_inj%append_inv_tail.
  - intros Hsame [f Hf]. rewrite (Hpath Hsame) in Hf.
    by apply (save_image_present _ _ _ _ f).
Qed.

(** ** The name guessed from an archive's file name *)

Lemma rfind_absent c (s : string) :
  Py.contains c s = false -> Py.rfind c s = None.
Proof.
  induction s as [|d s IH]; [done|]. simpl.
  intros [Hd Hs]%orb_false_elim. by rewrite (IH Hs), Hd.
Qed.

Lemma rfind_last c (a b : string) :
  Py.contains c b = false ->
  Py.rfind c (a ++ String c b) = Some (String.length a).
Proof.
  intros Hb. induction a as [|d a IH].
  - rewrite append_empty. simpl. by rewrite (rfind_absent _ _ Hb), Ascii.eqb_refl.
  - rewrite append_cons. simpl. by rewrite IH.
Qed.

Lemma substring_prefix (a b : string) :
  String.substring 0 (String.length a) (a ++ b) = a.
Proof.
  induction a as [|c a IH].
  - rewrite append_empty. by destruct b.
  - rewrite append_cons. simpl. by rewrite IH.
Qed.

Lemma path_stem_of_archive (d name : string) :
  Py.contains "/" name = false -> Py.truthy name = true ->
  Py.path_stem (Py.path_join d (name ++ ".tar")) = name.
Proof.
  intros Hflat Hname. unfold Py.path_stem.
  rewrite path_name_path_join by (by rewrite contains_append, Hflat).
  change (name ++ ".tar") with (name ++ String "." "tar").
  rewrite rfind_last by done. rewrite length_append.
  destruct name as [|c name]; [done|].
  cbn [String.length].
  replace (0 <? S (String.length name))%nat with true
    by (symmetry; apply Nat.ltb_lt; lia).
  replace (S (String.length name) <? S (String.length name) + 4 - 1)%nat
    with true by (symmetry; apply Nat.ltb_lt; lia).
  cbn [andb]. apply (substring_prefix (String c name)).
Qed.

Lemma split_once_first c (a b : string) :
  Py.contains c a = false -> Py.split_once c (a ++ String c b) = (a, Some b).
Proof.
  induction a as [|d a IH].
  - intros _. rewrite append_empty. simpl. by rewrite Ascii.eqb_refl.
  - simpl Py.contains. intros [Hd Ha]%orb_false_elim.
    rewrite append_cons. simpl. by rewrite Hd, (IH Ha).
Qed.

Lemma safe_name_of_components (namespace repo tag : string) :
  separator_free namespace -> separator_free repo -> separator_free tag ->
  safe_name (namespace ++ "/" ++ repo ++ ":" ++ tag)
  = namespace ++ "_" ++ repo ++ "-" ++ tag.
Proof.
  intros [Hn1 Hn2] [Hr1 Hr2] [Ht1 Ht2]. unfold safe_name.
  rewrite !replace_append.
  rewrite (replace_absent ":" _ namespace), (replace_absent ":" _ repo),
    (replace_absent ":" _ tag) by done.
  rewrite (replace_absent "/" _ namespace), (replace_absent "/" _ repo),
    (replace_absent "/" _ tag) by done.
  done.
Qed.

(** X3: for a reference [namespace/repo:tag] whose components hold no
    separator, whose namespace holds no ['_'] and whose repository holds no
    ['-'], [get_image_name_from_tar] gives the reference back from the path
    of its archive, without running anything. *)
Theorem name_guess_inverts_archive_name
    (rt : Runtime) (dir namespace repo tag : string) (w : World) :
  separator_free namespace -> separator_free repo -> separator_free tag ->
  Py.contains "_" namespace = false ->
  Py.contains "-" repo = false ->
  Importing.get_image_name_from_tar rt
    (Download.tar_path dir (namespace ++ "/" ++ repo ++ ":" ++ tag)) w
  = (Ok (Some (namespace ++ "/" ++ repo ++ ":" ++ tag)), w).
Proof.
  intros Hn Hr Ht Hunder Hdash.
  unfold Importing.get_image_name_from_tar, Download.tar_path,
    archive_file_name.
  rewrite (safe_name_of_components _ _ _ Hn Hr Ht).
  destruct Hn as [Hn1 _], Hr as [Hr1 _], Ht as [Ht1 _].
  rewrite path_stem_of_archive; cycle 1.
  { rewrite !contains_append, Hn1, Hr1, Ht1. done. }
  { apply truthy_append_r. done. }
  replace (Py.contains "_" (namespace ++ "_" ++ repo ++ "-" ++ tag)) with true
    by (rewrite !contains_append; cbn; by rewrite !orb_true_r).
  replace (Py.contains "-" (namespace ++ "_" ++ repo ++ "-" ++ tag)) with true
    by (rewrite !contains_append; cbn; by rewrite !orb_true_r).
  cbn [andb].
  change (namespace ++ "_" ++ repo ++ "-" ++ tag)
    with (namespace ++ String "_" (repo ++ "-" ++ tag)).
  rewrite (split_once_first _ _ _ Hunder).
  rewrite (replace_first_absent "-" ":" repo) by done.
  done.
Qed.

Lemma name_guess_inverts_archive_name_witness :
  Importing.get_image_name_from_tar Demo.local_runtime
    (Download.tar_path "offline_images"
       ("haxqer" ++ "/" ++ "confluence" ++ ":" ++ "9.2.1"))
    Demo.empty_world
  = (Ok (Some ("haxqer" ++ "/" ++ "confluence" ++ ":" ++ "9.2.1")),
     Demo.empty_world).
Proof.
  apply (name_guess_inverts_archive_name Demo.local_runtime "offline_images"
           "haxqer" "confluence" "9.2.1" Demo.empty_world);
    try split; reflexivity.
Defined.

(** ** The two steps of an export task, case by case *)

Lemma pull_image_unfold rt image w :
  let inspect := ["docker"; "image"; "inspect"; image] in
  let pull := ["docker"; "pull"; image] in
  let w1 := record_event (Exec inspect) w in
  let w2 := record_event (Exec pull) w1 in
  let pulled :=
    match run_process rt pull w1 with
    | Exited rc _ _ => (Ok (rc =? 0)%Z, w2)
    | SpawnError _ => (Ok false, w2)
    end in
  Download.pull_image rt image w
  = match run_process rt inspect w with
    | Exited rc _ _ => if (rc =? 0)%Z then (Ok true, w1) else pulled
    | SpawnError e =>
        if is_kind CalledProcessError e then pulled else (Ok false, w1)
    end.
Proof.
  cbv zeta.
  unfold Download.pull_image, Download.image_exists_locally, try_except,
    subprocess_run_check, subprocess_run, bind, ret, raise.
  destruct (run_process rt ["docker"; "image"; "inspect"; image] w)
    as [e|rc out err].
  - destruct (is_kind CalledProcessError e); [|done].
    destruct (run_process rt _ _) as [e'|rc' out' err']; [done|].
    cbn [fst]. by destruct (rc' =? 0)%Z.
  - cbn [fst]. destruct (rc =? 0)%Z; [done|]. cbn [is_kind e_kind].
    destruct (run_process rt _ _) as [e'|rc' out' err']; [done|].
    cbn [fst]. by destruct (rc' =? 0)%Z.
Qed.

Lemma save_image_unfold rt dir image w :
  let tar := Download.tar_path dir image in
  let save := ["docker"; "save"; image] in
  let w1 := record_event (OpenWrite tar) (set_file tar (File 0 Blob) w) in
  let w2 := record_event (Exec save) w1 in
  Download.save_image rt dir image w
  = match fs w !! tar with
    | Some _ => (Ok true, w)
    | None =>
        match write_error rt tar w with
        | Some _ => (Ok false, w)
        | None =>
            match run_process rt save w1 with
            | SpawnError _ => (Ok false, w2)
            | Exited rc out err =>
                let w3 :=
                  set_file tar (File (N.of_nat (String.length out)) Blob) w2 in
                if (rc =? 0)%Z then (Ok true, w3)
                else if Py.utf8_valid err
                then (Ok false, record_event (Unlink tar) (remove_file tar w3))
                else (Ok false, w3)
            end
        end
    end.
Proof.
  cbv zeta.
  unfold Download.save_image, try_except, exists_. unfold bind at 1.
  destruct (fs w !! Download.tar_path dir image) as [f|] eqn:Hf.
  { by rewrite (path_exists_lookup _ _ _ Hf). }
  rewrite (path_exists_none _ _ Hf). unfold open_write. unfold bind at 1.
  destruct (write_error rt _ w) as [e|]; [done|].
  unfold Download.subprocess_run_to_file. unfold bind at 1.
  destruct (run_process rt _ _) as [e|rc out err]; [done|].
  cbn [fst]. destruct (rc =? 0)%Z.
  - unfold stat_size, bind, ret. cbn [fs set_file record_event].
    by rewrite lookup_insert_eq.
  - unfold decode. unfold bind at 1. cbn [snd].
    destruct (Py.utf8_valid err); [|done]. cbn [ret].
    unfold bind, unlink, ret, path_exists. cbn [fs set_file record_event].
    rewrite lookup_insert_eq.
    rewrite bool_decide_eq_true_2 by eauto. cbv beta. cbn [fs set_file record_event].
    by rewrite lookup_insert_eq.
Qed.

(** Plain ASCII is well-formed UTF-8. *)
Lemma ascii_only_utf8_valid (s : string) :
  ascii_only s = true -> Py.utf8_valid s = true.
Proof.
  unfold ascii_only. induction s as [|a s IH]; [done|].
  cbn [list_ascii_of_string forallb]. intros [Ha Hs]%andb_prop.
  cbn [Py.utf8_valid].
  assert (Hr : Py.in_range 0 127 a = true).
  { unfold Py.in_range. apply Nat.ltb_lt in Ha. cbn [Nat.leb andb].
    apply Nat.leb_le. lia. }
  rewrite Hr. auto.
Qed.

Lemma grown_at_refl paths w : grown_at paths w w.
Proof. by split. Qed.

Lemma grown_at_trans paths w1 w2 w3 :
  grown_at paths w1 w2 -> grown_at paths w2 w3 -> grown_at paths w1 w3.
Proof.
  intros [Hk1 Hf1] [Hk2 Hf2]. split.
  - intros path f H. by apply Hk2, Hk1.
  - intros path H. by rewrite Hf2, Hf1.
Qed.

Lemma grown_at_weaken paths paths' w w' :
  (forall path, path ∈ paths -> path ∈ paths') ->
  grown_at paths w w' -> grown_at paths' w w'.
Proof. intros Hsub [Hk Hf]. split; [done|]. intros path H. apply Hf. auto. Qed.

Lemma grown_at_same_files paths w w' : fs w' = fs w -> grown_at paths w w'.
Proof. intros H. split; intros; by rewrite H. Qed.

Lemma pull_image_fs rt image w : fs (Download.pull_image rt image w).2 = fs w.
Proof.
  rewrite pull_image_unfold. cbv zeta.
  repeat case_match; done.
Qed.

Lemma pull_image_returns rt image w :
  exists b, (Download.pull_image rt image w).1 = Ok b.
Proof.
  rewrite pull_image_unfold. cbv zeta.
  repeat case_match; by eexists.
Qed.

Lemma save_image_returns rt dir image w :
  exists b, (Download.save_image rt dir image w).1 = Ok b.
Proof.
  rewrite save_image_unfold. cbv zeta.
  repeat case_match; by eexists.
Qed.

Lemma save_image_grows rt dir image w :
  grown_at [Download.tar_path dir image] w
    (Download.save_image rt dir image w).2.
Proof.
  rewrite save_image_unfold. cbv zeta.
  destruct (fs w !! Download.tar_path dir image) as [f|] eqn:Hf;
    [apply grown_at_refl|].
  destruct (write_error rt _ w); [apply grown_at_refl|].
  assert (Hne : forall path f, fs w !! path = Some f ->
                  path <> Download.tar_path dir image) by congruence.
  destruct (run_process rt _ _) as [e|rc out err];
    [|destruct (rc =? 0)%Z; [|destruct (Py.utf8_valid err)]];
    (split; cbn [snd fs set_file remove_file record_event];
     [intros path f H; pose proof (Hne _ _ H)
     |intros path H%not_elem_of_cons; destruct H as [H _]]);
    by rewrite ?lookup_delete_ne, ?lookup_insert_ne.
Qed.

(** A save that reports success leaves the archive in place. *)
Lemma save_image_success rt dir image w :
  (Download.save_image rt dir image w).1 = Ok true ->
  is_Some (fs (Download.save_image rt dir image w).2
             !! Download.tar_path dir image).
Proof.
  rewrite save_image_unfold. cbv zeta.
  destruct (fs w !! Download.tar_path dir image) as [f|] eqn:Hf;
    [intros _; cbn [snd]; rewrite Hf; eauto|].
  destruct (write_error rt _ w); [done|].
  destruct (run_process rt _ _) as [e|rc out err]; [done|].
  destruct (rc =? 0)%Z; [|by destruct (Py.utf8_valid err)].
  intros _. cbn [snd fs set_file record_event]. rewrite lookup_insert_eq. eauto.
Qed.

(** ** One save, one pull *)

(** X4: [pull_image] never raises and touches no file; it runs the
    existence query, runs [docker pull] only when that query did not exit
    with 0, and returns [True] only when one of the two exited with 0. *)
Theorem pull_image_queries_then_pulls
    (rt : Runtime) (image : string) (w : World) :
  exists b cmds,
    Download.pull_image rt image w
    = (Ok b, MkWorld (fs w) (trace w ++ (Exec <$> cmds))%list)
    /\ (cmds = [["docker"; "image"; "inspect"; image]]
        \/ (cmds = [["docker"; "image"; "inspect"; image];
                    ["docker"; "pull"; image]]
            /\ forall out err,
                 run_process rt ["docker"; "image"; "inspect"; image] w
                 <> Exited 0 out err))
    /\ (b = true ->
        (exists out err,
           run_process rt ["docker"; "image"; "inspect"; image] w
           = Exited 0 out err)
        \/ (exists out err,
              run_process rt ["docker"; "pull"; image]
                (record_event (Exec ["docker"; "image"; "inspect"; image]) w)
              = Exited 0 out err)).
Proof.
  rewrite pull_image_unfold. cbv zeta.
  assert (Hpulled :
    forall r,
      r = match run_process rt ["docker"; "pull"; image]
                  (record_event (Exec ["docker"; "image"; "inspect"; image]) w)
          with
          | Exited rc _ _ =>
              (Ok (rc =? 0)%Z,
               record_event (Exec ["docker"; "pull"; image])
                 (record_event (Exec ["docker"; "image"; "inspect"; image]) w))
          | SpawnError _ =>
              (Ok false,
               record_event (Exec ["docker"; "pull"; image])
                 (record_event (Exec ["docker"; "image"; "inspect"; image]) w))
          end ->
      exists b,
        r = (Ok b,
             MkWorld (fs w)
               (trace w ++ (Exec <$> [["docker"; "image"; "inspect"; image];
                                      ["docker"; "pull"; image]]))%list)
        /\ (b = true ->
            exists out err,
              run_process rt ["docker"; "pull"; image]
                (record_event (Exec ["docker"; "image"; "inspect"; image]) w)
              = Exited 0 out err)).
  { intros r ->. unfold record_event. cbn [fs trace fmap list_fmap].
    rewrite <- app_assoc. cbn [app].
    destruct (run_process rt ["docker"; "pull"; image] _) as [e|rc out err].
    - by exists false.
    - exists (rc =? 0)%Z. split; [done|].
      intros ->%Z.eqb_eq. eauto. }
  destruct (run_process rt ["docker"; "image"; "inspect"; image] w)
    as [e|rc out err] eqn:Hinspect.
  - destruct (is_kind CalledProcessError e).
    + destruct (Hpulled _ eq_refl) as (b & -> & Hb).
      exists b, [["docker"; "image"; "inspect"; image];
                 ["docker"; "pull"; image]].
      split; [done|]. split; [right; split; [done|]; congruence|]. auto.
    + exists false, [["docker"; "image"; "inspect"; image]].
      split; [done|]. split; [by left|done].
  - destruct (Z.eqb_spec rc 0) as [->|Hrc].
    + exists true, [["docker"; "image"; "inspect"; image]].
      split; [done|]. split; [by left|]. intros _. left. eauto.
    + destruct (Hpulled _ eq_refl) as (b & -> & Hb).
      exists b, [["docker"; "image"; "inspect"; image];
                 ["docker"; "pull"; image]].
      split; [done|]. split; [right; split; [done|]; congruence|]. auto.
Qed.

(** X5: [save_image] never raises; it leaves every file that was there as
    it was, changes nothing but the archive of its image, and returns [True]
    only with that archive on disk. *)
Theorem save_image_keeps_what_is_there
    (rt : Runtime) (dir image : string) (w : World) :
  exists b w',
    Download.save_image rt dir image w = (Ok b, w')
    /\ (forall path f, fs w !! path = Some f -> fs w' !! path = Some f)
    /\ (forall path, path <> Download.tar_path dir image ->
          fs w' !! path = fs w !! path)
    /\ (b = true -> is_Some (fs w' !! Download.tar_path dir image)).
Proof.
  destruct (save_image_returns rt dir image w) as [b Hb].
  pose proof (save_image_grows rt dir image w) as [Hkeep Hframe].
  pose proof (save_image_success rt dir image w) as Hok.
  destruct (Download.save_image rt dir image w) as [r w']. cbn in *. subst r.
  exists b, w'. split; [done|]. split; [done|]. split.
  - intros path Hpath. apply Hframe. by rewrite list_elem_of_singleton.
  - intros ->. by apply Hok.
Qed.

(** X6: when the archive is not there yet and may be opened, and
    [docker save] exits with a non-zero status after writing plain ASCII to
    its standard error (which the method decodes before it cleans up),
    [save_image] returns [False] and removes the file it opened: the disk is
    as before. *)
Theorem failed_save_leaves_no_archive
    (rt : Runtime) (dir image : string) (w : World)
    (rc : Z) (out err : string) :
  fs w !! Download.tar_path dir image = None ->
  write_error rt (Download.tar_path dir image) w = None ->
  run_process rt ["docker"; "save"; image]
    (record_event (OpenWrite (Download.tar_path dir image))
       (set_file (Download.tar_path dir image) (File 0 Blob) w))
  = Exited rc out err ->
  rc <> 0%Z ->
  ascii_only err = true ->
  exists w',
    Download.save_image rt dir image w = (Ok false, w')
    /\ fs w' = fs w
    /\ trace w'
       = (trace w ++ [ OpenWrite (Download.tar_path dir image);
                       Exec ["docker"; "save"; image];
                       Unlink (Download.tar_path dir image) ])%list.
Proof.
  intros Hnone Hwrite Hsave Hrc Hascii.
  rewrite save_image_unfold. cbv zeta. rewrite Hnone, Hwrite, Hsave.
  destruct (Z.eqb_spec rc 0) as [|_]; [done|].
  rewrite (ascii_only_utf8_valid _ Hascii).
  eexists. split; [done|]. cbn [fs trace set_file remove_file record_event].
  split.
  - rewrite !delete_insert_eq. by apply delete_id.
  - by rewrite <- !app_assoc.
Qed.

Lemma failed_save_leaves_no_archive_witness :
  exists w',
    Download.save_image Demo.full_disk_runtime "offline_images" "mysql:8.0"
      Demo.empty_world = (Ok false, w')
    /\ fs w' = fs Demo.empty_world
    /\ trace w'
       = (trace Demo.empty_world
          ++ [ OpenWrite (Download.tar_path "offline_images" "mysql:8.0");
               Exec ["docker"; "save"; "mysql:8.0"];
               Unlink (Download.tar_path "offline_images" "mysql:8.0") ])%list.
Proof.
  apply (failed_save_leaves_no_archive Demo.full_disk_runtime "offline_images"
           "mysql:8.0" Demo.empty_world 1 "" "no space left on device").
  - vm_compute. reflexivity.
  - reflexivity.
  - reflexivity.
  - discriminate.
  - reflexivity.
Defined.

(** X7: when the archive is not there yet and may be opened, and
    [docker save] exits with 0, [save_image] returns [True], the archive is
    as long as what [docker save] wrote, and that length is the
    ['size_bytes'] of the manifest entry made afterwards. *)
Theorem saved_archive_is_listed_with_its_size
    (rt : Runtime) (dir image : string) (w : World) (out err : string) :
  fs w !! Download.tar_path dir image = None ->
  write_error rt (Download.tar_path dir image) w = None ->
  run_process rt ["docker"; "save"; image]
    (record_event (OpenWrite (Download.tar_path dir image))
       (set_file (Download.tar_path dir image) (File 0 Blob) w))
  = Exited 0 out err ->
  exists w',
    Download.save_image rt dir image w = (Ok true, w')
    /\ fs w'
       = <[Download.tar_path dir image :=
             File (N.of_nat (String.length out)) Blob]> (fs w)
    /\ Download.image_info dir image w'
       = (Ok (JObj [ ("name", JStr image);
                     ("file", JStr (archive_file_name image));
                     ("size_bytes", JNum (Z.of_nat (String.length out))) ]),
          w').
Proof.
  intros Hnone Hwrite Hsave.
  rewrite save_image_unfold. cbv zeta. rewrite Hnone, Hwrite, Hsave.
  cbn [Z.eqb]. eexists. split; [done|].
  cbn [fs set_file record_event]. split; [by rewrite insert_insert_eq|].
  rewrite image_info_entry. unfold Download.entry_for, Download.size_on_disk.
  cbn [fs set_file record_event]. rewrite lookup_insert_eq. cbn [f_size].
  by rewrite nat_N_Z.
Qed.

Lemma saved_archive_is_listed_with_its_size_witness :
  exists w',
    Download.save_image Demo.registry_runtime "offline_images" "mysql:8.0"
      Demo.empty_world = (Ok true, w')
    /\ fs w'
       = <[Download.tar_path "offline_images" "mysql:8.0" :=
             File (N.of_nat (String.length Demo.archive_stream)) Blob]>
           (fs Demo.empty_world)
    /\ Download.image_info "offline_images" "mysql:8.0" w'
       = (Ok (JObj [ ("name", JStr "mysql:8.0");
                     ("file", JStr (archive_file_name "mysql:8.0"));
                     ("size_bytes",
                      JNum (Z.of_nat (String.length Demo.archive_stream))) ]),
          w').
Proof.
  apply (saved_archive_is_listed_with_its_size Demo.registry_runtime
           "offline_images" "mysql:8.0" Demo.empty_world
           Demo.archive_stream "").
  - vm_compute. reflexivity.
  - reflexivity.
  - reflexivity.
Defined.

(** ** The export task *)

(** The export task on the real methods: it returns, files the image on
    its own, and on the disk does what its save step does. *)
Lemma export_task_cases rt dir image d w :
  exists (b : bool) w',
    Download.download_and_save_image (Download.pull_image rt)
      (Download.save_image rt dir) image (d, w)
    = (Ok (image, b),
       ((if b then Download.add_downloaded image d
         else Download.add_failed image d), w'))
    /\ grown_at [Download.tar_path dir image] w w'
    /\ (b = true -> is_Some (fs w' !! Download.tar_path dir image)).
Proof.
  unfold Download.download_and_save_image, bind, on_snd, ret. cbn [fst snd].
  destruct (pull_image_returns rt image w) as [pulled Hp].
  pose proof (pull_image_fs rt image w) as Hfs.
  destruct (Download.pull_image rt image w) as [r w1]. cbn in Hp, Hfs.
  subst r. destruct pulled; cbn [fst snd].
  - destruct (save_image_returns rt dir image w1) as [saved Hs].
    pose proof (save_image_grows rt dir image w1) as Hg.
    pose proof (save_image_success rt dir image w1) as Hok.
    destruct (Download.save_image rt dir image w1) as [r w2]. cbn in Hs, Hg, Hok.
    subst r. exists saved, w2. cbn [andb].
    split; [by destruct saved|]. split.
    + eapply grown_at_trans; [|done]. by apply grown_at_same_files.
    + intros ->. by apply Hok.
  - exists false, w1. cbn [andb]. split; [done|]. split; [|done].
    by apply grown_at_same_files.
Qed.

(** ** Invariants of the shared state of a pool *)

(** What every task keeps for the items of the batch, and every harvest
    of a task's outcome keeps, holds of the shared state when the pool has
    drained. *)
Lemma run_pool_shared_invariant {St Item R : Type}
    (task : Item -> M St R) (harvest : Item -> res R -> St -> St)
    (width : nat) (items : list Item) (script : list action) (s : St)
    (Q : St -> Prop) :
  (forall it s0, it ∈ items -> Q s0 -> Q (task it s0).2) ->
  (forall it r s0, it ∈ items -> outcome_of_task task (it, r) -> Q s0 ->
     Q (harvest it r s0)) ->
  Q s -> Q (shared (run_pool task harvest width items script s)).
Proof.
  intros Htask Hharvest Hs.
  assert (Hinv : Q (shared (run_pool task harvest width items script s))
                 /\ everywhere (run_pool task harvest width items script s)
                    ≡ₚ items
                 /\ Forall (outcome_of_task task)
                      (finished (run_pool task harvest width items script s)));
    [|tauto].
  unfold run_pool.
  apply (drain_invariant task harvest width
           (fun p => Q (shared p) /\ everywhere p ≡ₚ items
                     /\ Forall (outcome_of_task task) (finished p))).
  - intros a p p' Ha (HQ & Hall & Hout).
    assert (Hall' : everywhere p' ≡ₚ items)
      by (by rewrite (step_everywhere task harvest width a p p' Ha)).
    unfold step in Ha. destruct a as [|k|k].
    + destruct (queue p); [discriminate|].
      destruct (length (running p) <? width)%nat; [|discriminate].
      by inversion Ha; subst.
    + destruct (running p !! k) as [it|] eqn:Hk; [|discriminate].
      assert (Hin : it ∈ items).
      { rewrite <- Hall. unfold everywhere. rewrite !elem_of_app.
        right; left. by eapply list_elem_of_lookup_2. }
      specialize (Htask it (shared p) Hin HQ).
      destruct (task it (shared p)) as [r s'] eqn:Ht.
      inversion Ha; subst; clear Ha. cbn [shared finished] in *.
      repeat split; try done.
      rewrite Forall_app, Forall_singleton. split; [done|].
      exists (shared p). cbn. by rewrite Ht.
    + destruct (finished p !! k) as [[it r]|] eqn:Hk; [|discriminate].
      assert (Hin : it ∈ items).
      { rewrite <- Hall. unfold everywhere. rewrite !elem_of_app.
        right; right; left.
        apply (list_elem_of_fmap_2 fst _ (it, r)).
        by eapply list_elem_of_lookup_2. }
      assert (Hr : outcome_of_task task (it, r)).
      { rewrite Forall_forall in Hout. apply Hout.
        by eapply list_elem_of_lookup_2. }
      inversion Ha; subst; clear Ha. cbn [shared finished] in *.
      repeat split; try done; [by apply Hharvest|].
      rewrite (delete_lookup_perm _ _ _ Hk) in Hout.
      by apply Forall_cons in Hout as [_ ?].
  - repeat split; [done| |constructor].
    unfold everywhere. cbn. by rewrite app_nil_r.
Qed.

Lemma download_images_invariant pull_image save_image images script s
    (Q : Download.DockerImageDownloader * World -> Prop) :
  (forall image s0, image ∈ images -> Q s0 ->
     Q (Download.download_and_save_image pull_image save_image image s0).2) ->
  (forall image r s0, image ∈ images ->
     outcome_of_task
       (Download.download_and_save_image pull_image save_image) (image, r) ->
     Q s0 -> Q (Download.harvest image r s0)) ->
  Q s -> Q (Download.download_images pull_image save_image images script s).2.
Proof.
  intros Htask Hharvest Hs. unfold Download.download_images.
  destruct images as [|image images]; [done|].
  destruct (Download.max_workers s.1 <=? 0)%Z; [done|]. cbn [snd].
  by apply run_pool_shared_invariant.
Qed.

Lemma run_batch_world rt d images script w :
  (Download.run_batch rt d images script w).2
  = (Download.download_images (Download.pull_image rt)
       (Download.save_image rt (Download.output_dir d)) images script
       (d, w)).2.2.
Proof.
  unfold Download.run_batch.
  by destruct (Download.download_images _ _ _ _ _) as [[b|e] [d' w']].
Qed.

Lemma run_batch_downloader rt d images script w b d' w' :
  Download.run_batch rt d images script w = (Ok (b, d'), w') ->
  (Download.download_images (Download.pull_image rt)
     (Download.save_image rt (Download.output_dir d)) images script
     (d, w)).2 = (d', w').
Proof.
  unfold Download.run_batch.
  destruct (Download.download_images _ _ _ _ _) as [[b0|e] [d0 w0]];
    by intros [= <- <- <-].
Qed.

(** ** What an export batch does to the disk *)

Lemma run_batch_grows rt d images script w :
  grown_at (Download.tar_path (Download.output_dir d) <$> images) w
    (Download.run_batch rt d images script w).2.
Proof.
  rewrite run_batch_world.
  apply (download_images_invariant _ _ images script (d, w)
           (fun s => grown_at
                       (Download.tar_path (Download.output_dir d) <$> images)
                       w s.2)).
  - intros image [d0 w0] Hin Hg.
    destruct (export_task_cases rt (Download.output_dir d) image d0 w0)
      as (b & w1 & -> & Hg1 & _).
    cbn [snd] in *. eapply grown_at_trans; [done|].
    eapply grown_at_weaken; [|done].
    intros path ->%list_elem_of_singleton.
    by apply list_elem_of_fmap_2.
  - intros image r [d0 w0] _ _ Hg. by destruct r.
  - apply grown_at_refl.
Qed.

(** X8: an export batch never alters or removes a file that was there
    before, and creates files at the archive paths of its images only,
    whatever the schedule. *)
Theorem export_batch_touches_only_its_archives
    (rt : Runtime) (d : Download.DockerImageDownloader)
    (images : list string) (script : list action) (w : World) :
  (forall path f,
     fs w !! path = Some f ->
     fs (Download.run_batch rt d images script w).2 !! path = Some f)
  /\ (forall path,
        path ∉ Download.tar_path (Download.output_dir d) <$> images ->
        fs (Download.run_batch rt d images script w).2 !! path
        = fs w !! path).
Proof. apply run_batch_grows. Qed.

Lemma archive_file_name_not_manifest (image : string) :
  archive_file_name image <> "images_manifest.json".
Proof.
  intros H.
  assert (Hend : Py.endswith ".tar" (archive_file_name image) = true)
    by apply endswith_append.
  by rewrite H in Hend.
Qed.

Lemma tar_path_not_manifest (dir image : string) :
  Download.tar_path dir image <> Download.manifest_path dir.
Proof.
  intros H%path_join_inj. by apply archive_file_name_not_manifest in H.
Qed.

(** The output directory of the downloader never changes, and the images
    of its succeeded list keep their archives through a batch. *)
Lemma run_batch_archives rt d images script w :
  Forall (fun image =>
            is_Some (fs w !! Download.tar_path (Download.output_dir d) image))
         (Download.downloaded_images d) ->
  let s' := (Download.download_images (Download.pull_image rt)
               (Download.save_image rt (Download.output_dir d))
               images script (d, w)).2 in
  Download.output_dir s'.1 = Download.output_dir d
  /\ Forall (fun image =>
               is_Some (fs s'.2 !! Download.tar_path (Download.output_dir d)
                                     image))
            (Download.downloaded_images s'.1).
Proof.
  intros Hstart. cbv zeta.
  apply (download_images_invariant (Download.pull_image rt)
           (Download.save_image rt (Download.output_dir d))
           images script (d, w)
           (fun s => Download.output_dir s.1 = Download.output_dir d
                     /\ Forall (fun image =>
                                  is_Some (fs s.2 !! Download.tar_path
                                                       (Download.output_dir d)
                                                       image))
                               (Download.downloaded_images s.1))).
  - intros image [d0 w0] Hin [Hdir Hall].
    destruct (export_task_cases rt (Download.output_dir d) image d0 w0)
      as (ok & w1 & -> & [Hkeep _] & Hnew).
    cbn [fst snd] in *.
    assert (Hall' : Forall (fun image =>
                              is_Some (fs w1 !! Download.tar_path
                                                  (Download.output_dir d)
                                                  image))
                           (Download.downloaded_images d0)).
    { eapply Forall_impl; [done|]. intros x [f Hf]. eauto. }
    destruct ok; cbn; [|done].
    split; [done|]. rewrite Forall_app, Forall_singleton. auto.
  - intros image r [d0 w0] _ _ HQ. by destruct r.
  - done.
Qed.

(** X9: for images with pairwise distinct archive names (no two tasks then
    work on the same file), every image of the succeeded list has its archive
    on disk when the batch of a fresh downloader ends, and every entry of the
    manifest written afterwards names a file that exists. *)
Theorem manifest_names_existing_archives
    (rt : Runtime) (d : Download.DockerImageDownloader)
    (images : list string) (script : list action) (w : World)
    (b : bool) (d' : Download.DockerImageDownloader) (w2 w3 : World) :
  NoDup (archive_file_name <$> images) ->
  Download.downloaded_images d = [] ->
  Download.run_batch rt d images script w = (Ok (b, d'), w2) ->
  Download.generate_manifest rt d' w2 = (Ok tt, w3) ->
  Forall (fun image =>
            is_Some (fs w2 !! Download.tar_path (Download.output_dir d) image))
         (Download.downloaded_images d')
  /\ exists size doc,
       fs w3 !! Download.manifest_path (Download.output_dir d)
         = Some (File size (Json doc))
       /\ Forall (fun entry =>
                    exists name,
                      Download.entry_file entry = Some name
                      /\ is_Some (fs w3
                                    !! Py.path_join (Download.output_dir d) name))
                 (Download.manifest_images doc).
Proof.
  intros _ Hfresh Hbatch Hmanifest.
  apply run_batch_downloader in Hbatch.
  assert (Hinv : Download.output_dir d' = Download.output_dir d
                 /\ Forall (fun image =>
                              is_Some (fs w2 !! Download.tar_path
                                                  (Download.output_dir d) image))
                           (Download.downloaded_images d')).
  { pose proof (run_batch_archives rt d images script w) as Hinv.
    cbv zeta in Hinv. rewrite Hbatch in Hinv. apply Hinv.
    by rewrite Hfresh. }
  destruct Hinv as [Hdir Hall]. split; [done|].
  rewrite generate_manifest_unfold in Hmanifest. cbv zeta in Hmanifest.
  rewrite Hdir in Hmanifest.
  destruct (write_error rt _ w2) as [e|]; [discriminate|].
  destruct (write_fault rt _ _) as [[e written]|]; [discriminate|].
  injection Hmanifest as <-. eexists _, _. cbn [fs set_file record_event].
  split; [apply lookup_insert_eq|].
  change (Download.manifest_images _)
    with (Download.entry_for (Download.output_dir d) w2
            <$> Download.downloaded_images d').
  rewrite Forall_fmap. eapply Forall_impl; [done|].
  intros image Harchive. cbn. exists (archive_file_name image).
  split; [done|].
  by rewrite !lookup_insert_ne by (symmetry; apply tar_path_not_manifest).
Qed.

Lemma manifest_names_existing_archives_witness :
  Forall (fun image =>
            is_Some (fs Demo.exported_world
                       !! Download.tar_path
                            (Download.output_dir Demo.downloader) image))
         (Download.downloaded_images Demo.exported_downloader)
  /\ exists size doc,
       fs Demo.manifest_world
         !! Download.manifest_path (Download.output_dir Demo.downloader)
         = Some (File size (Json doc))
       /\ Forall (fun entry =>
                    exists name,
                      Download.entry_file entry = Some name
                      /\ is_Some (fs Demo.manifest_world
                                    !! Py.path_join
                                         (Download.output_dir Demo.downloader)
                                         name))
                 (Download.manifest_images doc).
Proof.
  apply (manifest_names_existing_archives Demo.registry_runtime
           Demo.downloader Demo.two_images [] Demo.empty_world true
           Demo.exported_downloader Demo.exported_world Demo.manifest_world).
  - apply (bool_decide_unpack _). vm_compute. reflexivity.
  - reflexivity.
  - vm_compute. reflexivity.
  - vm_compute. reflexivity.
Defined.

(** ** An export that finds everything in place *)

(** X10: an export over images that are all present locally and all
    archived changes no file, runs nothing but existence queries for images
    of the batch, files every image as succeeded and returns [True], whatever
    the schedule. *)
Theorem re_export_is_a_no_op
    (rt : Runtime) (d : Download.DockerImageDownloader)
    (images : list string) (script : list action) (w : World) :
  (1 <= Download.max_workers d)%Z ->
  images <> [] ->
  Download.failed_images d = [] ->
  (forall image w0, image ∈ images ->
     exists out err,
       run_process rt ["docker"; "image"; "inspect"; image] w0
       = Exited 0 out err) ->
  (forall image, image ∈ images ->
     is_Some (fs w !! Download.tar_path (Download.output_dir d) image)) ->
  exists d' w',
    Download.run_batch rt d images script w = (Ok (true, d'), w')
    /\ Download.downloaded_images d'
       ≡ₚ (Download.downloaded_images d ++ images)%list
    /\ Download.failed_images d' = []
    /\ fs w' = fs w
    /\ exists evs,
         trace w' = (trace w ++ evs)%list
         /\ Forall (fun ev =>
                      exists image,
                        image ∈ images
                        /\ ev = Exec ["docker"; "image"; "inspect"; image])
                   evs.
Proof.
  intros Hwidth Hne Hclean Hpresent Harchived.
  pose proof (download_images_invariant (Download.pull_image rt)
                (Download.save_image rt (Download.output_dir d))
                images script (d, w)
                (fun s =>
                   Download.failed_images s.1 = []
                   /\ fs s.2 = fs w
                   /\ exists evs,
                        trace s.2 = (trace w ++ evs)%list
                        /\ Forall (fun ev =>
                                     exists image,
                                       image ∈ images
                                       /\ ev = Exec ["docker"; "image";
                                                     "inspect"; image])
                                  evs)) as Hinv.
  destruct (download_images_ledger (Download.pull_image rt)
              (Download.save_image rt (Download.output_dir d))
              images script d w Hwidth)
    as (d' & w' & results & Hrun & Hitems & _ & Hd & Hf).
  rewrite Hrun in Hinv. cbn [fst snd] in Hinv.
  destruct Hinv as (Hfailed & Hfs & Htrace).
  - intros image [d0 w0] Hin (Hf0 & Hfs0 & evs & Htr0 & Hevs).
    cbn [fst snd] in Hf0, Hfs0, Htr0.
    destruct (Hpresent image w0 Hin) as (out & err & Hinspect).
    destruct (Harchived image Hin) as [f Hfile]. rewrite <- Hfs0 in Hfile.
    unfold Download.download_and_save_image, bind, on_snd, ret.
    cbn [fst snd].
    rewrite (pull_image_present _ _ _ _ _ Hinspect). cbn [fst snd].
    rewrite (save_image_present _ _ _ _ f) by done. cbn.
    split; [done|]. split; [done|].
    exists (evs ++ [Exec ["docker"; "image"; "inspect"; image]])%list.
    split; [by rewrite Htr0, app_assoc|].
    rewrite Forall_app, Forall_singleton. eauto.
  - intros image r [d0 w0] Hin [[d1 w1] Hr] HQ.
    destruct r as [[name ok]|e]; [done|]. exfalso. cbn [fst snd] in Hr.
    destruct (export_task_cases rt (Download.output_dir d) image d1 w1)
      as (ok & w2 & Htask & _).
    by rewrite Htask in Hr.
  - cbn. split; [done|]. split; [done|]. exists []. by rewrite app_nil_r.
  - exists d', w'. unfold Download.run_batch. rewrite Hrun.
    rewrite Hfailed. destruct images; [done|]. cbn [length Nat.eqb negb andb].
    split; [done|]. split; [|done].
    rewrite Hfailed, Hclean in Hf. cbn [app] in Hf.
    symmetry in Hf. apply Permutation_nil_r in Hf.
    apply app_eq_nil in Hf as [Hf1 Hf2].
    rewrite Hd, <- Hitems, <- (fst_three_kinds results), Hf1, Hf2.
    by rewrite !app_nil_r.
Qed.

Lemma re_export_is_a_no_op_witness :
  exists d' w',
    Download.run_batch Demo.local_runtime Demo.downloader Demo.two_images
      [Start; Start; Finish 1] Demo.archived_world = (Ok (true, d'), w')
    /\ Download.downloaded_images d'
       ≡ₚ (Download.downloaded_images Demo.downloader ++ Demo.two_images)%list
    /\ Download.failed_images d' = []
    /\ fs w' = fs Demo.archived_world
    /\ exists evs,
         trace w' = (trace Demo.archived_world ++ evs)%list
         /\ Forall (fun ev =>
                      exists image,
                        image ∈ Demo.two_images
                        /\ ev = Exec ["docker"; "image"; "inspect"; image])
                   evs.
Proof.
  apply (re_export_is_a_no_op Demo.local_runtime Demo.downloader
           Demo.two_images [Start; Start; Finish 1] Demo.archived_world).
  - cbn. lia.
  - discriminate.
  - reflexivity.
  - intros image w0 _. by exists "[]", "".
  - intros image Hin. unfold Demo.two_images in Hin.
    apply elem_of_cons in Hin as [->|Hin];
      [|apply elem_of_cons in Hin as [->|Hin];
        [|by apply elem_of_nil in Hin]];
      vm_compute; eauto.
Defined.

(** ** An export on a cooperating host *)

(** X11: on a host where the existence query runs, [docker pull] and
    [docker save] exit with 0 and the archives may be opened, an export batch
    of a fresh downloader returns [True] whatever the schedule: no image is
    filed as failed, the succeeded list holds the images of the batch, and
    every one of them has its archive. *)
Theorem export_succeeds_on_a_cooperating_host
    (rt : Runtime) (d : Download.DockerImageDownloader)
    (images : list string) (script : list action) (w : World) :
  (1 <= Download.max_workers d)%Z ->
  images <> [] ->
  Download.downloaded_images d = [] ->
  Download.failed_images d = [] ->
  (forall image w0, image ∈ images ->
     exists rc out err,
       run_process rt ["docker"; "image"; "inspect"; image] w0
       = Exited rc out err) ->
  (forall image w0, image ∈ images ->
     exists out err,
       run_process rt ["docker"; "pull"; image] w0 = Exited 0 out err) ->
  (forall image w0, image ∈ images ->
     exists out err,
       run_process rt ["docker"; "save"; image] w0 = Exited 0 out err) ->
  (forall image w0, image ∈ images ->
     write_error rt (Download.tar_path (Download.output_dir d) image) w0
     = None) ->
  exists d' w',
    Download.run_batch rt d images script w = (Ok (true, d'), w')
    /\ Download.downloaded_images d' ≡ₚ images
    /\ Download.failed_images d' = []
    /\ Forall (fun image =>
                 is_Some (fs w' !! Download.tar_path (Download.output_dir d)
                                     image))
              images.
Proof.
  intros Hwidth Hne Hfresh Hclean Hinspect Hpull Hsave Hwrite.
  assert (Htask : forall image d0 w0, image ∈ images ->
            exists w1,
              Download.download_and_save_image (Download.pull_image rt)
                (Download.save_image rt (Download.output_dir d)) image (d0, w0)
              = (Ok (image, true), (Download.add_downloaded image d0, w1))).
  { intros image d0 w0 Hin.
    unfold Download.download_and_save_image, bind, on_snd, ret.
    cbn [fst snd].
    assert (Hp : exists w1, Download.pull_image rt image w0 = (Ok true, w1)).
    { rewrite pull_image_unfold. cbv zeta.
      destruct (Hinspect image w0 Hin) as (rc & out & err & ->).
      destruct (rc =? 0)%Z; [by eexists|].
      destruct (Hpull image
                  (record_event (Exec ["docker"; "image"; "inspect"; image]) w0)
                  Hin) as (out' & err' & ->).
      by eexists. }
    destruct Hp as [w1 ->]. cbn [fst snd].
    assert (Hs : exists w2,
              Download.save_image rt (Download.output_dir d) image w1
              = (Ok true, w2)).
    { rewrite save_image_unfold. cbv zeta.
      destruct (fs w1 !! _); [by eexists|].
      rewrite (Hwrite image w1 Hin).
      destruct (Hsave image
                  (record_event
                     (OpenWrite (Download.tar_path (Download.output_dir d) image))
                     (set_file (Download.tar_path (Download.output_dir d) image)
                        (File 0 Blob) w1)) Hin) as (out' & err' & ->).
      by eexists. }
    destruct Hs as [w2 ->]. by eexists. }
  pose proof (download_images_invariant (Download.pull_image rt)
                (Download.save_image rt (Download.output_dir d))
                images script (d, w)
                (fun s => Download.failed_images s.1 = [])) as Hinv.
  pose proof (run_batch_archives rt d images script w) as Harch.
  cbv zeta in Harch.
  destruct (download_images_ledger (Download.pull_image rt)
              (Download.save_image rt (Download.output_dir d))
              images script d w Hwidth)
    as (d' & w' & results & Hrun & Hitems & _ & Hd & Hf).
  rewrite Hrun in Hinv, Harch. cbn [fst snd] in Hinv, Harch.
  assert (Hfailed : Download.failed_images d' = []).
  { apply Hinv; [| |done].
    - intros image [d0 w0] Hin HQ. destruct (Htask image d0 w0 Hin) as [w1 ->].
      done.
    - intros image r [d0 w0] Hin [[d1 w1] Hr] HQ.
      destruct (Htask image d1 w1 Hin) as [w2 Ht]. cbn [fst snd] in Hr.
      rewrite Ht in Hr. cbn in Hr. by subst r. }
  assert (Hdone : Download.downloaded_images d' ≡ₚ images).
  { rewrite Hfailed, Hclean in Hf. cbn [app] in Hf.
    symmetry in Hf. apply Permutation_nil_r in Hf.
    apply app_eq_nil in Hf as [Hf1 Hf2].
    rewrite Hd, Hfresh, <- Hitems, <- (fst_three_kinds results), Hf1, Hf2.
    cbn [app]. by rewrite !app_nil_r. }
  exists d', w'. unfold Download.run_batch. rewrite Hrun, Hfailed.
  destruct images as [|image images]; [done|]. cbn [length Nat.eqb negb andb].
  split; [done|]. split; [done|]. split; [done|].
  rewrite <- Hdone. apply Harch. by rewrite Hfresh.
Qed.

Lemma export_succeeds_on_a_cooperating_host_witness :
  exists d' w',
    Download.run_batch Demo.registry_runtime Demo.downloader Demo.two_images
      [Start; Finish 0; Start] Demo.empty_world = (Ok (true, d'), w')
    /\ Download.downloaded_images d' ≡ₚ Demo.two_images
    /\ Download.failed_images d' = []
    /\ Forall (fun image =>
                 is_Some (fs w' !! Download.tar_path
                                     (Download.output_dir Demo.downloader)
                                     image))
              Demo.two_images.
Proof.
  apply (export_succeeds_on_a_cooperating_host Demo.registry_runtime
           Demo.downloader Demo.two_images [Start; Finish 0; Start]
           Demo.empty_world).
  - cbn. lia.
  - discriminate.
  - reflexivity.
  - reflexivity.
  - intros image w0 _. by exists 1%Z, "[]", "No such image".
  - intros image w0 _. by exists "", "".
  - intros image w0 _. by exists Demo.archive_stream, "".
  - reflexivity.
Defined.

(** ** One import *)

Lemma append_not_empty (c : ascii) (a b : string) : String c a ++ b <> "".
Proof. by rewrite append_cons. Qed.

(** The import task, case by case. *)
Lemma import_single_image_cases rt tar_file force w :
  let load := ["docker"; "load"; "--input"; tar_file] in
  exists name ok msg w',
    Importing.import_single_image rt tar_file force w
    = (Ok (name, ok, msg), w')
    /\ ((w' = w /\ ok = false
         /\ (fs w !! tar_file = None
             \/ exists f, fs w !! tar_file = Some f /\ f_size f = 0%N))
        \/ (w' = record_event (Exec load) w
            /\ exists f, fs w !! tar_file = Some f /\ f_size f <> 0%N))
    /\ (ok = false -> name = tar_file /\ msg <> "")
    /\ (ok = true -> msg = "").
Proof.
  cbv zeta.
  unfold Importing.import_single_image, try_except, exists_. unfold bind at 1.
  destruct (fs w !! tar_file) as [f|] eqn:Hf.
  2:{ rewrite (path_exists_none _ _ Hf). cbn [negb ret].
      eexists _, _, _, _. split; [done|]. split; [left; auto|].
      split; [|done]. intros _. split; [done|]. apply append_not_empty. }
  rewrite (path_exists_lookup _ _ _ Hf). cbn [negb].
  unfold stat_size. unfold bind at 1. rewrite Hf.
  destruct (N.eqb_spec (f_size f) 0) as [Hz|Hnz].
  { cbn [ret]. eexists _, _, _, _. split; [done|].
    split; [left; eauto 10|]. split; [|done].
    intros _. split; [done|]. apply append_not_empty. }
  unfold subprocess_run. unfold bind at 1.
  destruct (run_process rt _ w) as [e|rc out err].
  { cbn [any_exception ret]. eexists _, _, _, _. split; [done|].
    split; [right; eauto|]. split; [|done].
    intros _. split; [done|]. apply append_not_empty. }
  cbn [fst snd]. destruct (rc =? 0)%Z.
  - set (w1 := record_event _ w).
    assert (Hparse : exists parsed,
              (if Py.truthy err then Importing.loaded_image_line err
               else ret None) w1 = (Ok parsed, w1)).
    { destruct (Py.truthy err);
        [apply loaded_image_line_returns|by exists None]. }
    destruct Hparse as [parsed Hparse]. unfold bind. rewrite Hparse. cbn [ret].
    eexists _, _, _, _. split; [done|]. split; [right; eauto|]. done.
  - cbn [ret]. eexists _, _, _, _. split; [done|].
    split; [right; eauto|]. split; [|done].
    intros _. split; [done|]. apply append_not_empty.
Qed.

(** X12: [import_single_image] never raises and touches no file; it runs
    [docker load] at most once, and only on a file that exists and is not
    empty; a failure is reported under the path of the file with a
    diagnostic that is not empty, a success with an empty one. *)
Theorem import_task_guards_and_reports
    (rt : Runtime) (tar_file : string) (force : bool) (w : World) :
  exists name ok msg w',
    Importing.import_single_image rt tar_file force w
    = (Ok (name, ok, msg), w')
    /\ fs w' = fs w
    /\ ((trace w' = trace w /\ ok = false
         /\ (fs w !! tar_file = None
             \/ exists f, fs w !! tar_file = Some f /\ f_size f = 0%N))
        \/ (trace w'
            = (trace w ++ [Exec ["docker"; "load"; "--input"; tar_file]])%list
            /\ exists f, fs w !! tar_file = Some f /\ f_size f <> 0%N))
    /\ (ok = false -> name = tar_file /\ msg <> "")
    /\ (ok = true -> msg = "").
Proof.
  destruct (import_single_image_cases rt tar_file force w)
    as (name & ok & msg & w' & Hrun & Hworld & Hfail & Hok).
  exists name, ok, msg, w'. split; [done|].
  split; [by destruct Hworld as [(-> & _)|(-> & _)]|].
  split; [|done].
  destruct Hworld as [(-> & ? & ?)|(-> & ?)]; [left|right]; done.
Qed.

(** ** Computations that only run the container runtime *)

Lemma only_docker_since_refl w : only_docker_since w w.
Proof. split; [done|]. exists []. by rewrite app_nil_r. Qed.

Lemma only_docker_since_trans w1 w2 w3 :
  only_docker_since w1 w2 -> only_docker_since w2 w3 ->
  only_docker_since w1 w3.
Proof.
  intros (Hfs1 & evs1 & Htr1 & Hd1) (Hfs2 & evs2 & Htr2 & Hd2).
  split; [congruence|]. exists (evs1 ++ evs2)%list.
  split; [by rewrite Htr2, Htr1, app_assoc|]. by apply Forall_app.
Qed.

Lemma only_docker_since_exec w arg args :
  arg = "docker" -> only_docker_since w (record_event (Exec (arg :: args)) w).
Proof.
  intros ->. split; [done|]. exists [Exec ("docker" :: args)].
  split; [done|]. by constructor.
Qed.

Lemma quiet_pure {A} (m : M World A) : (forall w, (m w).2 = w) -> quiet m.
Proof. intros H w. rewrite H. apply only_docker_since_refl. Qed.

Lemma quiet_ret {A} (a : A) : quiet (ret a).
Proof. by apply quiet_pure. Qed.

Lemma quiet_raise {A} (e : exn) : quiet (raise (A := A) e).
Proof. by apply quiet_pure. Qed.

Lemma quiet_bind {A B} (m : M World A) (k : A -> M World B) :
  quiet m -> (forall a, quiet (k a)) -> quiet (bind m k).
Proof.
  intros Hm Hk w. unfold bind. specialize (Hm w).
  destruct (m w) as [[a|e] w1]; [|done].
  eapply only_docker_since_trans; [done|]. apply Hk.
Qed.

Lemma quiet_try_except {A} (m : M World A) handles (h : exn -> M World A) :
  quiet m -> (forall e, quiet (h e)) -> quiet (try_except m handles h).
Proof.
  intros Hm Hh w. unfold try_except. specialize (Hm w).
  destruct (m w) as [[a|e] w1]; [done|].
  destruct (handles e); [|done].
  eapply only_docker_since_trans; [done|]. apply Hh.
Qed.

Lemma quiet_for_each {A B} (f : A -> M World B) (l : list A) :
  (forall x, quiet (f x)) -> quiet (for_each f l).
Proof.
  intros Hf. induction l as [|x l IH]; cbn [for_each]; [apply quiet_ret|].
  apply quiet_bind; [done|]. intros y.
  apply quiet_bind; [done|]. intros ys. apply quiet_ret.
Qed.

Lemma quiet_subprocess_run rt args :
  quiet (subprocess_run rt ("docker" :: args)).
Proof.
  intros w. unfold subprocess_run.
  destruct (run_process rt _ w); by apply only_docker_since_exec.
Qed.

Lemma quiet_subprocess_run_check rt args :
  quiet (subprocess_run_check rt ("docker" :: args)).
Proof.
  unfold subprocess_run_check. apply quiet_bind; [apply quiet_subprocess_run|].
  intros r. destruct (_ =? _)%Z; [apply quiet_ret|apply quiet_raise].
Qed.

Lemma quiet_exists path : quiet (exists_ path).
Proof. by apply quiet_pure. Qed.

Lemma quiet_stat_size path : quiet (stat_size path).
Proof. apply quiet_pure. intros w. unfold stat_size. by destruct (fs w !! path). Qed.

Create HintDb quiet.
#[local] Hint Resolve quiet_ret quiet_raise quiet_subprocess_run
  quiet_subprocess_run_check quiet_exists quiet_stat_size : quiet.

(** Breaks a computation into its steps. *)
Ltac quiet_step :=
  match goal with
  | |- quiet (bind _ _) => apply quiet_bind; [|intros ?]
  | |- quiet (try_except _ _ _) => apply quiet_try_except; [|intros ?]
  | |- quiet (for_each _ _) => apply quiet_for_each; intros ?
  | |- quiet (if ?b then _ else _) => destruct b
  | |- quiet (match ?x with _ => _ end) => destruct x
  | |- quiet _ => solve [auto with quiet]
  end.

Lemma quiet_import_check_docker rt : quiet (Importing.check_docker rt).
Proof. unfold Importing.check_docker. repeat quiet_step. Qed.

Lemma quiet_loaded_image_line text :
  quiet (Importing.loaded_image_line text).
Proof.
  apply quiet_pure. intros w.
  by destruct (loaded_image_line_returns text w) as [parsed ->].
Qed.

Lemma quiet_import_single_image rt tar_file force :
  quiet (Importing.import_single_image rt tar_file force).
Proof.
  unfold Importing.import_single_image.
  repeat quiet_step; apply quiet_loaded_image_line.
Qed.

Lemma quiet_find_image_files rt i : quiet (Importing.find_image_files rt i).
Proof.
  unfold Importing.find_image_files. repeat quiet_step. by apply quiet_pure.
Qed.

Lemma quiet_select_work rt args i :
  quiet (Importing.select_work rt args i).
Proof.
  unfold Importing.select_work.
  destruct (Importing.files args) as [[|f l]|];
    try apply quiet_find_image_files.
  by apply quiet_pure.
Qed.

Lemma quiet_py_get key dflt v : quiet (Importing.py_get key dflt v).
Proof. apply quiet_pure. intros w. by destruct v. Qed.

Lemma quiet_py_len v : quiet (Importing.py_len v).
Proof. apply quiet_pure. intros w. by destruct v. Qed.

Lemma quiet_py_iter v : quiet (Importing.py_iter v).
Proof. apply quiet_pure. intros w. by destruct v. Qed.

Lemma quiet_py_file_of v : quiet (Importing.py_file_of v).
Proof.
  apply quiet_pure. intros w. destruct v as [| | | | |kv]; try done.
  unfold Importing.py_file_of. by destruct (lookup_key "file" kv).
Qed.

Lemma quiet_json_load path : quiet (Importing.json_load path).
Proof.
  apply quiet_pure. intros w. unfold Importing.json_load.
  by destruct (fs w !! path) as [[? []]|].
Qed.

#[local] Hint Resolve quiet_py_get quiet_py_len quiet_py_iter
  quiet_py_file_of quiet_json_load quiet_loaded_image_line : quiet.

Lemma quiet_load_manifest i : quiet (Importing.load_manifest i).
Proof. unfold Importing.load_manifest. repeat quiet_step. Qed.

Lemma quiet_verify_manifest m tar_files :
  quiet (Importing.verify_manifest m tar_files).
Proof. unfold Importing.verify_manifest. repeat quiet_step. Qed.

Lemma quiet_cleanup_dangling_images rt :
  quiet (Importing.cleanup_dangling_images rt).
Proof.
  unfold Importing.cleanup_dangling_images. repeat quiet_step.
  apply (quiet_subprocess_run rt ("rmi" :: _ :: _)).
Qed.

Lemma quiet_list_imported_images rt : quiet (Importing.list_imported_images rt).
Proof. unfold Importing.list_imported_images. repeat quiet_step. Qed.

(** ** The import batch and the import run *)

Lemma import_images_invariant import_single_image tar_files force script s
    (Q : Importing.DockerImageImporter * World -> Prop) :
  (forall tar_file s0, tar_file ∈ tar_files -> Q s0 ->
     Q (on_snd (S1 := Importing.DockerImageImporter)
          (import_single_image tar_file force) s0).2) ->
  (forall tar_file r s0, tar_file ∈ tar_files ->
     outcome_of_task
       (fun tar_file =>
          on_snd (S1 := Importing.DockerImageImporter)
                 (import_single_image tar_file force)) (tar_file, r) ->
     Q s0 -> Q (Importing.harvest tar_file r s0)) ->
  Q s ->
  Q (Importing.import_images import_single_image tar_files force script s).2.
Proof.
  intros Htask Hharvest Hs. unfold Importing.import_images.
  destruct tar_files as [|tar_file tar_files]; [done|].
  destruct (Importing.max_workers s.1 <=? 0)%Z; [done|]. cbn [snd].
  by apply (run_pool_shared_invariant
              (fun tar_file =>
                 on_snd (S1 := Importing.DockerImageImporter)
                        (import_single_image tar_file force))).
Qed.

Lemma import_run_batch_world rt i tar_files force script w :
  (Importing.run_batch rt i tar_files force script w).2
  = (Importing.import_images (Importing.import_single_image rt) tar_files
       force script (i, w)).2.2.
Proof.
  unfold Importing.run_batch.
  by destruct (Importing.import_images _ _ _ _ _) as [[b|e] [i' w']].
Qed.

Lemma quiet_import_run_batch rt i tar_files force script :
  quiet (Importing.run_batch rt i tar_files force script).
Proof.
  intros w. rewrite import_run_batch_world.
  apply (import_images_invariant _ tar_files force script (i, w)
           (fun s => only_docker_since w s.2)).
  - intros tar_file [i0 w0] _ Hq. unfold on_snd. cbn [fst snd] in *.
    pose proof (quiet_import_single_image rt tar_file force w0) as Ht.
    destruct (Importing.import_single_image rt tar_file force w0) as [r w1].
    cbn [fst snd] in *. by eapply only_docker_since_trans.
  - intros tar_file r [i0 w0] _ _ Hq.
    by destruct r as [[[name []] msg]|e].
  - apply only_docker_since_refl.
Qed.

#[local] Hint Resolve quiet_import_check_docker quiet_select_work
  quiet_load_manifest quiet_verify_manifest quiet_import_run_batch
  quiet_cleanup_dangling_images quiet_list_imported_images : quiet.

(** X13: an import run never creates, truncates or removes a file, and
    everything it runs is a command of the container runtime. *)
Theorem import_run_never_writes
    (rt : Runtime) (args : Importing.Args) (script : list action) (w : World) :
  fs (Importing.main rt args script w).2 = fs w
  /\ exists evs,
       trace (Importing.main rt args script w).2 = (trace w ++ evs)%list
       /\ Forall (fun ev => docker_command ev = true) evs.
Proof.
  revert w. change (quiet (Importing.main rt args script)).
  unfold Importing.main, Importing.prepare, Importing.finish,
    Importing.after_batch.
  repeat quiet_step.
Qed.

Lemma import_run_batch_importer rt i tar_files force script w b i' w' :
  Importing.run_batch rt i tar_files force script w = (Ok (b, i'), w') ->
  Importing.import_images (Importing.import_single_image rt) tar_files force
    script (i, w)
  = (Ok b, (i', w')).
Proof.
  unfold Importing.run_batch.
  destruct (Importing.import_images _ _ _ _ _) as [[b0|e] [i0 w0]];
    by intros [= <- <- <-].
Qed.

Lemma import_images_returns_width import_single_image tar_files force script
    i w b s' :
  Importing.import_images import_single_image tar_files force script (i, w)
  = (Ok b, s') ->
  tar_files = [] \/ (1 <= Importing.max_workers i)%Z.
Proof.
  unfold Importing.import_images. destruct tar_files; [by left|].
  cbn [fst]. destruct (Z.leb_spec (Importing.max_workers i) 0); [done|].
  intros _. right. lia.
Qed.

(** X14: with the importer's own task method, every entry a batch adds to
    the failed list names a file of the work set and carries a diagnostic
    that is not empty, and the imported and failed lists together grow by
    the size of the work set. *)
Theorem import_failures_name_file_and_reason
    (rt : Runtime) (i : Importing.DockerImageImporter)
    (tar_files : list string) (force : bool) (script : list action)
    (w : World) (b : bool) (i' : Importing.DockerImageImporter) (w' : World) :
  Importing.run_batch rt i tar_files force script w = (Ok (b, i'), w') ->
  exists added,
    Importing.failed_imports i' = (Importing.failed_imports i ++ added)%list
    /\ Forall (fun f => Importing.file_of f ∈ tar_files
                        /\ Importing.error_of f <> "") added
    /\ length (Importing.imported_images i')
       + length (Importing.failed_imports i')
       = length (Importing.imported_images i)
         + length (Importing.failed_imports i) + length tar_files.
Proof.
  intros Hbatch%import_run_batch_importer.
  destruct (import_images_returns_width _ _ _ _ _ _ _ _ Hbatch) as [->|Hw].
  { cbn in Hbatch. injection Hbatch as _ <- _. exists [].
    rewrite app_nil_r. cbn. split; [done|]. split; [constructor|lia]. }
  destruct (import_images_ledger (Importing.import_single_image rt)
              tar_files force script i w Hw)
    as (i0 & w0 & results & Hrun & Hitems & Hout & Hi & Hf & _).
  rewrite Hrun in Hbatch. injection Hbatch as _ -> ->.
  exists (omap Importing.failure_entry results). split; [done|]. split.
  - apply Forall_forall. intros f [[it r] [Hin Hentry]]%list_elem_of_omap.
    rewrite Forall_forall in Hout. destruct (Hout _ Hin) as [[i1 w1] Hr].
    cbn [fst snd] in Hr. unfold on_snd in Hr. cbn [fst snd] in Hr.
    destruct (import_single_image_cases rt it force w1)
      as (name & ok & msg & w2 & Htask & _ & Hfail & _).
    rewrite Htask in Hr. cbn in Hr. subst r.
    unfold Importing.failure_entry in Hentry. cbn [fst snd] in Hentry.
    destruct ok; [done|]. injection Hentry as <-. cbn. split.
    + rewrite <- Hitems.
      by apply (list_elem_of_fmap_2 fst _ (it, Ok (name, false, msg))).
    + by apply Hfail.
  - rewrite Hi, Hf, !length_app.
    pose proof (filed_once results) as Hfiled.
    rewrite <- (Permutation_length Hitems), length_fmap. lia.
Qed.

Lemma import_failures_name_file_and_reason_witness :
  exists added,
    Importing.failed_imports
      (Importing.MkImporter "offline_images" 2 ["unknown"]
         [Importing.MkFailed "offline_images/missing.tar"
            "文件不存在: offline_images/missing.tar"] [])
    = (Importing.failed_imports Demo.importer ++ added)%list
    /\ Forall (fun f =>
                 Importing.file_of f
                 ∈ ["offline_images/mysql-8.0.tar"; "offline_images/missing.tar"]
                 /\ Importing.error_of f <> "") added
    /\ length (Importing.imported_images
                 (Importing.MkImporter "offline_images" 2 ["unknown"]
                    [Importing.MkFailed "offline_images/missing.tar"
                       "文件不存在: offline_images/missing.tar"] []))
       + length (Importing.failed_imports
                   (Importing.MkImporter "offline_images" 2 ["unknown"]
                      [Importing.MkFailed "offline_images/missing.tar"
                         "文件不存在: offline_images/missing.tar"] []))
       = length (Importing.imported_images Demo.importer)
         + length (Importing.failed_imports Demo.importer)
         + length ["offline_images/mysql-8.0.tar"; "offline_images/missing.tar"].
Proof.
  apply (import_failures_name_file_and_reason Demo.local_runtime Demo.importer
           ["offline_images/mysql-8.0.tar"; "offline_images/missing.tar"]
           false [] Demo.archived_world false
           (Importing.MkImporter "offline_images" 2 ["unknown"]
              [Importing.MkFailed "offline_images/missing.tar"
                 "文件不存在: offline_images/missing.tar"] [])
           (Importing.run_batch Demo.local_runtime Demo.importer
              ["offline_images/mysql-8.0.tar"; "offline_images/missing.tar"]
              false [] Demo.archived_world).2).
  vm_compute. reflexivity.
Defined.

(** X15: an import batch runs nothing but [docker load], at most once for
    each item of its work set, whatever the schedule. *)
Theorem import_batch_loads_each_file_at_most_once
    (rt : Runtime) (i : Importing.DockerImageImporter)
    (tar_files : list string) (force : bool) (script : list action)
    (w : World) :
  exists loaded,
    trace (Importing.run_batch rt i tar_files force script w).2
    = (trace w
       ++ ((fun tar_file => Exec ["docker"; "load"; "--input"; tar_file])
             <$> loaded))%list
    /\ loaded ⊆+ tar_files.
Proof.
  rewrite import_run_batch_world. unfold Importing.import_images.
  destruct tar_files as [|tar_file tar_files].
  { exists []. cbn. by rewrite app_nil_r. }
  cbn [fst]. destruct (Importing.max_workers i <=? 0)%Z.
  { exists []. cbn. split; [by rewrite app_nil_r|]. apply submseteq_nil_l. }
  cbn [snd]. set (items := tar_file :: tar_files).
  set (task := fun tar_file : string =>
                 on_snd (S1 := Importing.DockerImageImporter)
                        (Importing.import_single_image rt tar_file force)).
  set (width := Z.to_nat (Importing.max_workers i)).
  assert (Hinv : everywhere (run_pool task Importing.harvest width items
                               script (i, w)) ≡ₚ items
                 /\ exists loaded,
                      trace (shared (run_pool task Importing.harvest width
                                       items script (i, w))).2
                      = (trace w
                         ++ ((fun tar_file =>
                                Exec ["docker"; "load"; "--input"; tar_file])
                               <$> loaded))%list
                      /\ loaded
                         ⊆+ ((finished (run_pool task Importing.harvest width
                                          items script (i, w))
                              ++ harvested (run_pool task Importing.harvest
                                              width items script (i, w)))%list).*1).
  { unfold run_pool.
    apply (drain_invariant task Importing.harvest width
             (fun p =>
                everywhere p ≡ₚ items
                /\ exists loaded,
                     trace (shared p).2
                     = (trace w
                        ++ ((fun tar_file =>
                               Exec ["docker"; "load"; "--input"; tar_file])
                              <$> loaded))%list
                     /\ loaded ⊆+ ((finished p ++ harvested p)%list).*1)).
    - intros a p p' Ha (Hall & loaded & Htrace & Hsub).
      split; [by rewrite (step_everywhere task Importing.harvest width
                            a p p' Ha)|].
      unfold step in Ha. destruct a as [|k|k].
      + destruct (queue p); [discriminate|].
        destruct (length (running p) <? width)%nat; [|discriminate].
        inversion Ha; subst; clear Ha. cbn. eauto.
      + destruct (running p !! k) as [it|] eqn:Hk; [|discriminate].
        unfold task, on_snd in Ha.
        destruct (import_single_image_cases rt it force (shared p).2)
          as (name & ok & msg & w1 & Htask & Hworld & _).
        rewrite Htask in Ha. inversion Ha; subst; clear Ha.
        cbn [shared finished harvested snd].
        rewrite !fmap_app. cbn [fmap list_fmap fst].
        destruct Hworld as [(-> & _)|(-> & _)].
        * exists loaded. split; [done|].
          etrans; [done|]. rewrite fmap_app. apply submseteq_app; [|done].
          by apply submseteq_inserts_r.
        * exists (loaded ++ [it])%list. split.
          { cbn [trace record_event]. by rewrite Htrace, fmap_app, app_assoc. }
          rewrite fmap_app in Hsub.
          assert (Hperm : (((finished p).*1 ++ [it]) ++ (harvested p).*1)%list
                          ≡ₚ (((finished p).*1 ++ (harvested p).*1) ++ [it])%list)
            by solve_Permutation.
          rewrite Hperm. by apply submseteq_app.
      + destruct (finished p !! k) as [[it r]|] eqn:Hk; [|discriminate].
        inversion Ha; subst; clear Ha. cbn [shared finished harvested].
        exists loaded. split.
        { by destruct r as [[[? []] ?]|?]. }
        etrans; [done|]. rewrite (delete_lookup_perm _ _ _ Hk) at 1.
        rewrite !fmap_app. cbn. apply Permutation_submseteq.
        solve_Permutation.
    - split; [unfold everywhere; cbn; by rewrite app_nil_r|].
      exists []. cbn. split; [by rewrite app_nil_r|]. apply submseteq_nil_l. }
  destruct Hinv as (Hall & loaded & Htrace & Hsub).
  exists loaded. split; [done|]. etrans; [done|].
  etrans; [|by apply Permutation_submseteq]. unfold everywhere.
  rewrite fmap_app. by do 2 apply submseteq_inserts_l.
Qed.

(** ** Reading and checking a manifest *)

(** X16: [load_manifest] never raises and changes nothing; it returns the
    document exactly when the manifest file holds a JSON object whose
    ['images'] value (an empty list when absent) has a length. *)
Theorem load_manifest_accepts_objects_only
    (i : Importing.DockerImageImporter) (w : World) :
  exists r,
    Importing.load_manifest i w = (Ok r, w)
    /\ forall doc,
         r = Some doc
         <-> exists size kv,
               fs w !! Importing.manifest_path (Importing.images_dir i)
               = Some (File size (Json (JObj kv)))
               /\ doc = JObj kv
               /\ Importing.sized
                    (default (JArr []) (lookup_key "images" kv)) = true.
Proof.
  unfold Importing.load_manifest, exists_. unfold bind at 1.
  destruct (fs w !! Importing.manifest_path (Importing.images_dir i))
    as [[size c]|] eqn:Hfile.
  2:{ rewrite (path_exists_none _ _ Hfile). cbn [negb ret].
      exists None. split; [done|]. intros doc.
      split; [done|]. by intros (? & ? & ? & _). }
  rewrite (path_exists_lookup _ _ _ Hfile). cbn [negb].
  unfold try_except, Importing.json_load. unfold bind at 1. rewrite Hfile.
  destruct c as [| |doc|services];
    try (exists None; split; [done|]; intros doc';
         split; [done|]; by intros (? & ? & ? & _)).
  destruct doc as [|b|n|s|l|kv];
    try (exists None; split; [done|]; intros doc';
         split; [done|]; by intros (? & ? & ? & _)).
  unfold Importing.py_get, bind, ret.
  destruct (default (JArr []) (lookup_key "images" kv)) as [|b|n|s|l|kv']
    eqn:Himages; cbn [Importing.py_len ret raise any_exception];
    (eexists; split; [done|]; intros doc'; split;
     [try done; intros [= <-]; exists size, kv; by rewrite Himages
     |intros (size' & kv0 & [= <- <-] & -> & Hsized);
      by rewrite ?Himages in Hsized]).
Qed.

Lemma for_each_pure_raises {A B} (f : A -> M World B) (l : list A) (w : World) :
  (forall x, (f x w).2 = w) ->
  Exists (fun x => exists e, (f x w).1 = Raise e) l ->
  exists e x, x ∈ l /\ for_each f l w = (Raise e, w) /\ (f x w).1 = Raise e.
Proof.
  intros Hpure. induction 1 as [x l [e He]|x l _ (e & y & Hin & Hrun & He)].
  - exists e, x. split; [left|]. split; [|done].
    cbn [for_each]. unfold bind. specialize (Hpure x).
    destruct (f x w) as [r w']. cbn in *. by subst.
  - cbn [for_each]. unfold bind at 1. pose proof (Hpure x) as Hx.
    destruct (f x w) as [[b|e'] w'] eqn:Hfx; cbn in Hx; subst w'.
    + exists e, y. split; [by right|]. split; [|done].
      unfold bind. by rewrite Hrun.
    + exists e', x. split; [left|]. split; [done|]. by rewrite Hfx.
Qed.

Lemma verify_manifest_pieces m tar_files w :
  Importing.verify_manifest m tar_files w
  = match Importing.manifest_files m w with
    | (Ok listed, w') =>
        if forallb Importing.is_str
             (Importing.missing_files listed (Importing.found_files tar_files))
        then (Ok tt, w')
        else (Raise (Exn TypeError "sequence item: expected str instance"), w')
    | (Raise e, w') => (Raise e, w')
    end.
Proof.
  unfold Importing.verify_manifest, Importing.manifest_files,
    Importing.missing_files, Importing.found_files, bind.
  destruct (Importing.py_get _ _ _ w) as [[listed|e] w1]; [|done].
  destruct (Importing.py_iter listed w1) as [[entries|e] w2]; [|done].
  destruct (for_each _ entries w2) as [[files|e] w3]; [|done].
  by destruct (forallb _ _).
Qed.

Lemma manifest_files_raises kv entries w :
  lookup_key "images" kv = Some (JArr entries) ->
  Exists (fun entry => Importing.names_file entry = false) entries ->
  exists e,
    Importing.manifest_files (JObj kv) w = (Raise e, w)
    /\ (e_kind e = KeyError \/ e_kind e = TypeError).
Proof.
  intros Himages Hbroken.
  unfold Importing.manifest_files, Importing.py_get. rewrite Himages.
  unfold bind at 1. cbn [default from_option ret id].
  unfold Importing.py_iter. unfold bind at 1. cbn [ret].
  set (f := fun img : json => _).
  assert (Hpure : forall x, (f x w).2 = w).
  { intros x. unfold f, bind, Importing.py_file_of.
    destruct x as [| | | | |kv0]; try done.
    destruct (lookup_key "file" kv0) as [v|]; [|done]. cbn.
    by destruct (Importing.hashable v). }
  assert (Hkind : forall x e, (f x w).1 = Raise e ->
                    e_kind e = KeyError \/ e_kind e = TypeError).
  { intros x e. unfold f, bind, Importing.py_file_of.
    destruct x as [| | | | |kv0]; try (intros [= <-]; by right).
    destruct (lookup_key "file" kv0) as [v|]; [|intros [= <-]; by left]. cbn.
    destruct (Importing.hashable v); [done|]. intros [= <-]. by right. }
  destruct (for_each_pure_raises f entries w Hpure) as (e & x & _ & Hrun & He).
  { eapply Exists_impl; [done|]. intros x Hx. unfold f, bind.
    unfold Importing.names_file, Importing.py_file_of in *.
    destruct x as [| | | | |kv0]; try by eexists.
    destruct (lookup_key "file" kv0) as [v|]; [|by eexists].
    by rewrite bool_decide_eq_true_2 in Hx by eauto. }
  exists e. split; [done|]. by eapply Hkind.
Qed.

(** X17: unless [--no-verify] is given, a manifest with an entry that has
    no ['file'] stops the import before the batch: the run ends with an
    uncaught [KeyError] or [TypeError], hence with status 1, and nothing was
    run after the checks of the runtime. *)
Theorem manifest_without_file_stops_the_import
    (rt : Runtime) (args : Importing.Args) (script : list action)
    (w w1 : World) (tar_files : list string)
    (size : N) (kv : list (string * json)) (entries : list json) :
  Importing.no_verify args = false ->
  Importing.check_docker rt w = (Ok true, w1) ->
  Importing.select_work rt args
    (Importing.new (Importing.dir args) (Importing.workers args)) w1
  = (Ok tar_files, w1) ->
  tar_files <> [] ->
  fs w1 !! Importing.manifest_path (Importing.dir args)
  = Some (File size (Json (JObj kv))) ->
  lookup_key "images" kv = Some (JArr entries) ->
  Exists (fun entry => Importing.names_file entry = false) entries ->
  exists e,
    Importing.main rt args script w = (Raise e, w1)
    /\ (e_kind e = KeyError \/ e_kind e = TypeError)
    /\ exit_status (Importing.main rt args script w).1 = 1%Z.
Proof.
  intros Hverify Hcheck Hwork Hfiles Hfile Himages Hbroken.
  destruct (manifest_files_raises kv entries w1 Himages Hbroken)
    as (e & Hraise & Hkind).
  assert (Hmain : Importing.main rt args script w = (Raise e, w1)).
  { unfold Importing.main, Importing.prepare.
    unfold bind at 1 2. rewrite Hcheck. cbn [negb].
    unfold bind at 1. rewrite Hwork.
    destruct tar_files as [|tar_file tar_files]; [done|].
    rewrite Hverify. cbn [negb]. unfold bind at 1 2.
    rewrite (load_manifest_reads _ _ size kv entries) by done.
    assert (Htruthy : Importing.json_truthy (JObj kv) = true)
      by (by destruct kv).
    rewrite Htruthy, verify_manifest_pieces, Hraise. done. }
  exists e. rewrite Hmain. done.
Qed.

Lemma manifest_without_file_stops_the_import_witness :
  exists e,
    Importing.main Demo.local_runtime
      (Importing.MkArgs "offline_images" None 2 false false false false) []
      Demo.broken_manifest_world
    = (Raise e,
       (Importing.check_docker Demo.local_runtime
          Demo.broken_manifest_world).2)
    /\ (e_kind e = KeyError \/ e_kind e = TypeError)
    /\ exit_status
         (Importing.main Demo.local_runtime
            (Importing.MkArgs "offline_images" None 2 false false false false)
            [] Demo.broken_manifest_world).1 = 1%Z.
Proof.
  apply (manifest_without_file_stops_the_import Demo.local_runtime
           (Importing.MkArgs "offline_images" None 2 false false false false)
           [] Demo.broken_manifest_world
           (Importing.check_docker Demo.local_runtime
              Demo.broken_manifest_world).2
           ["offline_images/mysql-8.0.tar"] 64
           [("images", JArr [JObj [("name", JStr "mysql:8.0")]])]
           [JObj [("name", JStr "mysql:8.0")]]).
  - reflexivity.
  - vm_compute. reflexivity.
  - vm_compute. reflexivity.
  - discriminate.
  - vm_compute. reflexivity.
  - reflexivity.
  - apply Exists_cons_hd. reflexivity.
Defined.

(** ** The work set of an import *)

Lemma NoDup_list_filter {A} (f : A -> bool) (l : list A) :
  NoDup l -> NoDup (List.filter f l).
Proof.
  induction 1 as [|x l Hx _ IH]; cbn; [constructor|].
  destruct (f x); [|done]. constructor; [|done].
  intros Hin. apply list_elem_of_In, filter_In in Hin as [Hin _].
  by apply list_elem_of_In in Hin.
Qed.

(** A scan meets the paths that hold something and the entries that
    resolve to nothing, each once. *)
Lemma elem_of_listed rt w path :
  path ∈ Importing.listed rt w
  <-> is_Some (fs w !! path) \/ path ∈ broken_links rt w.
Proof.
  unfold Importing.listed.
  rewrite elem_of_app, list_elem_of_fmap, list_elem_of_In, filter_In,
    <- list_elem_of_In, elem_of_remove_dups.
  unfold path_exists. split.
  - intros [([path' f] & -> & Hin%elem_of_map_to_list)|[Hin _]];
      [left; eauto|by right].
  - intros [[f Hf]|Hin].
    + left. exists (path, f). split; [done|]. by apply elem_of_map_to_list.
    + destruct (fs w !! path) as [f|] eqn:Hf.
      * left. exists (path, f). split; [done|]. by apply elem_of_map_to_list.
      * right. split; [done|].
        rewrite bool_decide_eq_false_2; [done|]. by intros [? ?].
Qed.

Lemma NoDup_listed rt w : NoDup (Importing.listed rt w).
Proof.
  unfold Importing.listed. apply NoDup_app.
  split; [apply NoDup_fst_map_to_list|]. split.
  - intros path ([path' f] & -> & Hin%elem_of_map_to_list)%list_elem_of_fmap
      Hin2.
    apply list_elem_of_In, filter_In in Hin2 as [_ Hne]. cbn [fst] in Hne.
    unfold path_exists in Hne.
    rewrite bool_decide_eq_true_2 in Hne by eauto. done.
  - apply NoDup_list_filter, NoDup_remove_dups.
Qed.

Lemma elem_of_glob_tar rt dir w path :
  path ∈ Importing.glob_tar rt dir w
  <-> (exists size, fs w !! dir = Some (File size Dir))
      /\ (is_Some (fs w !! path) \/ path ∈ broken_links rt w)
      /\ exists name,
           Importing.child_name dir path = Some name
           /\ Py.endswith ".tar" name = true.
Proof.
  unfold Importing.glob_tar.
  destruct (fs w !! dir) as [[size c]|] eqn:Hdir.
  2:{ split; [by intros ?%elem_of_nil|]. by intros [[? ?] _]. }
  destruct c;
    try (split; [by intros ?%elem_of_nil|]; by intros [[? [=]] _]).
  rewrite list_elem_of_In, filter_In, <- list_elem_of_In, elem_of_listed.
  split.
  - intros [Hin Hname]. split; [eauto|]. split; [done|].
    destruct (Importing.child_name dir path) as [name|]; [eauto|done].
  - intros (_ & Hin & name & Hchild & Hend). split; [done|].
    by rewrite Hchild.
Qed.

(** X18: the directory scan of the import finds no path twice, never the
    manifest, only entries of the directory whose name ends in [.tar]
    (files that are there, or links that resolve to nothing), and every
    archive the export has in that directory. *)
Theorem directory_scan_finds_the_archives
    (rt : Runtime) (dir : string) (w : World) :
  NoDup (Importing.glob_tar rt dir w)
  /\ (Importing.manifest_path dir ∉ Importing.glob_tar rt dir w)
  /\ (forall path,
        path ∈ Importing.glob_tar rt dir w ->
        (is_Some (fs w !! path) \/ path ∈ broken_links rt w)
        /\ exists name,
             Importing.child_name dir path = Some name
             /\ Py.endswith ".tar" name = true)
  /\ (forall image size,
        fs w !! dir = Some (File size Dir) ->
        is_Some (fs w !! Download.tar_path dir image) ->
        Download.tar_path dir image ∈ Importing.glob_tar rt dir w).
Proof.
  split; [|split; [|split]].
  - unfold Importing.glob_tar.
    destruct (fs w !! dir) as [[size []]|]; try apply NoDup_nil_2.
    apply NoDup_list_filter, NoDup_listed.
  - intros (_ & _ & name & Hchild & Hend)%elem_of_glob_tar.
    unfold Importing.manifest_path in Hchild.
    rewrite child_name_path_join in Hchild by done.
    injection Hchild as <-. done.
  - by intros path (_ & ? & ?)%elem_of_glob_tar.
  - intros image size Hdir Hfile. apply elem_of_glob_tar.
    split; [eauto|]. split; [by left|].
    exists (archive_file_name image).
    split; [apply child_name_tar_path|apply endswith_append].
Qed.

(** The listing of the sizes returns exactly when every file is there. *)
Lemma for_each_stat_size_returns (paths : list string) (w : World) sizes w' :
  for_each stat_size paths w = (Ok sizes, w') ->
  w' = w /\ Forall (fun path => is_Some (fs w !! path)) paths.
Proof.
  revert sizes w'. induction paths as [|path paths IH]; intros sizes w'.
  - by intros [= _ <-].
  - cbn [for_each]. unfold bind at 1, stat_size at 1.
    destruct (fs w !! path) as [f|] eqn:Hf; [|done].
    unfold bind at 1.
    destruct (for_each stat_size paths w) as [[rest|e] w1] eqn:Hrest; [|done].
    destruct (IH rest w1 eq_refl) as [-> Hall].
    intros [= _ <-]. split; [done|]. constructor; [eauto|done].
Qed.

Lemma for_each_stat_size_missing (paths : list string) (w : World) :
  Exists (fun path => fs w !! path = None) paths ->
  exists e,
    for_each stat_size paths w = (Raise e, w)
    /\ e_kind e = FileNotFoundError.
Proof.
  induction 1 as [path paths Hnone|path paths _ (e & IH & Hkind)].
  - eexists. cbn [for_each]. unfold bind at 1, stat_size at 1.
    rewrite Hnone. done.
  - cbn [for_each]. unfold bind at 1, stat_size at 1.
    destruct (fs w !! path) as [f|]; [|by eexists].
    unfold bind at 1. rewrite IH. by exists e.
Qed.

Lemma select_work_returns rt args i w :
  exists tar_files,
    Importing.select_work rt args i w = (Ok tar_files, w)
    /\ Forall (fun path => is_Some (fs w !! path) \/ path ∈ broken_links rt w)
         tar_files
    /\ (forall f l,
          Importing.files args = Some (f :: l) ->
          Forall (fun path => is_Some (fs w !! path)) tar_files).
Proof.
  unfold Importing.select_work.
  assert (Hscan : exists tar_files,
            Importing.find_image_files rt i w = (Ok tar_files, w)
            /\ Forall (fun path =>
                         is_Some (fs w !! path) \/ path ∈ broken_links rt w)
                 tar_files).
  { unfold Importing.find_image_files, exists_, bind, ret.
    destruct (path_exists _ w); cbn [negb]; [|by exists []].
    eexists. split; [done|]. apply Forall_forall.
    by intros path (_ & ? & _)%elem_of_glob_tar. }
  destruct (Importing.files args) as [[|f l]|];
    try (destruct Hscan as (tar_files & ? & ?); by exists tar_files).
  unfold Importing.select_files.
  assert (Hall : Forall (fun path => is_Some (fs w !! path))
            (List.filter (fun tar_file => path_exists tar_file w)
               ((fun file_path =>
                   if Py.is_absolute file_path then file_path
                   else Py.path_join (Importing.images_dir i) file_path)
                  <$> f :: l))).
  { apply Forall_forall. intros path Hin.
    apply list_elem_of_In, filter_In in Hin as [_ Hin].
    unfold path_exists in Hin. by apply bool_decide_eq_true in Hin. }
  eexists. split; [done|]. split; [|done].
  eapply Forall_impl; [exact Hall|]. by left.
Qed.

Lemma quiet_import_prepare rt args : quiet (Importing.prepare rt args).
Proof. unfold Importing.prepare. repeat quiet_step. Qed.

(** X19: the work set of an import is chosen without changing anything.
    Files named by [--files] are kept only when they exist; a scan of the
    directory may meet a link that resolves to nothing.  The batch is
    reached only with a work set of files that exist: a work set that holds
    anything else ends the run with an uncaught error, hence with status 1,
    when the sizes are listed at the latest. *)
Theorem work_set_holds_existing_files_only
    (rt : Runtime) (args : Importing.Args) (script : list action)
    (w : World) :
  (forall i,
     exists tar_files,
       Importing.select_work rt args i w = (Ok tar_files, w)
       /\ Forall (fun path =>
                    is_Some (fs w !! path) \/ path ∈ broken_links rt w)
            tar_files
       /\ (forall f l,
             Importing.files args = Some (f :: l) ->
             Forall (fun path => is_Some (fs w !! path)) tar_files))
  /\ (forall i tar_files w1,
        Importing.prepare rt args w = (Ok (inr (i, tar_files)), w1) ->
        fs w1 = fs w
        /\ Forall (fun path => is_Some (fs w1 !! path)) tar_files)
  /\ (forall w1 tar_files,
        Importing.check_docker rt w = (Ok true, w1) ->
        Importing.select_work rt args
          (Importing.new (Importing.dir args) (Importing.workers args)) w1
        = (Ok tar_files, w1) ->
        Exists (fun path => fs w1 !! path = None) tar_files ->
        exists e w2,
          Importing.main rt args script w = (Raise e, w2)
          /\ fs w2 = fs w
          /\ exit_status (Importing.main rt args script w).1 = 1%Z).
Proof.
  split; [intros i; apply select_work_returns|]. split.
  - intros i tar_files w1 Hp.
    pose proof (quiet_import_prepare rt args w) as [Hfs _].
    rewrite Hp in Hfs. cbn [snd] in Hfs. split; [done|].
    revert Hp. unfold Importing.prepare. unfold bind at 1.
    destruct (Importing.check_docker rt w) as [[[]|e] w0]; cbn [negb];
      [|done..].
    unfold bind at 1.
    destruct (Importing.select_work rt args _ w0) as [[[|f l]|e] w0'];
      [done| |done].
    unfold bind at 1.
    lazymatch goal with
    | |- context [(if negb (Importing.no_verify args) then ?a else ?b) w0'] =>
        destruct ((if negb (Importing.no_verify args) then a else b) w0')
          as [[[]|e] w2]; [|done]
    end.
    unfold bind at 1.
    destruct (for_each stat_size (f :: l) w2) as [[sizes|e] w3] eqn:Hsizes;
      [|done].
    apply for_each_stat_size_returns in Hsizes as [-> Hall].
    by intros [= <- <- <-].
  - intros w1 tar_files Hcheck Hwork Hmissing.
    pose proof (quiet_import_check_docker rt w) as [Hfs1 _].
    rewrite Hcheck in Hfs1. cbn [snd] in Hfs1.
    assert (Hmain : exists e w2,
              Importing.main rt args script w = (Raise e, w2)
              /\ fs w2 = fs w).
    { unfold Importing.main, Importing.prepare.
      unfold bind at 1 2. rewrite Hcheck. cbn [negb].
      unfold bind at 1. rewrite Hwork.
      destruct tar_files as [|f l]; [by apply Exists_nil in Hmissing|].
      lazymatch goal with
      | |- context [bind (if negb (Importing.no_verify args)
                          then ?a else ?b) _] =>
          set (check := if negb (Importing.no_verify args) then a else b)
      end.
      unfold bind at 1.
      assert (Hquiet : quiet check) by (unfold check; repeat quiet_step).
      destruct (Hquiet w1) as [Hfs2 _].
      destruct (check w1) as [[[]|e] w2]; cbn [snd] in Hfs2.
      2:{ exists e, w2. split; [done|]. congruence. }
      unfold bind at 1.
      destruct (for_each_stat_size_missing (f :: l) w2) as (e & Hraise & _).
      { eapply Exists_impl; [exact Hmissing|]. intros path Hnone. cbn.
        by rewrite Hfs2. }
      rewrite Hraise. exists e, w2. split; [done|]. congruence. }
    destruct Hmain as (e & w2 & Hmain & Hfs). exists e, w2.
    by rewrite Hmain.
Qed.

(** An import from a directory that holds a link to an archive that is
    gone: the scan lists the link, the listing of the sizes meets it, and
    the run ends before the batch. *)
Example import_meets_a_dangling_link :
  Importing.glob_tar Demo.dangling_runtime "offline_images" Demo.archived_world
  = [ "offline_images/mysql-8.0.tar";
      "offline_images/haxqer_confluence-9.2.1.tar"; "offline_images/old.tar" ]
  /\ Importing.main Demo.dangling_runtime
       (Importing.MkArgs "offline_images" None 2 false false false false) []
       Demo.archived_world
     = (Raise (no_such_file "offline_images/old.tar"),
        MkWorld (fs Demo.archived_world)
          [Exec ["docker"; "--version"]; Exec ["docker"; "info"]]).
Proof. split; vm_compute; reflexivity. Qed.

(** ** After the batch *)

Lemma filter_truthy_not_empty (l : list string) :
  Forall (fun s => s <> "") (List.filter Py.truthy l).
Proof.
  apply Forall_forall. intros s Hin.
  apply list_elem_of_In, filter_In in Hin as [_ Hin]. by destruct s.
Qed.

(** X20: [cleanup_dangling_images] never raises and touches no file;
    [docker rmi] is run only after a listing that exited with 0, with the
    identifiers that listing printed (its output stripped of the white
    space [str.strip] removes, split at line feeds, empty lines dropped),
    and never without an identifier or with an empty one. *)
Theorem cleanup_never_runs_a_bare_rmi (rt : Runtime) (w : World) :
  let listing := ["docker"; "images"; "-f"; "dangling=true"; "-q"] in
  exists w',
    Importing.cleanup_dangling_images rt w = (Ok tt, w')
    /\ fs w' = fs w
    /\ (trace w' = (trace w ++ [Exec listing])%list
        \/ exists out err ids,
             run_process rt listing w = Exited 0 out err
             /\ ids = List.filter Py.truthy (Py.split "010" (Py.strip out))
             /\ ids <> []
             /\ Forall (fun id => id <> "") ids
             /\ trace w'
                = (trace w ++ [Exec listing;
                               Exec (["docker"; "rmi"] ++ ids)])%list).
Proof.
  cbv zeta.
  unfold Importing.cleanup_dangling_images, try_except, subprocess_run_check,
    subprocess_run. unfold bind at 1 2.
  destruct (run_process rt _ w) as [e|rc out err] eqn:Hlist.
  { cbn. eexists. split; [done|]. split; [done|]. by left. }
  cbn [fst snd]. destruct (Z.eqb_spec rc 0) as [->|Hrc].
  2:{ cbn. eexists. split; [done|]. split; [done|]. by left. }
  cbn [ret fst snd].
  destruct (List.filter Py.truthy (Py.split "010" (Py.strip out)))
    as [|id ids] eqn:Hids.
  { cbn. eexists. split; [done|]. split; [done|]. by left. }
  unfold bind, ret.
  destruct (run_process rt (["docker"; "rmi"] ++ id :: ids) _)
    as [e'|rc' out' err'];
    (cbn; eexists; split; [done|]; split; [done|]; right;
     exists out, err, (id :: ids);
     split; [done|]; split; [done|]; split; [done|]; split;
     [rewrite <- Hids; apply filter_truthy_not_empty
     |cbn [trace record_event]; by rewrite <- app_assoc]).
Qed.

(** The identifiers handed to [docker rmi] are those of the listing,
    without the white space around it. *)
Example cleanup_strips_the_listing :
  Importing.cleanup_dangling_images Demo.padded_listing_runtime
    Demo.archived_world
  = (Ok tt,
     MkWorld (fs Demo.archived_world)
       [ Exec ["docker"; "images"; "-f"; "dangling=true"; "-q"];
         Exec ["docker"; "rmi"; "4bc3ae6bd2f1"; "9d0e1f2a3b4c"] ]).
Proof. vm_compute. reflexivity. Qed.

(** ** The width of the pool *)

(** The downloader [main] hands to the runner is a fresh one. *)
Lemma prepare_fresh_downloader rt args w d found w1 :
  Download.prepare rt args w = (Ok (inr (d, found)), w1) ->
  d = Download.MkDownloader (Download.output args) (Download.workers args) [] [].
Proof.
  unfold Download.prepare, Download.new, bind, ret. intros H.
  repeat case_match; by simplify_eq.
Qed.

(** X21: a number of workers that is not positive ends either run, once
    its work set is chosen, with the executor's [ValueError]: nothing is
    pulled, saved or loaded, and no manifest is written. *)
Theorem non_positive_workers_end_the_run (rt : Runtime) :
  (forall args script w d found w1,
     Download.prepare rt args w = (Ok (inr (d, found)), w1) ->
     (Download.workers args <= 0)%Z ->
     Download.main rt args script w
     = (Raise (Exn ValueError "max_workers must be greater than 0"), w1))
  /\ (forall args script w i tar_files w1,
        Importing.prepare rt args w = (Ok (inr (i, tar_files)), w1) ->
        (Importing.workers args <= 0)%Z ->
        Importing.main rt args script w
        = (Raise (Exn ValueError "max_workers must be greater than 0"), w1)).
Proof.
  split.
  - intros args script w d found w1 Hp Hw.
    rewrite download_main_cases, Hp, download_finish_cases.
    destruct (download_prepare_ready _ _ _ _ _ _ Hp) as [Hfound _].
    apply prepare_fresh_downloader in Hp as ->.
    unfold Download.run_batch, Download.download_images.
    destruct found as [|image found]; [done|]. cbn [fst Download.max_workers].
    by destruct (Z.leb_spec (Download.workers args) 0); [|lia].
  - intros args script w i tar_files w1 Hp Hw.
    rewrite import_main_cases, Hp, import_finish_cases.
    pose proof (import_prepare_ready _ _ _ _ _ _ Hp) as Hfiles.
    apply prepare_fresh_importer in Hp as ->.
    unfold Importing.run_batch, Importing.import_images.
    destruct tar_files as [|tar_file tar_files]; [done|].
    cbn [fst Importing.max_workers Importing.new].
    by destruct (Z.leb_spec (Importing.workers args) 0); [|lia].
Qed.

(** A run with [--workers 0] on a host that has everything. *)
Example export_with_no_workers :
  Download.main Demo.local_runtime
    (Download.MkArgs None (Some Demo.two_images) None None "offline_images" 0
       false)
    [] Demo.archived_world
  = (Raise (Exn ValueError "max_workers must be greater than 0"),
     MkWorld (fs Demo.archived_world) [Exec ["docker"; "--version"]]).
Proof. vm_compute. reflexivity. Qed.

(** ** When the manifest is written *)

Lemma manifest_path_not_dir (dir : string) : Download.manifest_path dir <> dir.
Proof.
  unfold Download.manifest_path, Py.path_join.
  destruct (String.eqb_spec dir ".") as [->|_]; [done|].
  destruct (String.eqb_spec dir "/") as [->|_]; [done|].
  intros H. apply (f_equal String.length) in H.
  rewrite !length_append in H. cbn [String.length] in H. lia.
Qed.

(** A computation that leaves the entry of [path] alone. *)
Lemma keeps_bind {A B} (path : string) (m : M World A) (k : A -> M World B) w :
  fs (m w).2 !! path = fs w !! path ->
  (forall a w', fs (k a w').2 !! path = fs w' !! path) ->
  fs (bind m k w).2 !! path = fs w !! path.
Proof.
  intros Hm Hk. unfold bind. destruct (m w) as [[a|e] w1]; [|done].
  cbn [snd] in Hm. by rewrite Hk.
Qed.

Lemma quiet_export_check_docker rt : quiet (Download.check_docker rt).
Proof. unfold Download.check_docker. repeat quiet_step. Qed.

Lemma select_images_world args w : (Download.select_images args w).2 = w.
Proof.
  unfold Download.select_images, map_ret, exists_, bind, ret,
    Download.parse_compose_file.
  repeat case_match; by simplify_eq.
Qed.

(** [mkdir] step by step. *)
Lemma make_dirs_unfold rt depth path w :
  make_dirs rt depth path w
  = match fs w !! path with
    | Some (File _ Dir) => (Ok tt, w)
    | Some _ =>
        (Raise (Exn FileExistsError
                    ("[Errno 17] File exists: '" ++ path ++ "'")), w)
    | None =>
        if String.eqb (Py.path_parent path) path
        then (Raise (no_such_file path), w)
        else if String.eqb (Py.path_parent path) "."
                || String.eqb (Py.path_parent path) "/"
        then os_mkdir rt path w
        else
          match fs w !! Py.path_parent path, depth with
          | Some (File _ Dir), _ => os_mkdir rt path w
          | Some _, _ =>
              (Raise (Exn OSError
                          ("[Errno 20] Not a directory: '" ++ path ++ "'")), w)
          | None, S depth' =>
              (run make_dirs rt depth' (Py.path_parent path);
               os_mkdir rt path) w
          | None, O => (Raise (no_such_file path), w)
          end
    end.
Proof. by destruct depth. Qed.

Lemma grown_towards_refl path w : grown_towards path w w.
Proof. split; [done|]. intros q Hq [f Hf]. congruence. Qed.

Lemma grown_towards_parent path w w1 w2 :
  grown_towards (Py.path_parent path) w w1 ->
  grown_towards path w1 w2 ->
  grown_towards path w w2.
Proof.
  intros [Hkeep1 Hnew1] [Hkeep2 Hnew2]. split; [auto|].
  intros q Hq Hsome. destruct (fs w1 !! q) as [f|] eqn:Hq1; [|auto].
  destruct (Hnew1 q Hq) as [Hdir [n Hn]]; [by rewrite Hq1|].
  rewrite Hq1 in Hdir. injection Hdir as ->.
  split; [auto|]. exists (S n). by rewrite Nat.iter_succ_r.
Qed.

(** [os.mkdir] makes one directory, where there was nothing, or changes
    nothing. *)
Lemma os_mkdir_grows rt path w :
  fs w !! path = None -> grown_towards path w (os_mkdir rt path w).2.
Proof.
  intros Hnone. unfold os_mkdir.
  destruct (write_error rt path w); [apply grown_towards_refl|].
  unfold grown_towards. cbn [snd fs set_file record_event]. split.
  - intros q f Hq. rewrite lookup_insert_ne; [done|congruence].
  - intros q Hq [f Hf]. destruct (decide (q = path)) as [->|Hne].
    + rewrite lookup_insert_eq. split; [done|]. by exists 0.
    + rewrite lookup_insert_ne in Hf by done. congruence.
Qed.

(** [mkdir] keeps what is there; what it adds are directories, at the
    path or at an ancestor of it. *)
Lemma make_dirs_grows rt depth path w :
  grown_towards path w (make_dirs rt depth path w).2.
Proof.
  revert path w. induction depth as [|depth IH]; intros path w;
    rewrite make_dirs_unfold;
    (destruct (fs w !! path) as [[size c]|] eqn:Hpath;
     [destruct c; apply grown_towards_refl|]);
    (destruct (String.eqb (Py.path_parent path) path);
     [apply grown_towards_refl|]);
    (destruct (String.eqb (Py.path_parent path) "."
               || String.eqb (Py.path_parent path) "/");
     [by apply os_mkdir_grows|]);
    (destruct (fs w !! Py.path_parent path) as [[size c]|] eqn:Hparent;
     [destruct c; first [by apply os_mkdir_grows|apply grown_towards_refl]|]).
  - apply grown_towards_refl.
  - unfold bind. pose proof (IH (Py.path_parent path) w) as Hparents.
    destruct (make_dirs rt depth (Py.path_parent path) w) as [[[]|e] w1];
      cbn [snd] in *.
    + apply (grown_towards_parent path w w1); [done|].
      destruct (fs w1 !! path) as [f|] eqn:Hpath1.
      * destruct (proj2 Hparents path Hpath) as [_ [n Hn]];
          [by rewrite Hpath1|].
        unfold os_mkdir. destruct (write_error rt path w1);
          [apply grown_towards_refl|].
        unfold grown_towards. cbn [snd fs set_file record_event]. split.
        -- intros q f0 Hq. destruct (decide (q = path)) as [->|Hne].
           ++ rewrite lookup_insert_eq.
              destruct (proj2 Hparents path Hpath) as [Hdir _];
                [by rewrite Hpath1|]. congruence.
           ++ by rewrite lookup_insert_ne.
        -- intros q Hq [f0 Hf0]. destruct (decide (q = path)) as [->|Hne];
             [congruence|].
           rewrite lookup_insert_ne in Hf0 by done. congruence.
      * by apply os_mkdir_grows.
    + apply (grown_towards_parent path w w1); [done|].
      apply grown_towards_refl.
Qed.

(** When [mkdir] returns, the directory is there. *)
Lemma make_dirs_returns rt depth path w w' :
  make_dirs rt depth path w = (Ok tt, w') ->
  exists size, fs w' !! path = Some (File size Dir).
Proof.
  rewrite make_dirs_unfold.
  assert (Hone : os_mkdir rt path w = (Ok tt, w') ->
            exists size, fs w' !! path = Some (File size Dir)).
  { unfold os_mkdir. destruct (write_error rt path w); [done|].
    intros [= <-]. cbn [fs set_file record_event].
    rewrite lookup_insert_eq. eauto. }
  destruct (fs w !! path) as [[size c]|] eqn:Hpath.
  { destruct c; try done. intros [= <-]. eauto. }
  destruct (String.eqb (Py.path_parent path) path); [done|].
  destruct (String.eqb (Py.path_parent path) "."
            || String.eqb (Py.path_parent path) "/"); [done|].
  destruct (fs w !! Py.path_parent path) as [[size c]|];
    [by destruct c|].
  destruct depth as [|depth]; [done|]. unfold bind.
  destruct (make_dirs rt depth (Py.path_parent path) w) as [[[]|e] w1];
    [|done].
  unfold os_mkdir. destruct (write_error rt path w1); [done|].
  intros [= <-]. cbn [fs set_file record_event].
  rewrite lookup_insert_eq. eauto.
Qed.

Lemma length_substring_le (n : nat) (s : string) :
  String.length (String.substring 0 n s) <= String.length s.
Proof.
  revert s. induction n as [|n IH]; intros [|c s]; cbn; try lia.
  specialize (IH s). lia.
Qed.

(** The parent of a path is not longer than the path, unless the path is
    empty. *)
Lemma length_path_parent (p : string) :
  String.length (Py.path_parent p) <= Nat.max 1 (String.length p).
Proof.
  unfold Py.path_parent.
  destruct (Py.rfind "/" p) as [[|i]|]; cbn [String.length]; try lia.
  pose proof (length_substring_le (S i) p). lia.
Qed.

Lemma length_ancestor (n : nat) (p : string) :
  String.length (Nat.iter n Py.path_parent p) <= Nat.max 1 (String.length p).
Proof.
  induction n as [|n IH]; [cbn; lia|]. rewrite Nat.iter_succ.
  pose proof (length_path_parent (Nat.iter n Py.path_parent p)). lia.
Qed.

Lemma length_manifest_path (dir : string) :
  Nat.max 1 (String.length dir) < String.length (Download.manifest_path dir).
Proof.
  unfold Download.manifest_path, Py.path_join.
  destruct (String.eqb_spec dir ".") as [->|_];
    [cbn [String.length]; lia|].
  destruct (String.eqb_spec dir "/") as [->|_];
    [rewrite length_append; cbn [String.length]; lia|].
  rewrite !length_append. cbn [String.length]. lia.
Qed.

(** Making the output directory leaves the manifest alone. *)
Lemma new_downloader_keeps rt dir workers w :
  fs (Download.new rt dir workers w).2 !! Download.manifest_path dir
  = fs w !! Download.manifest_path dir.
Proof.
  assert (Hmk : fs (mkdir rt dir w).2 !! Download.manifest_path dir
                = fs w !! Download.manifest_path dir).
  { unfold mkdir.
    destruct (make_dirs_grows rt (String.length dir) dir w) as [Hkeep Hnew].
    destruct (fs w !! Download.manifest_path dir) as [f|] eqn:Hm; [auto|].
    destruct (fs (make_dirs rt (String.length dir) dir w).2
                !! Download.manifest_path dir) as [f|] eqn:Hm'; [|done].
    destruct (Hnew _ Hm) as [_ [n Hn]]; [by rewrite Hm'|].
    pose proof (length_ancestor n dir) as Hlen. rewrite Hn in Hlen.
    pose proof (length_manifest_path dir). lia. }
  unfold Download.new, bind, ret.
  by destruct (mkdir rt dir w) as [[[]|e] w1].
Qed.

Lemma prepare_keeps_manifest rt args w :
  fs (Download.prepare rt args w).2 !! Download.manifest_path (Download.output args)
  = fs w !! Download.manifest_path (Download.output args).
Proof.
  unfold Download.prepare. destruct (negb _); [done|].
  apply keeps_bind.
  { apply new_downloader_keeps. }
  intros d w0. apply keeps_bind.
  { by destruct (quiet_export_check_docker rt w0) as [-> _]. }
  intros usable w1. destruct usable; cbn [negb]; [|done].
  apply keeps_bind; [by rewrite select_images_world|].
  intros selected w2. by destruct selected as [[|? ?]|].
Qed.

Lemma run_batch_keeps_manifest rt d found script w :
  fs (Download.run_batch rt d found script w).2
    !! Download.manifest_path (Download.output_dir d)
  = fs w !! Download.manifest_path (Download.output_dir d).
Proof.
  apply run_batch_grows. intros (image & H & _)%list_elem_of_fmap.
  symmetry in H. by apply tar_path_not_manifest in H.
Qed.

Lemma download_run_batch_width rt d found script w b d' w' :
  found <> [] ->
  Download.run_batch rt d found script w = (Ok (b, d'), w') ->
  (1 <= Download.max_workers d)%Z.
Proof.
  unfold Download.run_batch, Download.download_images. intros Hfound.
  destruct found; [done|]. cbn [fst].
  destruct (Z.leb_spec (Download.max_workers d) 0); [done|]. lia.
Qed.

(** X22: the manifest file is left as it is when [--no-manifest] is given,
    and when no image succeeded; in the latter case the run ends with
    status 1. *)
Theorem manifest_is_written_only_when_due
    (rt : Runtime) (args : Download.Args) (script : list action) (w : World) :
  (Download.no_manifest args = true ->
   fs (Download.main rt args script w).2
     !! Download.manifest_path (Download.output args)
   = fs w !! Download.manifest_path (Download.output args))
  /\ (forall d found w1 b d' w2,
        Download.prepare rt args w = (Ok (inr (d, found)), w1) ->
        Download.run_batch rt d found script w1 = (Ok (b, d'), w2) ->
        Download.downloaded_images d' = [] ->
        Download.main rt args script w = (Ok 1%Z, w2)
        /\ fs w2 !! Download.manifest_path (Download.output args)
           = fs w !! Download.manifest_path (Download.output args)).
Proof.
  pose proof (prepare_keeps_manifest rt args w) as Hprepare.
  split.
  - intros Hflag. rewrite download_main_cases.
    destruct (Download.prepare rt args w) as [[[c|[d found]]|e] w1] eqn:Hp;
      try done.
    cbn [snd] in Hprepare. rewrite download_finish_cases.
    pose proof (run_batch_keeps_manifest rt d found script w1) as Hbatch.
    apply prepare_fresh_downloader in Hp as ->.
    cbn [Download.output_dir] in Hbatch.
    destruct (Download.run_batch rt _ found script w1)
      as [[[b d']|e] w2]; cbn [snd] in Hbatch; [|cbn [snd]; congruence].
    unfold Download.after_batch. rewrite Hflag. cbn. congruence.
  - intros d found w1 b d' w2 Hp Hb Hnone.
    rewrite Hp in Hprepare. cbn [snd] in Hprepare.
    pose proof (run_batch_keeps_manifest rt d found script w1) as Hbatch.
    rewrite Hb in Hbatch. cbn [snd] in Hbatch.
    destruct (download_prepare_ready _ _ _ _ _ _ Hp) as [Hfound _].
    pose proof (download_run_batch_width _ _ _ _ _ _ _ _ Hfound Hb) as Hw.
    pose proof (download_run_batch_flag _ _ _ _ _ _ _ _ Hfound Hb) as Hflag.
    apply run_batch_downloader in Hb as Hrun.
    destruct (download_images_ledger (Download.pull_image rt)
                (Download.save_image rt (Download.output_dir d))
                found script d w1 Hw)
      as (d0 & w0 & results & Hrun0 & Hitems & _ & Hd & Hf).
    rewrite Hrun0 in Hrun. cbn [snd] in Hrun. injection Hrun as -> ->.
    rewrite download_main_cases, Hp, download_finish_cases, Hb.
    unfold Download.after_batch. rewrite Hnone. cbn [length Nat.eqb negb andb].
    rewrite andb_false_r.
    assert (Hfail : Download.failed_images d' <> []).
    { intros Hclean. rewrite Hnone in Hd. rewrite Hclean in Hf.
      pose proof (prepare_fresh_downloader _ _ _ _ _ _ Hp) as ->.
      cbn [Download.downloaded_images Download.failed_images app] in Hd, Hf.
      symmetry in Hd, Hf. apply Permutation_nil_r in Hd, Hf.
      apply app_eq_nil in Hf as [Hf1 Hf2].
      pose proof (fst_three_kinds results) as Hall.
      rewrite Hd, Hf1, Hf2 in Hall. cbn in Hall.
      rewrite Hitems in Hall. symmetry in Hall.
      by apply Permutation_nil_r in Hall. }
    split.
    + rewrite Hflag. by destruct (Download.failed_images d').
    + apply prepare_fresh_downloader in Hp as ->.
      cbn [Download.output_dir] in Hbatch. congruence.
Qed.

(** On a host whose disk is full the export of one image fails, the run
    ends with status 1, and the manifest of an earlier export is still what
    it was. *)
Example failed_export_keeps_the_old_manifest :
  (Download.main Demo.full_disk_runtime
     (Download.MkArgs None (Some ["mysql:8.0"]) None None "offline_images" 3
        false)
     [] Demo.old_manifest_world).1 = Ok 1%Z
  /\ fs (Download.main Demo.full_disk_runtime
           (Download.MkArgs None (Some ["mysql:8.0"]) None None
              "offline_images" 3 false)
           [] Demo.old_manifest_world).2
     = fs Demo.old_manifest_world.
Proof. split; vm_compute; reflexivity. Qed.

(** ** The summaries *)

Lemma for_each_pure {A B} (f : A -> M World B) (g : A -> B) (l : list A) w :
  (forall x, f x w = (Ok (g x), w)) -> for_each f l w = (Ok (g <$> l), w).
Proof.
  intros Hf. induction l as [|x l IH]; [done|].
  cbn [for_each]. unfold bind. by rewrite Hf, IH.
Qed.

Lemma show_download_summary_returns d w :
  Download.show_download_summary d w
  = (Ok (length (Download.downloaded_images d)
         + length (Download.failed_images d)), w).
Proof.
  unfold Download.show_download_summary. unfold bind at 1.
  rewrite (for_each_pure _ (fun _ => tt)); [done|].
  intros image. unfold bind, exists_, stat_size, ret.
  destruct (fs w !! Download.tar_path (Download.output_dir d) image)
    as [f|] eqn:Hf.
  - rewrite (path_exists_lookup _ _ _ Hf). by rewrite Hf.
  - by rewrite (path_exists_none _ _ Hf).
Qed.

(** X23: after a batch run by a fresh object, the total the summary
    prints first is the size of the work set, whatever the tasks did and
    however they were scheduled; reading the archive sizes for the export's
    summary cannot fail. *)
Theorem summary_total_is_the_size_of_the_work_set
    (pull_image save_image : string -> M World bool)
    (import_single_image : string -> bool -> M World (string * bool * string)) :
  (forall images script dir workers w,
     (1 <= workers)%Z ->
     exists b d' w',
       Download.download_images pull_image save_image images script
         (Download.MkDownloader dir workers [] [], w) = (Ok b, (d', w'))
       /\ Download.show_download_summary d' w' = (Ok (length images), w'))
  /\ (forall tar_files force script dir workers w,
        (1 <= workers)%Z ->
        exists b i' w',
          Importing.import_images import_single_image tar_files force script
            (Importing.new dir workers, w) = (Ok b, (i', w'))
          /\ Importing.show_import_summary i' = length tar_files).
Proof.
  split.
  - intros images script dir workers w Hw.
    destruct (download_images_ledger pull_image save_image images script
                (Download.MkDownloader dir workers [] []) w Hw)
      as (d' & w' & results & Hrun & Hitems & _ & Hd & Hf).
    eexists _, d', w'. split; [done|].
    rewrite show_download_summary_returns. do 2 f_equal.
    cbn [Download.downloaded_images Download.failed_images app] in Hd, Hf.
    rewrite <- length_app, Hd, Hf, fst_three_kinds, Hitems. done.
  - intros tar_files force script dir workers w Hw.
    destruct (import_images_ledger import_single_image tar_files force script
                (Importing.new dir workers) w Hw)
      as (i' & w' & results & Hrun & Hitems & _ & Hi & Hf & Hs).
    eexists _, i', w'. split; [done|].
    unfold Importing.show_import_summary. rewrite Hi, Hf, Hs. cbn.
    pose proof (filed_once results) as Hfiled.
    rewrite <- (Permutation_length Hitems), length_fmap. lia.
Qed.

(** ** From the export to the import *)

Lemma list_filter_nil {A} (f : A -> bool) (l : list A) :
  Forall (fun x => f x = false) l -> List.filter f l = [].
Proof. induction 1 as [|x l Hx _ IH]; cbn; [done|]. by rewrite Hx. Qed.

Lemma among_elem (names : list string) (name : string) :
  name ∈ names -> Importing.among names (JStr name) = true.
Proof.
  intros Hin. cbn. apply existsb_exists. exists name.
  split; [by apply list_elem_of_In|apply String.eqb_refl].
Qed.

Lemma manifest_files_of_manifest generated_at dir w0 images w :
  Importing.manifest_files (Download.manifest_for generated_at dir w0 images) w
  = (Ok ((fun image => JStr (archive_file_name image)) <$> images), w).
Proof.
  unfold Importing.manifest_files, Download.manifest_for, Importing.py_get.
  unfold bind at 1. cbn [ret].
  change (default (JArr []) (lookup_key "images" _))
    with (JArr (Download.entry_for dir w0 <$> images)).
  unfold Importing.py_iter. unfold bind at 1. cbn [ret].
  set (f := fun img : json => _).
  assert (Hf : forall image,
            f (Download.entry_for dir w0 image) w
            = (Ok (JStr (archive_file_name image)), w)) by done.
  induction images as [|image images IH]; [done|].
  cbn [fmap list_fmap for_each]. unfold bind at 1. rewrite Hf.
  unfold bind at 1. by rewrite IH.
Qed.

(** X24: what an export leaves behind passes the comparison of the
    import: with every succeeded image archived and the manifest written,
    the import reads the manifest back, its scan finds the archives of the
    succeeded images, no file of the manifest is missing, and the
    verification returns. *)
Theorem exported_directory_passes_verification
    (rt rt' : Runtime) (d : Download.DockerImageDownloader)
    (i : Importing.DockerImageImporter) (w w' : World) (size : N) :
  Importing.images_dir i = Download.output_dir d ->
  fs w !! Download.output_dir d = Some (File size Dir) ->
  Forall (fun image =>
            is_Some (fs w !! Download.tar_path (Download.output_dir d) image))
         (Download.downloaded_images d) ->
  Download.generate_manifest rt d w = (Ok tt, w') ->
  exists doc tar_files listed,
    Importing.load_manifest i w' = (Ok (Some doc), w')
    /\ Importing.find_image_files rt' i w' = (Ok tar_files, w')
    /\ Forall (fun image =>
                 Download.tar_path (Download.output_dir d) image ∈ tar_files)
              (Download.downloaded_images d)
    /\ Importing.manifest_files doc w' = (Ok listed, w')
    /\ Importing.missing_files listed (Importing.found_files tar_files) = []
    /\ Importing.verify_manifest doc tar_files w' = (Ok tt, w').
Proof.
  intros Hdir Hout Harchived. rewrite generate_manifest_unfold. cbv zeta.
  destruct (write_error rt _ w) as [e|]; [discriminate|].
  destruct (write_fault rt _ _) as [[e written]|]; [discriminate|].
  intros [= <-]. set (w' := set_file _ _ _).
  set (doc := Download.manifest_for (strftime rt w) (Download.output_dir d) w
                (Download.downloaded_images d)).
  assert (Hkeep : forall path,
            path <> Download.manifest_path (Download.output_dir d) ->
            fs w' !! path = fs w !! path).
  { intros path Hpath. unfold w'. cbn [fs set_file record_event].
    by rewrite !lookup_insert_ne. }
  assert (Hout' : fs w' !! Download.output_dir d = Some (File size Dir)).
  { rewrite Hkeep; [done|]. intros H. symmetry in H.
    by apply manifest_path_not_dir in H. }
  assert (Hfound : Forall (fun image =>
                             Download.tar_path (Download.output_dir d) image
                             ∈ Importing.glob_tar rt' (Download.output_dir d) w')
                          (Download.downloaded_images d)).
  { eapply Forall_impl; [done|]. intros image Hfile. cbn in Hfile.
    apply elem_of_glob_tar. split; [eauto|]. split.
    - left. rewrite Hkeep; [done|]. apply tar_path_not_manifest.
    - exists (archive_file_name image).
      split; [apply child_name_tar_path|apply endswith_append]. }
  exists doc, (Importing.glob_tar rt' (Download.output_dir d) w'),
    ((fun image => JStr (archive_file_name image))
       <$> Download.downloaded_images d).
  assert (Hmissing :
            Importing.missing_files
              ((fun image => JStr (archive_file_name image))
                 <$> Download.downloaded_images d)
              (Importing.found_files
                 (Importing.glob_tar rt' (Download.output_dir d) w')) = []).
  { apply list_filter_nil, Forall_fmap.
    eapply Forall_impl; [exact Hfound|]. intros image Hin. cbn.
    apply negb_false_iff, among_elem.
    rewrite <- (path_name_tar_path (Download.output_dir d) image).
    by apply list_elem_of_fmap_2. }
  split; [|split; [|split; [done|split; [apply manifest_files_of_manifest|]]]].
  - eapply load_manifest_reads; [|reflexivity].
    unfold Importing.manifest_path. rewrite Hdir. unfold w'.
    cbn [fs set_file record_event]. apply lookup_insert_eq.
  - unfold Importing.find_image_files, exists_, bind, ret. rewrite Hdir.
    by rewrite (path_exists_lookup _ _ _ Hout').
  - split; [done|].
    rewrite verify_manifest_pieces. unfold doc.
    by rewrite manifest_files_of_manifest, Hmissing.
Qed.

Lemma exported_directory_passes_verification_witness :
  exists doc tar_files listed,
    Importing.load_manifest Demo.importer Demo.manifest_world
    = (Ok (Some doc), Demo.manifest_world)
    /\ Importing.find_image_files Demo.dangling_runtime Demo.importer
         Demo.manifest_world
       = (Ok tar_files, Demo.manifest_world)
    /\ Forall (fun image =>
                 Download.tar_path
                   (Download.output_dir Demo.exported_downloader) image
                 ∈ tar_files)
              (Download.downloaded_images Demo.exported_downloader)
    /\ Importing.manifest_files doc Demo.manifest_world
       = (Ok listed, Demo.manifest_world)
    /\ Importing.missing_files listed (Importing.found_files tar_files) = []
    /\ Importing.verify_manifest doc tar_files Demo.manifest_world
       = (Ok tt, Demo.manifest_world).
Proof.
  apply (exported_directory_passes_verification Demo.registry_runtime
           Demo.dangling_runtime
           Demo.exported_downloader Demo.importer Demo.exported_world
           Demo.manifest_world 4096).
  - reflexivity.
  - vm_compute. reflexivity.
  - repeat constructor; vm_compute; eauto.
  - vm_compute. reflexivity.
Defined.

(** ** One worker *)

(** X25: with a single worker the export handles the images in the order
    given: the succeeded list gains the images that succeeded and the failed
    list those that failed, both in that order, whatever the schedule. *)
Theorem single_worker_keeps_the_order
    (rt : Runtime) (d : Download.DockerImageDownloader)
    (images : list string) (script : list action) (w : World) :
  Download.max_workers d = 1%Z ->
  images <> [] ->
  exists (oks : list bool) b d' w',
    Download.run_batch rt d images script w = (Ok (b, d'), w')
    /\ length oks = length images
    /\ Download.downloaded_images d'
       = (Download.downloaded_images d
          ++ (filter (fun e => e.2 = true) (zip images oks)).*1)%list
    /\ Download.failed_images d'
       = (Download.failed_images d
          ++ (filter (fun e => e.2 = false) (zip images oks)).*1)%list.
Proof.
  intros Hone Hne.
  set (task := Download.download_and_save_image (Download.pull_image rt)
                 (Download.save_image rt (Download.output_dir d))).
  set (p := run_pool task Download.harvest 1 images script (d, w)).
  assert (Hinv :
    exists (oks : list bool) (seen : list string),
      images = (seen ++ running p ++ queue p)%list
      /\ length oks = length seen
      /\ length (running p) <= 1
      /\ Forall (fun e => exists v, e.2 = Ok v) (finished p)
      /\ Download.downloaded_images (shared p).1
         = (Download.downloaded_images d
            ++ (filter (fun e => e.2 = true) (zip seen oks)).*1)%list
      /\ Download.failed_images (shared p).1
         = (Download.failed_images d
            ++ (filter (fun e => e.2 = false) (zip seen oks)).*1)%list).
  { unfold p, run_pool.
    apply (drain_invariant task Download.harvest 1
             (fun p =>
                exists (oks : list bool) (seen : list string),
                  images = (seen ++ running p ++ queue p)%list
                  /\ length oks = length seen
                  /\ length (running p) <= 1
                  /\ Forall (fun e => exists v, e.2 = Ok v) (finished p)
                  /\ Download.downloaded_images (shared p).1
                     = (Download.downloaded_images d
                        ++ (filter (fun e => e.2 = true) (zip seen oks)).*1)%list
                  /\ Download.failed_images (shared p).1
                     = (Download.failed_images d
                        ++ (filter (fun e => e.2 = false)
                              (zip seen oks)).*1)%list)).
    - intros a q q' Ha (oks & seen & Himages & Hlen & Hrun & Hfin & Hd & Hf).
      unfold step in Ha. destruct a as [|k|k].
      + destruct (queue q) as [|it rest] eqn:Hq; [discriminate|].
        destruct (Nat.ltb_spec (length (running q)) 1); [|discriminate].
        injection Ha as <-. cbn [queue running finished shared].
        destruct (running q) as [|? ?]; [|cbn in *; lia].
        exists oks, seen. cbn. by rewrite Himages.
      + destruct (running q !! k) as [it|] eqn:Hk; [|discriminate].
        destruct (running q) as [|it' [|? ?]] eqn:Hrunning;
          [done| |cbn in Hrun; lia].
        destruct k as [|k]; [|done]. injection Hk as ->.
        destruct (shared q) as [d0 w0] eqn:Hshared.
        destruct (export_task_cases rt (Download.output_dir d) it d0 w0)
          as (ok & w1 & Htask & _).
        unfold task in Ha. rewrite Htask in Ha.
        injection Ha as <-. cbn [queue running finished shared fst].
        cbn [fst] in Hd, Hf.
        exists (oks ++ [ok])%list, (seen ++ [it])%list.
        split; [by rewrite Himages, <- app_assoc|].
        split; [by rewrite !length_app, Hlen|]. split; [cbn; lia|].
        split; [rewrite Forall_app, Forall_singleton; split; [done|]; by eexists|].
        rewrite zip_with_app by done. rewrite !filter_app, !fmap_app.
        destruct ok; cbn; rewrite ?Hd, ?Hf, ?app_nil_r, <- ?app_assoc; done.
      + destruct (finished q !! k) as [[it r]|] eqn:Hk; [|discriminate].
        assert (Hr : exists v, r = Ok v).
        { rewrite Forall_forall in Hfin.
          by apply (Hfin (it, r)), (list_elem_of_lookup_2 _ k). }
        destruct Hr as [v ->].
        injection Ha as <-. cbn [queue running finished shared].
        exists oks, seen. repeat (split; [done|]). split; [|done].
        rewrite (delete_lookup_perm _ _ _ Hk) in Hfin.
        by apply Forall_cons in Hfin as [_ ?].
    - exists [], []. cbn. rewrite !app_nil_r.
      repeat split; try done; try lia; constructor. }
  destruct Hinv as (oks & seen & Himages & Hlen & _ & _ & Hd & Hf).
  destruct (run_pool_idle task Download.harvest 1 images script (d, w))
    as (Hq & Hr & _); [lia|]. fold p in Hq, Hr.
  rewrite Hq, Hr, !app_nil_r in Himages. subst seen.
  exists oks, (length (Download.failed_images (shared p).1) =? 0)%nat,
    (shared p).1, (shared p).2.
  split; [|done].
  unfold Download.run_batch, Download.download_images.
  destruct images as [|image images]; [done|]. cbn [fst]. rewrite Hone.
  cbn [Z.leb Z.compare]. change (Z.to_nat 1) with 1. fold task. fold p.
  by destruct (shared p).
Qed.

Lemma single_worker_keeps_the_order_witness :
  exists (oks : list bool) b d' w',
    Download.run_batch Demo.registry_runtime
      (Download.MkDownloader "offline_images" 1 [] []) Demo.two_images
      [Start; Start; Harvest 3] Demo.empty_world = (Ok (b, d'), w')
    /\ length oks = length Demo.two_images
    /\ Download.downloaded_images d'
       = (Download.downloaded_images
            (Download.MkDownloader "offline_images" 1 [] [])
          ++ (filter (fun e => e.2 = true) (zip Demo.two_images oks)).*1)%list
    /\ Download.failed_images d'
       = (Download.failed_images
            (Download.MkDownloader "offline_images" 1 [] [])
          ++ (filter (fun e => e.2 = false) (zip Demo.two_images oks)).*1)%list.
Proof.
  apply (single_worker_keeps_the_order Demo.registry_runtime
           (Download.MkDownloader "offline_images" 1 [] []) Demo.two_images
           [Start; Start; Harvest 3] Demo.empty_world).
  - reflexivity.
  - discriminate.
Defined.

(** ** Before the batch *)

(** With its parent in place, a missing directory is made by one
    [os.mkdir]. *)
Lemma mkdir_parent_ready rt path w :
  fs w !! path = None -> parent_ready path w ->
  mkdir rt path w = os_mkdir rt path w.
Proof.
  intros Hnone [Hself Hparent]. unfold mkdir.
  rewrite make_dirs_unfold, Hnone.
  destruct (String.eqb_spec (Py.path_parent path) path) as [|_]; [done|].
  destruct (String.eqb_spec (Py.path_parent path) ".") as [|Hdot]; [done|].
  destruct (String.eqb_spec (Py.path_parent path) "/") as [|Hroot]; [done|].
  destruct Hparent as [|[|[size Hdir]]]; [done..|].
  cbn [orb]. by rewrite Hdir.
Qed.

(** X26: the export makes its output directory, with the ancestors it
    lacks, before anything else.  When the path holds something that is no
    directory, or a directory cannot be made, the run ends with that error
    and nothing was run.  With its parent in place the directory alone is
    made when it is missing, and it is left alone when it is there.  In
    every case the files that were there are kept, whatever is new is a
    directory at the path or at an ancestor of it, and when the constructor
    returns the output directory is there. *)
Theorem export_makes_its_directory_first
    (rt : Runtime) (args : Download.Args) (script : list action) (w : World) :
  (forall size c,
     Download.args_consistent args = true ->
     fs w !! Download.output args = Some (File size c) -> c <> Dir ->
     Download.main rt args script w
     = (Raise (Exn FileExistsError
                 ("[Errno 17] File exists: '" ++ Download.output args ++ "'")),
        w))
  /\ (forall e,
        Download.args_consistent args = true ->
        fs w !! Download.output args = None ->
        parent_ready (Download.output args) w ->
        write_error rt (Download.output args) w = Some e ->
        Download.main rt args script w = (Raise e, w))
  /\ (fs w !! Download.output args = None ->
      parent_ready (Download.output args) w ->
      write_error rt (Download.output args) w = None ->
      Download.new rt (Download.output args) (Download.workers args) w
      = (Ok (Download.MkDownloader (Download.output args)
               (Download.workers args) [] []),
         record_event (Mkdir (Download.output args))
           (set_file (Download.output args) (File 0 Dir) w)))
  /\ (forall size,
        fs w !! Download.output args = Some (File size Dir) ->
        Download.new rt (Download.output args) (Download.workers args) w
        = (Ok (Download.MkDownloader (Download.output args)
                 (Download.workers args) [] []), w))
  /\ grown_towards (Download.output args) w
       (Download.new rt (Download.output args) (Download.workers args) w).2
  /\ (forall d w',
        Download.new rt (Download.output args) (Download.workers args) w
        = (Ok d, w') ->
        exists size, fs w' !! Download.output args = Some (File size Dir))
  /\ (forall e w',
        Download.args_consistent args = true ->
        Download.new rt (Download.output args) (Download.workers args) w
        = (Raise e, w') ->
        Download.main rt args script w = (Raise e, w')).
Proof.
  assert (Hmain : forall e w',
            Download.args_consistent args = true ->
            mkdir rt (Download.output args) w = (Raise e, w') ->
            Download.main rt args script w = (Raise e, w')).
  { intros e w' Hargs Hmk.
    unfold Download.main, Download.prepare, Download.new.
    rewrite Hargs. cbn [negb]. unfold bind. by rewrite Hmk. }
  split; [|split; [|split; [|split; [|split; [|split]]]]].
  - intros size c Hargs Hfile Hc. apply Hmain; [done|]. unfold mkdir.
    rewrite make_dirs_unfold, Hfile. by destruct c.
  - intros e Hargs Hnone Hready Hwrite. apply Hmain; [done|].
    rewrite mkdir_parent_ready by done. unfold os_mkdir. by rewrite Hwrite.
  - intros Hnone Hready Hwrite. unfold Download.new, bind, ret.
    rewrite mkdir_parent_ready by done. unfold os_mkdir. by rewrite Hwrite.
  - intros size Hdir. unfold Download.new, mkdir, bind, ret.
    by rewrite make_dirs_unfold, Hdir.
  - pose proof (make_dirs_grows rt (String.length (Download.output args))
                  (Download.output args) w) as Hgrown.
    unfold Download.new, mkdir, bind, ret.
    by destruct (make_dirs rt _ _ w) as [[[]|e] w1].
  - intros d w'. unfold Download.new, mkdir, bind, ret.
    destruct (make_dirs rt _ _ w) as [[[]|e] w1] eqn:Hmk; [|done].
    intros [= _ <-]. by eapply make_dirs_returns.
  - intros e w' Hargs Hnew. apply Hmain; [done|].
    revert Hnew. unfold Download.new, bind, ret.
    by destruct (mkdir rt _ w) as [[[]|e0] w1]; intros [= <- <-].
Qed.

(** An output directory two levels down is made with its parent. *)
Example nested_output_directory_is_made :
  Download.new Demo.local_runtime "build/images" 3 (MkWorld ∅ [])
  = (Ok (Download.MkDownloader "build/images" 3 [] []),
     MkWorld (<["build/images" := File 0 Dir]> (<["build" := File 0 Dir]> ∅))
       [Mkdir "build"; Mkdir "build/images"]).
Proof. vm_compute. reflexivity. Qed.

(** An output path that is a regular file ends the export at once. *)
Example output_path_is_a_file :
  Download.main Demo.local_runtime
    (Download.MkArgs None (Some Demo.two_images) None None "offline_images" 3
       false)
    [] (MkWorld (<["offline_images" := File 12 Blob]> ∅) [])
  = (Raise (Exn FileExistsError "[Errno 17] File exists: 'offline_images'"),
     MkWorld (<["offline_images" := File 12 Blob]> ∅) []).
Proof. vm_compute. reflexivity. Qed.

(** X27: the export's [check_docker] returns [True] exactly when
    [docker --version] exits with 0; the import's exactly when
    [docker --version] and then [docker info] both do. *)
Theorem runtime_checks_of_the_two_programs (rt : Runtime) (w w' : World) :
  let version := ["docker"; "--version"] in
  let info := ["docker"; "info"] in
  (Download.check_docker rt w = (Ok true, w')
   <-> (exists out err, run_process rt version w = Exited 0 out err)
       /\ w' = record_event (Exec version) w)
  /\ (Importing.check_docker rt w = (Ok true, w')
      <-> (exists out err, run_process rt version w = Exited 0 out err)
          /\ (exists out err,
                run_process rt info (record_event (Exec version) w)
                = Exited 0 out err)
          /\ w' = record_event (Exec info) (record_event (Exec version) w)).
Proof.
  cbv zeta. split.
  - unfold Download.check_docker, try_except, subprocess_run_check,
      subprocess_run, bind, ret, raise.
    destruct (run_process rt _ w) as [e|rc out err].
    + split; [|by intros [(? & ? & [=]) _]].
      by destruct (_ || _).
    + cbn [fst]. destruct (Z.eqb_spec rc 0) as [->|Hrc].
      * split; [intros [= <-]; eauto|]. by intros [_ ->].
      * cbn. split; [done|]. intros [(? & ? & [= ? _ _]) _]. done.
  - unfold Importing.check_docker, try_except, subprocess_run_check,
      subprocess_run, bind, ret, raise.
    destruct (run_process rt ["docker"; "--version"] w) as [e|rc out err].
    + split; [|by intros [(? & ? & [=]) _]].
      by destruct (_ || _).
    + cbn [fst]. destruct (Z.eqb_spec rc 0) as [->|Hrc].
      2:{ cbn. split; [done|]. intros [(? & ? & [= ? _ _]) _]. done. }
      destruct (run_process rt ["docker"; "info"] _) as [e|rc' out' err'].
      * split; [|by intros (_ & (? & ? & [=]) & _)].
        by destruct (_ || _).
      * cbn [fst]. destruct (Z.eqb_spec rc' 0) as [->|Hrc'].
        -- split; [intros [= <-]; eauto 10|]. by intros (_ & _ & ->).
        -- cbn. split; [done|]. intros (_ & (? & ? & [= ? _ _]) & _). done.
Qed.

(** X28: a predefined set is empty (unknown database or version) or holds
    two images: the Confluence image whose tag is the version key without its
    [confluence_] prefix, then the image of the database asked for. *)
Theorem predefined_sets_match_their_keys (db_type confluence_version : string) :
  Download.get_predefined_images db_type confluence_version = []
  \/ exists tag db_image,
       confluence_version = "confluence_" ++ tag
       /\ Download.get_predefined_images db_type confluence_version
          = ["haxqer/confluence:" ++ tag; db_image]
       /\ ((db_type = "mysql" /\ db_image = "mysql:8.0")
           \/ (db_type = "postgresql" /\ db_image = "postgres:15")).
Proof.
  unfold Download.get_predefined_images, Download.image_configs, lookup_key.
  cbn -[String.eqb].
  destruct (String.eqb_spec "mysql" db_type) as [<-|_];
    [|destruct (String.eqb_spec "postgresql" db_type) as [<-|_]; [|by left]];
    cbn -[String.eqb];
    (destruct (String.eqb_spec "confluence_9.2.1" confluence_version) as [<-|_];
     [|destruct (String.eqb_spec "confluence_8.5.23" confluence_version)
         as [<-|_]; [|by left]]);
    cbn; right; eexists _, _; split; try reflexivity; split; try reflexivity;
    auto.
Qed.

(** ** After the import batch *)

(** X29: [list_imported_images] returns whatever status its command exits
    with; a command that cannot be started ends the run with that error,
    hence with status 1, whatever the batch did and whether or not the
    dangling images were cleaned up before. *)
Theorem listing_fails_only_when_it_cannot_start
    (rt : Runtime) (args : Importing.Args) (script : list action)
    (w : World) :
  let listing :=
    ["docker"; "images"; "--format";
     "table {{.Repository}}:{{.Tag}}" ++ String "009" "{{.Size}}"
       ++ String "009" "{{.CreatedAt}}"] in
  (forall w2 rc out err,
     run_process rt listing w2 = Exited rc out err ->
     Importing.list_imported_images rt w2
     = (Ok tt, record_event (Exec listing) w2))
  /\ (forall i tar_files w1 b i' w2 e,
        let w3 :=
          if Importing.cleanup args
          then (Importing.cleanup_dangling_images rt w2).2 else w2 in
        Importing.prepare rt args w = (Ok (inr (i, tar_files)), w1) ->
        Importing.run_batch rt i tar_files (Importing.force args) script w1
        = (Ok (b, i'), w2) ->
        Importing.list_after args = true ->
        run_process rt listing w3 = SpawnError e ->
        is_kind CalledProcessError e = false ->
        Importing.main rt args script w
        = (Raise e, record_event (Exec listing) w3)
        /\ exit_status (Importing.main rt args script w).1 = 1%Z).
Proof.
  cbv zeta. split.
  - intros w2 rc out err Hrun.
    unfold Importing.list_imported_images, try_except, subprocess_run_check,
      subprocess_run, bind, ret, raise.
    rewrite Hrun. cbn [fst]. by destruct (rc =? 0)%Z.
  - intros i tar_files w1 b i' w2 e Hp Hb Hlist Hrun Hkind.
    set (w3 := if Importing.cleanup args
               then (Importing.cleanup_dangling_images rt w2).2 else w2) in *.
    assert (Hclean : (if Importing.cleanup args
                      then Importing.cleanup_dangling_images rt
                      else ret tt) w2 = (Ok tt, w3)).
    { unfold w3. destruct (Importing.cleanup args); [|done].
      by destruct (cleanup_dangling_images_returns rt w2) as [w' ->]. }
    assert (Hmain : Importing.main rt args script w
                    = (Raise e,
                       record_event
                         (Exec ["docker"; "images"; "--format";
                                "table {{.Repository}}:{{.Tag}}"
                                  ++ String "009" "{{.Size}}"
                                  ++ String "009" "{{.CreatedAt}}"]) w3)).
    { rewrite import_main_cases, Hp, import_finish_cases, Hb.
      unfold Importing.after_batch. rewrite Hlist.
      unfold bind at 1. rewrite Hclean.
      unfold Importing.list_imported_images, try_except, subprocess_run_check,
        subprocess_run, bind, ret, raise.
      rewrite Hrun. by rewrite Hkind. }
    by rewrite Hmain.
Qed.

(** A clean import whose listing cannot be started ends with 1. *)
Example clean_import_ends_with_1_without_listing :
  (Importing.main Demo.no_listing_runtime
     (Importing.MkArgs "offline_images" (Some ["mysql-8.0.tar"]) 2 false false
        true true)
     [] Demo.archived_world).1
  = Raise (Exn OSError "[Errno 12] Cannot allocate memory")
  /\ (Importing.run_batch Demo.no_listing_runtime Demo.importer
        ["offline_images/mysql-8.0.tar"] false [] 
        (Importing.prepare Demo.no_listing_runtime
           (Importing.MkArgs "offline_images" (Some ["mysql-8.0.tar"]) 2 false
              false true true) Demo.archived_world).2).1
     = Ok (true,
           Importing.MkImporter "offline_images" 2 ["unknown"] [] []).
Proof. split; vm_compute; reflexivity. Qed.

(** ** The work set of an export *)

(** X30: with [--compose] the work set is read from the compose file, once
    the output directory is made and the runtime found usable.  A file that
    is not there, and a directory in its place, end the run with status 1
    before anything is pulled.  A compose document whose services name
    their images by a text hands the batch the images of the services that
    have one, in the order of the document, and ends the run with status 1
    when no service has one. *)
Theorem compose_file_decides_the_work_set
    (rt : Runtime) (args : Download.Args) (w : World) (c : string)
    (d : Download.DockerImageDownloader) (w0 w1 : World) :
  Download.compose args = Some c ->
  c <> "" ->
  Download.args_consistent args = true ->
  Download.new rt (Download.output args) (Download.workers args) w
  = (Ok d, w0) ->
  Download.check_docker rt w0 = (Ok true, w1) ->
  (fs w1 !! c = None ->
   forall script, Download.main rt args script w = (Ok 1%Z, w1))
  /\ (forall size,
        fs w1 !! c = Some (File size Dir) ->
        forall script, Download.main rt args script w = (Ok 1%Z, w1))
  /\ (forall size services,
        fs w1 !! c = Some (File size (Compose services)) ->
        Download.prepare rt args w
        = (Ok (match omap snd services with
               | [] => inl 1%Z
               | image :: images => inr (d, image :: images)
               end), w1)).
Proof.
  intros Hc Hne Hargs Hnew Hcheck.
  assert (Htruthy : truthy_opt (Some c) = true) by (by destruct c).
  assert (Hprepare : forall selected,
            Download.select_images args w1 = (Ok selected, w1) ->
            Download.prepare rt args w
            = (Ok (match selected with
                   | None | Some [] => inl 1%Z
                   | Some (image :: images) => inr (d, image :: images)
                   end), w1)).
  { intros selected Hsel. unfold Download.prepare. rewrite Hargs.
    cbn [negb]. unfold bind at 1. rewrite Hnew.
    unfold bind at 1. rewrite Hcheck. cbn [negb].
    unfold bind at 1. rewrite Hsel. by destruct selected as [[|? ?]|]. }
  assert (Hmain : forall script,
            Download.select_images args w1 = (Ok None, w1)
            \/ Download.select_images args w1 = (Ok (Some []), w1) ->
            Download.main rt args script w = (Ok 1%Z, w1)).
  { intros script [Hsel|Hsel]; unfold Download.main; unfold bind at 1;
      by rewrite (Hprepare _ Hsel). }
  split; [|split].
  - intros Hnone script. apply Hmain. left.
    unfold Download.select_images. rewrite Hc, Htruthy.
    cbn [default from_option id]. unfold bind, exists_.
    by rewrite (path_exists_none _ _ Hnone).
  - intros size Hdir script. apply Hmain. right.
    unfold Download.select_images. rewrite Hc, Htruthy.
    cbn [default from_option id]. unfold bind, exists_.
    rewrite (path_exists_lookup _ _ _ Hdir). cbn [negb].
    unfold map_ret, bind, ret, Download.parse_compose_file. by rewrite Hdir.
  - intros size services Hfile.
    rewrite (Hprepare (Some (omap snd services))); [done|].
    unfold Download.select_images. rewrite Hc, Htruthy.
    cbn [default from_option id]. unfold bind, exists_.
    rewrite (path_exists_lookup _ _ _ Hfile). cbn [negb].
    unfold map_ret, bind, ret, Download.parse_compose_file. by rewrite Hfile.
Qed.

Lemma compose_file_decides_the_work_set_witness :
  let args :=
    Download.MkArgs (Some "docker-compose.yml") None None None
      "offline_images" 3 false in
  let w1 := record_event (Exec ["docker"; "--version"]) Demo.compose_world in
  (fs w1 !! "docker-compose.yml" = None ->
   forall script,
     Download.main Demo.local_runtime args script Demo.compose_world
     = (Ok 1%Z, w1))
  /\ (forall size,
        fs w1 !! "docker-compose.yml" = Some (File size Dir) ->
        forall script,
          Download.main Demo.local_runtime args script Demo.compose_world
          = (Ok 1%Z, w1))
  /\ (forall size services,
        fs w1 !! "docker-compose.yml" = Some (File size (Compose services)) ->
        Download.prepare Demo.local_runtime args Demo.compose_world
        = (Ok (match omap snd services with
               | [] => inl 1%Z
               | image :: images => inr (Demo.downloader, image :: images)
               end), w1)).
Proof.
  apply (compose_file_decides_the_work_set Demo.local_runtime
           (Download.MkArgs (Some "docker-compose.yml") None None None
              "offline_images" 3 false) Demo.compose_world
           "docker-compose.yml" Demo.downloader Demo.compose_world
           (record_event (Exec ["docker"; "--version"]) Demo.compose_world)).
  - reflexivity.
  - discriminate.
  - reflexivity.
  - vm_compute. reflexivity.
  - vm_compute. reflexivity.
Defined.

(** A compose file with three services, one of them built locally: the
    batch gets the images of the two others. *)
Example compose_file_with_three_services :
  Download.prepare Demo.local_runtime
    (Download.MkArgs (Some "docker-compose.yml") None None None
       "offline_images" 3 false) Demo.compose_world
  = (Ok (inr (Demo.downloader, Demo.two_images)),
     record_event (Exec ["docker"; "--version"]) Demo.compose_world).
Proof. vm_compute. reflexivity. Qed.
